(** * AV-ETL-API: the scheduling and pipeline-orchestration core

    A shallow embedding of the intraday ETL pipeline (extract, transform,
    load), of the market scheduler and of the streaming worker, followed by
    the properties of the specification that were checked against it.

    Layout: Part I holds the embedding (one block per source file), Part II
    the lemmas and theorems. *)

From Stdlib Require Import ZArith QArith Bool List Lia Lqa Ascii String.
From stdpp Require Import base gmap strings list fin_maps.

Close Scope Q_scope.
Open Scope Z_scope.

(* ===================================================================== *)
(** * Part I: the embedding                                               *)
(* ===================================================================== *)

(** ** Python values used by the code *)

(** A Python [float]: a finite value (every finite double is a rational),
    an infinity or NaN.  Comparisons are the IEEE ones Python uses: every
    ordered comparison with NaN is false. *)
Inductive pyfloat :=
| PFin (q : Q)
| PInf (negative : bool)
| PNaN.

Definition Qlt_bool (a b : Q) : bool := negb (Qle_bool b a).

(** [a < b] on floats. *)
Definition float_lt (a b : pyfloat) : bool :=
  match a, b with
  | PNaN, _ | _, PNaN => false
  | PFin x, PFin y => Qlt_bool x y
  | PFin _, PInf neg => negb neg
  | PInf neg, PFin _ => neg
  | PInf n1, PInf n2 => n1 && negb n2
  end.

(** [a <= b] on floats. *)
Definition float_le (a b : pyfloat) : bool :=
  match a, b with
  | PNaN, _ | _, PNaN => false
  | PFin x, PFin y => Qle_bool x y
  | PFin _, PInf neg => negb neg
  | PInf neg, PFin _ => neg
  | PInf n1, PInf n2 => n1 || negb n2
  end.

(** [a > b] is [b < a]. *)
Definition float_gt (a b : pyfloat) : bool := float_lt b a.

(** The builtin [max(a, b)]: keeps [a] unless [b > a]. *)
Definition py_max (a b : pyfloat) : pyfloat := if float_gt b a then b else a.

(** The builtin [min(a, b)]: keeps [a] unless [b < a]. *)
Definition py_min (a b : pyfloat) : pyfloat := if float_lt b a then b else a.

(** An [int] literal used where a float is expected. *)
Definition float_of_Z (z : Z) : pyfloat := PFin (inject_Z z).

(** The exceptions the modelled code raises or catches.  [Timeout] and
    [JSONDecodeError] are the [requests.exceptions] classes, both subclasses
    of [RequestException]. *)
Inductive Exn :=
| KeyError (key : string)
| ValueError (msg : string)
| TypeError (msg : string)
| AttributeError (msg : string)
| OverflowError (msg : string)
| RequestException (msg : string)
| Timeout (msg : string)
| JSONDecodeError (msg : string)
| DatabaseError (msg : string)
| Exception (msg : string).

(** [str(e)]: a [KeyError] prints the repr of its key. *)
Definition str (e : Exn) : string :=
  match e with
  | KeyError k => "'" +:+ k +:+ "'"
  | ValueError m | TypeError m | AttributeError m | OverflowError m
  | RequestException m | Timeout m | JSONDecodeError m
  | DatabaseError m | Exception m => m
  end.

(** The result of a call that may raise. *)
Inductive Res (A : Type) :=
| Ok (a : A)
| Err (e : Exn).
Arguments Ok {A} a.
Arguments Err {A} e.

(** ** [datetime]

    A naive [datetime] is a proleptic Gregorian day number (what
    [toordinal()] returns; day 1 is Monday 0001-01-01) and a time of day.
    The upper bound of the type (year 9999) is not modelled. *)
Record datetime := {
  dt_ordinal : Z;
  dt_hour : Z;
  dt_minute : Z;
  dt_second : Z;
  dt_microsecond : Z
}.

#[global] Instance datetime_eq_dec : EqDecision datetime.
Proof. solve_decision. Defined.

Definition is_leap (y : Z) : bool :=
  (y mod 4 =? 0) && (negb (y mod 100 =? 0) || (y mod 400 =? 0)).

Definition days_before_year (y : Z) : Z :=
  let p := y - 1 in p * 365 + p / 4 - p / 100 + p / 400.

Definition days_before_month (y m : Z) : Z :=
  nth (Z.to_nat m) [0; 0; 31; 59; 90; 120; 151; 181; 212; 243; 273; 304; 334] 0
  + (if (2 <? m) && is_leap y then 1 else 0).

(** The constructor [datetime(year, month, day, hour, minute)]. *)
Definition mk_datetime (y m d hh mm : Z) : datetime :=
  {| dt_ordinal := days_before_year y + days_before_month y m + d;
     dt_hour := hh; dt_minute := mm; dt_second := 0; dt_microsecond := 0 |}.

(** [dt.weekday()]: Monday is 0, Sunday is 6. *)
Definition weekday (dt : datetime) : Z := (dt_ordinal dt + 6) mod 7.

(** [dt + timedelta(days=n)]. *)
Definition add_days (dt : datetime) (n : Z) : datetime :=
  {| dt_ordinal := dt_ordinal dt + n;
     dt_hour := dt_hour dt; dt_minute := dt_minute dt;
     dt_second := dt_second dt; dt_microsecond := dt_microsecond dt |}.

(** [dt.replace(hour=h, minute=0, second=0, microsecond=0)]; an hour outside
    0..23 raises [ValueError]. *)
Definition replace_hour (dt : datetime) (h : Z) : Res datetime :=
  if (0 <=? h) && (h <=? 23)
  then Ok {| dt_ordinal := dt_ordinal dt; dt_hour := h;
             dt_minute := 0; dt_second := 0; dt_microsecond := 0 |}
  else Err (ValueError "hour must be in 0..23").

(** The instant of day [d] at [h] o'clock sharp. *)
Definition at_hour (d : datetime) (h : Z) : datetime :=
  {| dt_ordinal := dt_ordinal d; dt_hour := h;
     dt_minute := 0; dt_second := 0; dt_microsecond := 0 |}.

(** The position of an instant on the time line, in microseconds; naive
    datetimes compare by it. *)
Definition dt_micros (dt : datetime) : Z :=
  (((dt_ordinal dt * 24 + dt_hour dt) * 60 + dt_minute dt) * 60
   + dt_second dt) * 1000000 + dt_microsecond dt.

(** [a < b] on datetimes. *)
Definition dt_lt (a b : datetime) : bool := dt_micros a <? dt_micros b.

(** ** JSON values, as [response.json()] returns them

    An object keeps its members in order (a Python [dict] does); its keys
    are meant to be distinct and a lookup takes the first match. *)
#[local] Unset Elimination Schemes.
Inductive Json :=
| JNull
| JBool (b : bool)
| JInt (z : Z)
| JFloat (f : pyfloat)
| JString (s : string)
| JArray (items : list Json)
| JObject (members : list (string * Json)).
#[local] Set Elimination Schemes.

(** Truth value of a decoded JSON value ([not v] is its negation). *)
Definition truthy (v : Json) : bool :=
  match v with
  | JNull => false
  | JBool b => b
  | JInt z => negb (z =? 0)
  | JFloat (PFin q) => negb (Qeq_bool q 0)
  | JFloat _ => true
  | JString s => negb (String.eqb s "")
  | JArray items => match items with [] => false | _ => true end
  | JObject members => match members with [] => false | _ => true end
  end.

(** [d.get(key)] on the members of an object. *)
Fixpoint dict_get (key : string) (members : list (string * Json)) : option Json :=
  match members with
  | [] => None
  | (k, v) :: rest => if String.eqb k key then Some v else dict_get key rest
  end.

(** What the code takes from the Python runtime and its libraries: the
    parsers behind [float(str)], [int(str)] and [float(int)],
    [datetime.strptime] and [dateutil.parser.parse].  [None] stands for the
    [ValueError] each raises on text it does not accept. *)
Class PyRuntime := {
  float_of_str : string -> option pyfloat;
  float_of_int : Z -> Res pyfloat;
  int_of_str : string -> option Z;
  strptime : string -> string -> option datetime;
  dateutil_parse : string -> option datetime
}.

(** The builtin [float(v)]. *)
Definition py_float `{PyRuntime} (v : Json) : Res pyfloat :=
  match v with
  | JString s =>
      match float_of_str s with
      | Some f => Ok f
      | None => Err (ValueError ("could not convert string to float: " +:+ s))
      end
  | JFloat f => Ok f
  | JInt z => float_of_int z
  | JBool b => Ok (float_of_Z (if b then 1 else 0))
  | JNull | JArray _ | JObject _ =>
      Err (TypeError "float() argument must be a string or a real number")
  end.

(** Truncation towards zero of a rational. *)
Definition Qtrunc (q : Q) : Z := Z.quot (Qnum q) (Zpos (Qden q)).

(** The builtin [int(v)]. *)
Definition py_int `{PyRuntime} (v : Json) : Res Z :=
  match v with
  | JString s =>
      match int_of_str s with
      | Some z => Ok z
      | None => Err (ValueError ("invalid literal for int() with base 10: " +:+ s))
      end
  | JInt z => Ok z
  | JFloat (PFin q) => Ok (Qtrunc q)
  | JFloat (PInf _) => Err (OverflowError "cannot convert float infinity to integer")
  | JFloat PNaN => Err (ValueError "cannot convert float NaN to integer")
  | JBool b => Ok (if b then 1 else 0)
  | JNull | JArray _ | JObject _ =>
      Err (TypeError "int() argument must be a string, a bytes-like object or a real number")
  end.

(** ** MODELS/models.py *)

Record Stock := {
  symbol : string;
  company_name : string;
  exchange : string;
  currency : string;
  is_active : bool;
  created_at : datetime;
  updated_at : datetime
}.

Record StockPriceIntraday := {
  stock_symbol : string;
  timestamp : datetime;
  open_price : pyfloat;
  high_price : pyfloat;
  low_price : pyfloat;
  close_price : pyfloat;
  volume : Z;
  interval : string
}.

(** The natural key of a price record. *)
Definition PriceKey : Type := string * datetime * string.

Definition price_key (r : StockPriceIntraday) : PriceKey :=
  (stock_symbol r, timestamp r, interval r).

(** ** The store (DB/database.py) *)

Record StockRow := {
  sr_symbol : string;
  sr_name : string;
  sr_exchange : string;
  sr_is_active : bool;
  sr_created_at : datetime
}.

Record PriceRow := {
  pr_stock_symbol : string;
  pr_timestamp : datetime;
  pr_open_price : pyfloat;
  pr_high_price : pyfloat;
  pr_low_price : pyfloat;
  pr_close_price : pyfloat;
  pr_volume : Z;
  pr_interval : string;
  pr_created_at : datetime;
  pr_updated_at : datetime
}.

Definition row_key (r : PriceRow) : PriceKey :=
  (pr_stock_symbol r, pr_timestamp r, pr_interval r).

Inductive JobStatus := SUCCESS | FAILED | RUNNING.

Record JobLogRow := {
  jl_job_name : string;
  jl_status : JobStatus;
  jl_start_time : datetime;
  jl_end_time : datetime;
  jl_records_processed : Z;
  jl_total_records : Z;
  jl_error_message : option string;
  jl_created_at : datetime
}.

Record Tables := {
  stocks : list StockRow;
  stock_prices_intraday : list PriceRow;
  etl_job_logs : list JobLogRow
}.

(** The statements the loader and the pipeline submit, with their
    parameters.  [Connect] is the creation of the connection pool. *)
Inductive Stmt :=
| Connect
| SelectStock (sym : string)
| InsertStock (row : StockRow)
| SelectPrice (key : PriceKey)
| UpdatePrice (o h l c : pyfloat) (v : Z) (updated : datetime) (key : PriceKey)
| InsertPrice (row : PriceRow)
| InsertJobLog (row : JobLogRow).

Definition key_eqb (a b : PriceKey) : bool := bool_decide (a = b).

(** [UPDATE ... SET open_price, high_price, low_price, close_price, volume,
    updated_at WHERE key] on one row. *)
Definition update_row (o h l c : pyfloat) (v : Z) (updated : datetime)
    (key : PriceKey) (r : PriceRow) : PriceRow :=
  if key_eqb (row_key r) key then
    {| pr_stock_symbol := pr_stock_symbol r; pr_timestamp := pr_timestamp r;
       pr_open_price := o; pr_high_price := h; pr_low_price := l;
       pr_close_price := c; pr_volume := v; pr_interval := pr_interval r;
       pr_created_at := pr_created_at r; pr_updated_at := updated |}
  else r.

(** What an accepted statement does to the tables, and the row a
    [fetch_one] would return (its position in the table). *)
Definition run_stmt (q : Stmt) (t : Tables) : Tables * option nat :=
  match q with
  | Connect => (t, None)
  | SelectStock sym =>
      (t, fst <$> list_find (fun r => sr_symbol r = sym) (stocks t))
  | InsertStock row =>
      (* ON CONFLICT (symbol) DO NOTHING *)
      if bool_decide (Exists (fun r => sr_symbol r = sr_symbol row) (stocks t))
      then (t, None)
      else ({| stocks := stocks t ++ [row];
               stock_prices_intraday := stock_prices_intraday t;
               etl_job_logs := etl_job_logs t |}, None)
  | SelectPrice key =>
      (t, fst <$> list_find (fun r => row_key r = key) (stock_prices_intraday t))
  | UpdatePrice o h l c v updated key =>
      ({| stocks := stocks t;
          stock_prices_intraday :=
            update_row o h l c v updated key <$> stock_prices_intraday t;
          etl_job_logs := etl_job_logs t |}, None)
  | InsertPrice row =>
      ({| stocks := stocks t;
          stock_prices_intraday := stock_prices_intraday t ++ [row];
          etl_job_logs := etl_job_logs t |}, None)
  | InsertJobLog row =>
      ({| stocks := stocks t;
          stock_prices_intraday := stock_prices_intraday t;
          etl_job_logs := etl_job_logs t ++ [row] |}, None)
  end.

(** ** The world the pipeline runs in *)

(** The dictionary [extract_intraday_data] builds under ['metadata']. *)
Record ApiMetadata := {
  last_refreshed : Json;
  api_timezone : Json;
  extraction_timestamp : datetime
}.

(** The dictionary [extract_intraday_data] returns.  It is handled as a
    [Dict[str, Any]] downstream, so each key may be absent. *)
Record RawData := {
  rd_symbol : option string;
  rd_interval : option string;
  rd_time_series : option Json;
  rd_metadata : option ApiMetadata
}.

(** What one HTTP exchange with the provider comes to: [session.get],
    [raise_for_status] or [response.json] raised, or the decoded body, a
    JSON object. *)
Inductive HttpResult :=
| HttpRaises (e : Exn)
| HttpJson (data : list (string * Json)).

Inductive Level := DEBUG | INFO | WARNING | ERROR.

(** One constructor per [logger] call of the modelled functions, carrying
    the values its message interpolates. *)
Inductive LogMsg :=
(* DB/database.py *)
| PoolInitialized
| PoolInitFailed (e : Exn)
| QueryExecutionFailed (e : Exn)
(* ETL/extract.py *)
| ExtractingIntraday (sym itv : string)
| ApiError (sym : string) (message : Json)
| ApiRateLimitNote (sym : string) (note : Json)
| NoTimeSeriesFound (sym : string) (data : list (string * Json))
| NoIntradayDataAvailable (sym : string)
| ExtractedDataPoints (n : Z) (sym : string)
| RequestFailed (sym : string) (e : Exn)
| RequestTimeout (sym : string)
| InvalidJsonResponse (sym : string) (e : Exn)
| UnexpectedExtractError (sym : string) (e : Exn)
(* ETL/transform.py *)
| InvalidRawData
| TransformingIntraday (sym itv : string)
| NoValidPriceRecords (sym : string)
| TransformedPriceRecords (n : Z) (sym : string)
| ErrorTransforming (sym : string) (e : Exn)
| InvalidPriceDataSkipping (sym ts : string)
| ErrorParsingPriceData (sym ts : string) (e : Exn)
| UnexpectedPriceObjectError (sym ts : string) (e : Exn)
| FailedToParseTimestamp (ts : string) (e : Exn)
(* load.py *)
| StockAlreadyExists (sym : string)
| StockLoaded (sym : string)
| FailedToLoadStock (sym : string) (e : Exn)
| NoPriceRecordsToLoad (sym : string)
| LoadedPriceRecords (loaded total : Z) (sym : string)
| FailedToLoadPriceRecords (sym : string) (e : Exn)
| UpdatedPriceRecord (sym : string) (ts : datetime)
| InsertedPriceRecord (sym : string) (ts : datetime)
| FailedToLoadPriceRecord (sym : string) (ts : datetime) (e : Exn)
| NoTransformedData
| LoadingTransformedData (sym : string)
| FailedToLoadTransformedData (e : Exn)
| FailedToLogEtlJob (e : Exn)
(* intraday_pipeline.py *)
| StartingPipeline (sym itv : string)
| StepExtracting (sym : string)
| ExtractionFailed (sym : string)
| StepTransforming (sym : string)
| TransformationFailed (sym : string)
| StepLoading (sym : string)
| LoadingFailed (sym : string) (error : string)
| PipelineCompleted (sym : string) (records : Z)
| PipelineFailed (sym : string) (e : Exn)
| StartingBatch (n : Z)
| FailedToProcess (sym : string) (e : Exn)
| BatchCompleted (total : Z)
(* STREAM_N_POLLING/streaming_service.py *)
| AlreadyRunning
| StartedStreaming (n : Z) (minutes : Z)
| ReachedMaximumIterations (cap : Z)
| StreamingCycle (iteration : Z) (start : datetime)
| CycleCompleted (iteration : Z) (total : Z)
| CycleSymbolRecords (sym : string) (count : Z)
| CallbackFailed (e : Exn)
| ErrorInStreamingCycle (iteration : Z) (e : Exn)
| NextCycleScheduled (start : datetime) (minutes : Z)
| UnexpectedWorkerError (e : Exn)
| WorkerStopped.

Definition LogRecord : Type := Level * LogMsg.

(** Everything an ETL call reads or changes.  [engine_refuses n q] tells
    whether the storage engine refuses statement [q] when it is the [n]-th
    request it receives (a lost connection, a violated constraint): the
    engine is a collaborator, so its verdicts are an input.  [provider] is
    the data provider's answer to a request for a symbol and an interval.
    [log] holds the [logger] output, most recent first.  [utcnow] is what
    [datetime.utcnow()] returns: a run is modelled at one instant, the time
    its calls and sleeps take is not. *)
Record World := {
  connection_pool : bool;
  engine_refuses : nat -> Stmt -> bool;
  requests : nat;
  tables : Tables;
  utcnow : datetime;
  provider : string -> string -> HttpResult;
  log : list LogRecord
}.

Definition with_log (w : World) (l : list LogRecord) : World :=
  {| connection_pool := connection_pool w; engine_refuses := engine_refuses w;
     requests := requests w; tables := tables w; utcnow := utcnow w;
     provider := provider w; log := l |}.

Definition with_pool (w : World) (b : bool) : World :=
  {| connection_pool := b; engine_refuses := engine_refuses w;
     requests := requests w; tables := tables w; utcnow := utcnow w;
     provider := provider w; log := log w |}.

Definition with_request (w : World) (t : Tables) : World :=
  {| connection_pool := connection_pool w; engine_refuses := engine_refuses w;
     requests := S (requests w); tables := t; utcnow := utcnow w;
     provider := provider w; log := log w |}.

(** A computation that reads and changes the world and returns or raises. *)
Definition M (A : Type) : Type := World -> World * Res A.

Definition ret {A : Type} (a : A) : M A := fun w => (w, Ok a).

Definition raise {A : Type} (e : Exn) : M A := fun w => (w, Err e).

Definition bind {A B : Type} (m : M A) (k : A -> M B) : M B :=
  fun w =>
    match m w with
    | (w', Ok a) => k a w'
    | (w', Err e) => (w', Err e)
    end.

(** [try: body except Exception as e: handler e]. *)
Definition try_except {A : Type} (body : M A) (handler : Exn -> M A) : M A :=
  fun w =>
    match body w with
    | (w', Ok a) => (w', Ok a)
    | (w', Err e) => handler e w'
    end.

Declare Scope etl_scope.
Delimit Scope etl_scope with etl.
Notation "'let*' x ':=' m 'in' k" := (bind m (fun x => k))
  (at level 10, x name, m at level 99, k at level 200) : etl_scope.
Notation "m '>>' k" := (bind m (fun _ => k))
  (at level 100, k at level 200, right associativity) : etl_scope.
Open Scope etl_scope.

Definition logger (lvl : Level) (msg : LogMsg) : M unit :=
  fun w => (with_log w ((lvl, msg) :: log w), Ok tt).

Definition get_utcnow : M datetime := fun w => (w, Ok (utcnow w)).

(** Lifting of a value that may be an exception. *)
Definition lift {A : Type} (r : Res A) : M A := fun w => (w, r).

(** [d[key]] on a dictionary entry that may be absent. *)
Definition getitem {A : Type} (key : string) (entry : option A) : M A :=
  match entry with
  | Some a => ret a
  | None => raise (KeyError key)
  end.

(** *** DatabaseManager *)

(** [init_connection_pool]: logs and re-raises when the pool cannot be
    created. *)
Definition init_connection_pool : M unit :=
  fun w =>
    if engine_refuses w (requests w) Connect
    then
      let e := DatabaseError "could not connect to server" in
      (with_log (with_request w (tables w)) ((ERROR, PoolInitFailed e) :: log w),
       Err e)
    else
      (with_log (with_pool (with_request w (tables w)) true)
         ((INFO, PoolInitialized) :: log w),
       Ok tt).

(** [execute_query]: without a pool [get_connection] raises; a statement
    the engine refuses is rolled back; either failure is logged and
    re-raised. *)
Definition execute_query (q : Stmt) : M (option nat) :=
  fun w =>
    if negb (connection_pool w) then
      let e := Exception "Database connection pool not initialized" in
      (with_log w ((ERROR, QueryExecutionFailed e) :: log w), Err e)
    else if engine_refuses w (requests w) q then
      let e := DatabaseError "statement refused" in
      (with_log (with_request w (tables w))
         ((ERROR, QueryExecutionFailed e) :: log w), Err e)
    else
      let '(t, result) := run_stmt q (tables w) in
      (with_request w t, Ok result).

(** ** ETL/extract.py *)

Definition upper_ascii (c : ascii) : ascii :=
  let n := nat_of_ascii c in
  if ((97 <=? n) && (n <=? 122))%nat then ascii_of_nat (n - 32) else c.

(** [s.upper()] on ASCII text. *)
Fixpoint upper (s : string) : string :=
  match s with
  | EmptyString => EmptyString
  | String c rest => String (upper_ascii c) (upper rest)
  end.

(** The builtin [len(v)]. *)
Definition py_len (v : Json) : Res Z :=
  match v with
  | JString s => Ok (Z.of_nat (String.length s))
  | JArray items => Ok (Z.of_nat (length items))
  | JObject members => Ok (Z.of_nat (length members))
  | JNull | JBool _ | JInt _ | JFloat _ => Err (TypeError "object has no len()")
  end.

(** [data.get('Meta Data', {}).get(field, '')]. *)
Definition meta_data_get (data : list (string * Json)) (field : string) : Res Json :=
  match dict_get "Meta Data" data with
  | None => Ok (JString "")
  | Some (JObject members) =>
      Ok (match dict_get field members with Some v => v | None => JString "" end)
  | Some _ => Err (AttributeError "object has no attribute 'get'")
  end.

(** The request of [extract_intraday_data]: [session.get],
    [raise_for_status] and [response.json]. *)
Definition http_get (sym itv : string) : M (list (string * Json)) :=
  fun w =>
    match provider w sym itv with
    | HttpRaises e => (w, Err e)
    | HttpJson data => (w, Ok data)
    end.

(** [isinstance(e, requests.exceptions.RequestException)]. *)
Definition is_RequestException (e : Exn) : bool :=
  match e with
  | RequestException _ | Timeout _ | JSONDecodeError _ => true
  | _ => false
  end.

(** The [except] clauses of [extract_intraday_data], tried in order. *)
Definition extract_handler (sym : string) (e : Exn) : M (option RawData) :=
  if is_RequestException e then
    logger ERROR (RequestFailed sym e) >> ret None
  else match e with
       | Timeout _ => logger ERROR (RequestTimeout sym) >> ret None
       | JSONDecodeError _ => logger ERROR (InvalidJsonResponse sym e) >> ret None
       | _ => logger ERROR (UnexpectedExtractError sym e) >> ret None
       end.

(** [DataExtractor.extract_intraday_data].  The call to [_rate_limit] that
    opens the [try] is left out: it sleeps until twelve seconds have passed
    since the previous request, logs one INFO line when it does, and keeps
    the time of the request in the extractor; none of this reaches the value
    returned. *)
Definition extract_intraday_data (sym itv : string) : M (option RawData) :=
  try_except
    (logger INFO (ExtractingIntraday sym itv) >>
     let* data := http_get (upper sym) itv in
     match dict_get "Error Message" data with
     | Some message => logger ERROR (ApiError sym message) >> ret None
     | None =>
     match dict_get "Note" data with
     | Some note => logger WARNING (ApiRateLimitNote sym note) >> ret None
     | None =>
     let time_series_key := "Time Series (" +:+ itv +:+ ")" in
     match dict_get time_series_key data with
     | None => logger ERROR (NoTimeSeriesFound sym data) >> ret None
     | Some time_series_data =>
         if negb (truthy time_series_data) then
           logger WARNING (NoIntradayDataAvailable sym) >> ret None
         else
           let* n := lift (py_len time_series_data) in
           logger INFO (ExtractedDataPoints n sym) >>
           let* refreshed := lift (meta_data_get data "3. Last Refreshed") in
           let* tz := lift (meta_data_get data "6. Time Zone") in
           let* now := get_utcnow in
           ret (Some {| rd_symbol := Some (upper sym);
                        rd_interval := Some itv;
                        rd_time_series := Some time_series_data;
                        rd_metadata :=
                          Some {| last_refreshed := refreshed;
                                  api_timezone := tz;
                                  extraction_timestamp := now |} |})
     end end end)
    (extract_handler sym).

(** ** ETL/transform.py *)

(** The dictionary under ['metadata'] of a transformed result. *)
Record TransformMetadata := {
  tm_symbol : option string;
  tm_interval : string;
  tm_record_count : Z;
  tm_transformation_timestamp : datetime;
  tm_api_metadata : option ApiMetadata
}.

(** The dictionary [transform_intraday_data] returns; the loader takes it as
    a [Dict[str, Any]], so each key may be absent. *)
Record TransformedData := {
  td_stock : option Stock;
  td_price_records : option (list StockPriceIntraday);
  td_metadata : option TransformMetadata
}.

Section Transformer.
Context `{PyRuntime}.

Definition timestamp_formats : list string :=
  ["%Y-%m-%d %H:%M:%S"; "%Y-%m-%d %H:%M"; "%Y-%m-%d"].

(** The loop over [timestamp_formats]: the first format that parses wins. *)
Fixpoint try_formats (timestamp_str : string) (formats : list string)
    : option datetime :=
  match formats with
  | [] => None
  | fmt :: rest =>
      match strptime timestamp_str fmt with
      | Some t => Some t
      | None => try_formats timestamp_str rest
      end
  end.

Definition _parse_timestamp (timestamp_str : string) : M datetime :=
  match try_formats timestamp_str timestamp_formats with
  | Some t => ret t
  | None =>
      match dateutil_parse timestamp_str with
      | Some t => ret t
      | None =>
          logger ERROR (FailedToParseTimestamp timestamp_str
                          (ValueError ("Unknown string format: " +:+ timestamp_str))) >>
          raise (ValueError ("Invalid timestamp format: " +:+ timestamp_str))
      end
  end.

Definition _validate_price_data (open_price high_price low_price close_price : pyfloat)
    (volume : Z) : bool :=
  if existsb (fun price => float_le price (float_of_Z 0))
       [open_price; high_price; low_price; close_price] then false
  else if volume <? 0 then false
  else if float_lt high_price (py_max open_price close_price) then false
  else if float_gt low_price (py_min open_price close_price) then false
  else if existsb (fun price => float_gt price (float_of_Z 1000000))
            [open_price; high_price; low_price; close_price] then false
  else true.

(** [price_data.get(field, 0)] followed by the conversion [conv]; the
    default [0] converts to itself. *)
Definition get_number {A : Type} (conv : Json -> Res A) (zero : A)
    (price_data : Json) (field : string) : Res A :=
  match price_data with
  | JObject members =>
      match dict_get field members with
      | Some v => conv v
      | None => Ok zero
      end
  | _ => Err (AttributeError "object has no attribute 'get'")
  end.

(** The [try] body of the loop of [_create_price_objects] for one entry:
    the record to append, or [None] when validation rejects the entry. *)
Definition price_object (sym : string) (itv : string)
    (timestamp_str : string) (price_data : Json) : M (option StockPriceIntraday) :=
  let* timestamp := _parse_timestamp timestamp_str in
  let* open_price := lift (get_number py_float (float_of_Z 0) price_data "1. open") in
  let* high_price := lift (get_number py_float (float_of_Z 0) price_data "2. high") in
  let* low_price := lift (get_number py_float (float_of_Z 0) price_data "3. low") in
  let* close_price := lift (get_number py_float (float_of_Z 0) price_data "4. close") in
  let* volume := lift (get_number py_int 0 price_data "5. volume") in
  if negb (_validate_price_data open_price high_price low_price close_price volume)
  then logger WARNING (InvalidPriceDataSkipping sym timestamp_str) >> ret None
  else ret (Some {| stock_symbol := sym; timestamp := timestamp;
                    open_price := open_price; high_price := high_price;
                    low_price := low_price; close_price := close_price;
                    volume := volume; interval := itv |}).

(** The two [except] clauses of the loop: both log and skip the entry. *)
Definition price_object_handler (sym timestamp_str : string) (e : Exn)
    : M (option StockPriceIntraday) :=
  match e with
  | ValueError _ | TypeError _ =>
      logger WARNING (ErrorParsingPriceData sym timestamp_str e) >> ret None
  | _ =>
      logger ERROR (UnexpectedPriceObjectError sym timestamp_str e) >> ret None
  end.

(** The loop of [_create_price_objects] over the items of the series. *)
Fixpoint create_price_objects_loop (sym itv : string)
    (items : list (string * Json)) (price_records : list StockPriceIntraday)
    : M (list StockPriceIntraday) :=
  match items with
  | [] => ret price_records
  | (timestamp_str, price_data) :: rest =>
      let* r := try_except (price_object sym itv timestamp_str price_data)
                  (price_object_handler sym timestamp_str) in
      match r with
      | Some price_record =>
          create_price_objects_loop sym itv rest (price_records ++ [price_record])
      | None => create_price_objects_loop sym itv rest price_records
      end
  end.

(** [_create_price_objects]; [time_series.items()] needs a dictionary. *)
Definition _create_price_objects (sym : string) (time_series : Json) (itv : string)
    : M (list StockPriceIntraday) :=
  match time_series with
  | JObject members => create_price_objects_loop sym itv members []
  | _ => raise (AttributeError "object has no attribute 'items'")
  end.

Definition _create_stock_object (sym : string) (metadata : option ApiMetadata)
    : M Stock :=
  let* now := get_utcnow in
  ret {| symbol := sym; company_name := sym +:+ " Stock"; exchange := "NYSE";
         currency := "USD"; is_active := true;
         created_at := now; updated_at := now |}.

(** [not raw_data]: the dictionary has no key. *)
Definition raw_data_empty (raw_data : RawData) : bool :=
  match rd_symbol raw_data, rd_interval raw_data,
        rd_time_series raw_data, rd_metadata raw_data with
  | None, None, None, None => true
  | _, _, _, _ => false
  end.

Definition transform_intraday_data (raw_data : RawData) : M (option TransformedData) :=
  if raw_data_empty raw_data || negb (bool_decide (is_Some (rd_time_series raw_data)))
  then logger ERROR InvalidRawData >> ret None
  else
    try_except
      (let* sym := getitem "symbol" (rd_symbol raw_data) in
       let* itv := getitem "interval" (rd_interval raw_data) in
       let* time_series := getitem "time_series" (rd_time_series raw_data) in
       let metadata := rd_metadata raw_data in
       logger INFO (TransformingIntraday sym itv) >>
       let* stock := _create_stock_object sym metadata in
       let* price_records := _create_price_objects sym time_series itv in
       match price_records with
       | [] => logger WARNING (NoValidPriceRecords sym) >> ret None
       | _ =>
           logger INFO (TransformedPriceRecords (Z.of_nat (length price_records)) sym) >>
           let* now := get_utcnow in
           ret (Some {| td_stock := Some stock;
                        td_price_records := Some price_records;
                        td_metadata :=
                          Some {| tm_symbol := Some sym; tm_interval := itv;
                                  tm_record_count := Z.of_nat (length price_records);
                                  tm_transformation_timestamp := now;
                                  tm_api_metadata := metadata |} |})
       end)
      (fun e =>
         logger ERROR (ErrorTransforming
                         (match rd_symbol raw_data with
                          | Some s => s
                          | None => "unknown"
                          end) e) >>
         ret None).

End Transformer.

(** ** load.py

    The loader talks to the store through [DatabaseManager.execute_query]
    and reads the [Stock] and [StockPriceIntraday] objects the transformer
    builds. *)

(** The dictionary [load_transformed_data] returns. *)
Record LoadResult := {
  lr_success : bool;
  lr_symbol : option string;
  lr_error : option string;
  lr_stock_loaded : option bool;
  lr_prices_loaded : option Z;
  lr_total_price_records : option Z;
  lr_loading_timestamp : option datetime
}.

Definition job_log_row (sym : string) (total_records processed_records : Z)
    (status : JobStatus) (error_message : option string) (now : datetime)
    : JobLogRow :=
  {| jl_job_name := "intraday_etl_" +:+ sym; jl_status := status;
     jl_start_time := now; jl_end_time := now;
     jl_records_processed := processed_records;
     jl_total_records := total_records;
     jl_error_message := error_message; jl_created_at := now |}.

(** [_log_etl_job], the same method in [DataLoader] and in [ETLService]. *)
Definition _log_etl_job (sym : string) (total_records processed_records : Z)
    (status : JobStatus) (error_message : option string) : M unit :=
  try_except
    (let* now := get_utcnow in
     execute_query
       (InsertJobLog (job_log_row sym total_records processed_records status
                        error_message now)) >>
     ret tt)
    (fun e => logger ERROR (FailedToLogEtlJob e)).

(** [stock.name]: the class [Stock] of MODELS/models.py sets [symbol],
    [company_name], [exchange], [currency], [is_active], [created_at] and
    [updated_at], and no attribute [name]. *)
Definition stock_name (stock : Stock) : Res string :=
  Err (AttributeError "'Stock' object has no attribute 'name'").

(** [load_stock]: the parameters of the insert are read before it is
    submitted, and reading [stock.name] raises inside the [try]. *)
Definition load_stock (stock : Stock) : M bool :=
  try_except
    (let* existing_stock := execute_query (SelectStock (symbol stock)) in
     match existing_stock with
     | Some _ => logger INFO (StockAlreadyExists (symbol stock)) >> ret true
     | None =>
         let* name := lift (stock_name stock) in
         execute_query
           (InsertStock {| sr_symbol := symbol stock;
                           sr_name := name;
                           sr_exchange := exchange stock;
                           sr_is_active := is_active stock;
                           sr_created_at := created_at stock |}) >>
         logger INFO (StockLoaded (symbol stock)) >>
         ret true
     end)
    (fun e => logger ERROR (FailedToLoadStock (symbol stock) e) >> ret false).

Definition _load_single_price_record (price_record : StockPriceIntraday) : M bool :=
  try_except
    (let* existing_record := execute_query (SelectPrice (price_key price_record)) in
     match existing_record with
     | Some _ =>
         let* now := get_utcnow in
         execute_query
           (UpdatePrice (open_price price_record) (high_price price_record)
              (low_price price_record) (close_price price_record)
              (volume price_record) now (price_key price_record)) >>
         logger DEBUG (UpdatedPriceRecord (stock_symbol price_record)
                         (timestamp price_record))
     | None =>
         let* now := get_utcnow in
         execute_query
           (InsertPrice {| pr_stock_symbol := stock_symbol price_record;
                           pr_timestamp := timestamp price_record;
                           pr_open_price := open_price price_record;
                           pr_high_price := high_price price_record;
                           pr_low_price := low_price price_record;
                           pr_close_price := close_price price_record;
                           pr_volume := volume price_record;
                           pr_interval := interval price_record;
                           pr_created_at := now;
                           pr_updated_at := now |}) >>
         logger DEBUG (InsertedPriceRecord (stock_symbol price_record)
                         (timestamp price_record))
     end >>
     ret true)
    (fun e =>
       logger ERROR (FailedToLoadPriceRecord (stock_symbol price_record)
                       (timestamp price_record) e) >>
       ret false).

(** The loop of [load_intraday_prices]. *)
Fixpoint load_prices_loop (price_records : list StockPriceIntraday)
    (loaded_count : Z) : M Z :=
  match price_records with
  | [] => ret loaded_count
  | price_record :: rest =>
      let* loaded := _load_single_price_record price_record in
      load_prices_loop rest (if loaded then loaded_count + 1 else loaded_count)
  end.

Definition load_intraday_prices (sym : string)
    (price_records : list StockPriceIntraday) : M Z :=
  match price_records with
  | [] => logger WARNING (NoPriceRecordsToLoad sym) >> ret 0
  | _ =>
      try_except
        (let* loaded_count := load_prices_loop price_records 0 in
         logger INFO (LoadedPriceRecords loaded_count
                        (Z.of_nat (length price_records)) sym) >>
         ret loaded_count)
        (fun e => logger ERROR (FailedToLoadPriceRecords sym e) >> ret 0)
  end.

(** [not transformed_data]: the dictionary has no key. *)
Definition transformed_data_empty (transformed_data : TransformedData) : bool :=
  match td_stock transformed_data, td_price_records transformed_data,
        td_metadata transformed_data with
  | None, None, None => true
  | _, _, _ => false
  end.

Definition failed_load (sym : option string) (error : string) : LoadResult :=
  {| lr_success := false; lr_symbol := sym; lr_error := Some error;
     lr_stock_loaded := None; lr_prices_loaded := None;
     lr_total_price_records := None; lr_loading_timestamp := None |}.

Definition load_transformed_data (transformed_data : TransformedData) : M LoadResult :=
  if transformed_data_empty transformed_data then
    logger ERROR NoTransformedData >>
    ret (failed_load None "No transformed data")
  else
    try_except
      (let* metadata := getitem "metadata" (td_metadata transformed_data) in
       let* sym := getitem "symbol" (tm_symbol metadata) in
       let* stock := getitem "stock" (td_stock transformed_data) in
       let* price_records := getitem "price_records" (td_price_records transformed_data) in
       logger INFO (LoadingTransformedData sym) >>
       let* stock_loaded := load_stock stock in
       if negb stock_loaded then
         ret (failed_load (Some sym) "Failed to load stock information")
       else
         let* prices_loaded := load_intraday_prices sym price_records in
         _log_etl_job sym (Z.of_nat (length price_records)) prices_loaded SUCCESS None >>
         let* now := get_utcnow in
         ret {| lr_success := true; lr_symbol := Some sym; lr_error := None;
                lr_stock_loaded := Some stock_loaded;
                lr_prices_loaded := Some prices_loaded;
                lr_total_price_records := Some (Z.of_nat (length price_records));
                lr_loading_timestamp := Some now |})
      (fun e =>
         logger ERROR (FailedToLoadTransformedData e) >>
         let sym := match td_metadata transformed_data with
                    | Some metadata =>
                        match tm_symbol metadata with
                        | Some s => s
                        | None => "unknown"
                        end
                    | None => "unknown"
                    end in
         _log_etl_job sym 0 0 FAILED (Some (str e)) >>
         ret (failed_load (Some sym) (str e))).

(** ** intraday_pipeline.py *)

Section Pipeline.
Context `{PyRuntime}.

Definition _ensure_db_connection : M unit :=
  fun w => if negb (connection_pool w) then init_connection_pool w else (w, Ok tt).

Definition process_stock_intraday (sym : string) (itv : string) : M Z :=
  try_except
    (logger INFO (StartingPipeline sym itv) >>
     _ensure_db_connection >>
     logger INFO (StepExtracting sym) >>
     let* raw_data := extract_intraday_data sym itv in
     match raw_data with
     | None =>
         logger ERROR (ExtractionFailed sym) >>
         _log_etl_job sym 0 0 FAILED (Some "Extraction failed") >>
         ret 0
     | Some raw_data =>
         logger INFO (StepTransforming sym) >>
         let* transformed_data := transform_intraday_data raw_data in
         match transformed_data with
         | None =>
             logger ERROR (TransformationFailed sym) >>
             _log_etl_job sym 0 0 FAILED (Some "Transformation failed") >>
             ret 0
         | Some transformed_data =>
             logger INFO (StepLoading sym) >>
             let* loading_result := load_transformed_data transformed_data in
             if negb (lr_success loading_result) then
               logger ERROR (LoadingFailed sym
                               (match lr_error loading_result with
                                | Some msg => msg
                                | None => "Unknown error"
                                end)) >>
               ret 0
             else
               let records_processed :=
                 match lr_prices_loaded loading_result with
                 | Some n => n
                 | None => 0
                 end in
               logger INFO (PipelineCompleted sym records_processed) >>
               ret records_processed
         end
     end)
    (fun e =>
       logger ERROR (PipelineFailed sym e) >>
       _log_etl_job sym 0 0 FAILED (Some (str e)) >>
       ret 0).

(** The loop of [process_multiple_stocks_intraday]. *)
Fixpoint process_symbols (symbols : list string) (itv : string)
    (results : gmap string Z) : M (gmap string Z) :=
  match symbols with
  | [] => ret results
  | sym :: rest =>
      let* results :=
        try_except
          (let* records_processed := process_stock_intraday sym itv in
           ret (<[sym := records_processed]> results))
          (fun e =>
             logger ERROR (FailedToProcess sym e) >>
             ret (<[sym := 0]> results)) in
      process_symbols rest itv results
  end.

(** [sum(results.values())]. *)
Definition sum_values (results : gmap string Z) : Z :=
  map_fold (fun _ v acc => v + acc) 0 results.

Definition process_multiple_stocks_intraday (symbols : list string) (itv : string)
    : M (gmap string Z) :=
  logger INFO (StartingBatch (Z.of_nat (length symbols))) >>
  let* results := process_symbols symbols itv ∅ in
  logger INFO (BatchCompleted (sum_values results)) >>
  ret results.

End Pipeline.

(** ** market_scheduler.py *)

Record MarketSchedule := {
  open_hour : Z;
  close_hour : Z;
  pre_market_start : Z;
  after_hours_end : Z;
  timezone : string;
  trading_days : list Z
}.

(** The dataclass constructor with [__post_init__]: a missing
    [trading_days] becomes Monday to Friday. *)
Definition MarketSchedule_init (open_h close_h pre_h after_h : Z)
    (tz : string) (days : option (list Z)) : MarketSchedule :=
  {| open_hour := open_h; close_hour := close_h;
     pre_market_start := pre_h; after_hours_end := after_h;
     timezone := tz;
     trading_days := match days with
                     | None => [0; 1; 2; 3; 4]
                     | Some l => l
                     end |}.

(** [MarketSchedule()] with every default. *)
Definition default_schedule : MarketSchedule :=
  MarketSchedule_init 9 16 4 20 "UTC" None.

Inductive JobType := market_hours | pre_market | after_hours.

(** A completion callback is kept as an opaque handle. *)
Definition Callback := nat.

Record JobConfig := {
  job_name : string;
  job_symbols : list string;
  job_interval_minutes : Z;
  job_callback : option Callback;
  job_type : JobType;
  job_created_at : datetime
}.

(** The part of a [MarketScheduler] the predicates and the registrations
    use. *)
Record MarketScheduler := {
  market_schedule : MarketSchedule;
  is_running : bool;
  scheduled_jobs : gmap string JobConfig
}.

(** [current_time] defaults to [datetime.utcnow()], passed as [now]. *)
Definition or_utcnow (now : datetime) (current_time : option datetime) : datetime :=
  match current_time with
  | None => now
  | Some t => t
  end.

Definition is_trading_day (s : MarketSchedule) (t : datetime) : bool :=
  bool_decide (weekday t ∈ trading_days s).

Definition is_market_open (self : MarketScheduler) (now : datetime)
    (current_time : option datetime) : bool :=
  let current_time := or_utcnow now current_time in
  if negb (is_trading_day (market_schedule self) current_time) then false
  else
    let current_hour := dt_hour current_time in
    (open_hour (market_schedule self) <=? current_hour)
    && (current_hour <? close_hour (market_schedule self)).

Definition is_pre_market (self : MarketScheduler) (now : datetime)
    (current_time : option datetime) : bool :=
  let current_time := or_utcnow now current_time in
  if negb (is_trading_day (market_schedule self) current_time) then false
  else
    let current_hour := dt_hour current_time in
    (pre_market_start (market_schedule self) <=? current_hour)
    && (current_hour <? open_hour (market_schedule self)).

Definition is_after_hours (self : MarketScheduler) (now : datetime)
    (current_time : option datetime) : bool :=
  let current_time := or_utcnow now current_time in
  if negb (is_trading_day (market_schedule self) current_time) then false
  else
    let current_hour := dt_hour current_time in
    (close_hour (market_schedule self) <=? current_hour)
    && (current_hour <? after_hours_end (market_schedule self)).

(** The [while True] scan of [get_next_market_open]: add one day, stop at
    the first trading day.  [None] when [fuel] rounds did not find one. *)
Fixpoint scan_next_trading_day (fuel : nat) (s : MarketSchedule)
    (next_trading_day : datetime) : option datetime :=
  match fuel with
  | O => None
  | S fuel' =>
      let next_trading_day := add_days next_trading_day 1 in
      if is_trading_day s next_trading_day then Some next_trading_day
      else scan_next_trading_day fuel' s next_trading_day
  end.

(** [get_next_market_open]; [None] only when the scan ran out of fuel. *)
Definition get_next_market_open (fuel : nat) (self : MarketScheduler)
    (now : datetime) (current_time : option datetime) : option (Res datetime) :=
  let s := market_schedule self in
  let current_time := or_utcnow now current_time in
  let scan :=
    match scan_next_trading_day fuel s current_time with
    | None => None
    | Some d => Some (replace_hour d (open_hour s))
    end in
  if is_trading_day s current_time then
    match replace_hour current_time (open_hour s) with
    | Err e => Some (Err e)
    | Ok today_open =>
        if dt_lt current_time today_open then Some (Ok today_open) else scan
    end
  else scan.

(** The three registration methods differ in the stored [type] only. *)
Definition register_job (kind : JobType) (self : MarketScheduler)
    (now : datetime) (name : string) (symbols : list string)
    (interval_minutes : Z) (callback : option Callback)
    : MarketScheduler * bool :=
  if bool_decide (is_Some (scheduled_jobs self !! name)) then (self, false)
  else
    let job_config :=
      {| job_name := name; job_symbols := symbols;
         job_interval_minutes := interval_minutes;
         job_callback := callback; job_type := kind;
         job_created_at := now |} in
    ({| market_schedule := market_schedule self;
        is_running := is_running self;
        scheduled_jobs := <[name := job_config]> (scheduled_jobs self) |},
     true).

Definition schedule_market_hours_job := register_job market_hours.
Definition schedule_pre_market_job := register_job pre_market.
Definition schedule_after_hours_job := register_job after_hours.

(** A scheduler as [MarketScheduler()] builds it. *)
Definition new_scheduler (s : option MarketSchedule) : MarketScheduler :=
  {| market_schedule := match s with Some m => m | None => default_schedule end;
     is_running := false;
     scheduled_jobs := ∅ |}.

(** ** STREAM_N_POLLING/streaming_service.py *)

(** The arguments [start_streaming] hands to the worker thread.  A callback
    receives the iteration number and the results of the cycle. *)
Record WorkerArgs := {
  wa_symbols : list string;
  wa_interval_minutes : Z;
  wa_max_iterations : option Z;
  wa_callback : option (Z -> gmap string Z -> M unit)
}.

Record DataStreamingService := {
  svc_is_running : bool;
  svc_stop_event : bool;
  svc_streaming_thread : option WorkerArgs
}.

(** The result of running the worker for a bounded number of loop rounds:
    it left the loop (its [finally] clause then clears [is_running]), or it
    is still looping. *)
Inductive WorkerRun :=
| WorkerExited (iteration : Z) (w : World)
| WorkerRunning (iteration : Z) (checks : nat) (w : World).

Section Streaming.
Context `{PyRuntime}.

Definition default_symbols : list string := ["AAPL"; "MSFT"; "GOOGL"; "AMZN"; "TSLA"].

Definition start_streaming (self : DataStreamingService)
    (symbols : option (list string)) (interval_minutes : Z)
    (max_iterations : option Z)
    (callback : option (Z -> gmap string Z -> M unit))
    : M (DataStreamingService * bool) :=
  if svc_is_running self then
    logger WARNING AlreadyRunning >> ret (self, false)
  else
    let symbols := match symbols with
                   | None => default_symbols
                   | Some l => l
                   end in
    logger INFO (StartedStreaming (Z.of_nat (length symbols)) interval_minutes) >>
    ret ({| svc_is_running := true; svc_stop_event := false;
            svc_streaming_thread :=
              Some {| wa_symbols := symbols;
                      wa_interval_minutes := interval_minutes;
                      wa_max_iterations := max_iterations;
                      wa_callback := callback |} |}, true).

(** [max_iterations and iteration >= max_iterations]: [None] and [0] are
    both false as a condition. *)
Definition cap_reached (max_iterations : option Z) (iteration : Z) : bool :=
  match max_iterations with
  | None => false
  | Some cap => negb (cap =? 0) && (cap <=? iteration)
  end.

(** The inner [for _ in range(wait_seconds)] loop; [stop_is_set k] is what
    the [k]-th call of [stop_event.is_set()] by the worker returns.  The
    result is the number of calls made so far. *)
Fixpoint wait_for_next_cycle (wait_seconds : nat) (stop_is_set : nat -> bool)
    (checks : nat) : nat :=
  match wait_seconds with
  | O => checks
  | S rest =>
      if stop_is_set checks then S checks
      else wait_for_next_cycle rest stop_is_set (S checks)
  end.

Fixpoint log_symbol_records (items : list (string * Z)) : M unit :=
  match items with
  | [] => ret tt
  | (sym, count) :: rest =>
      logger INFO (CycleSymbolRecords sym count) >> log_symbol_records rest
  end.

(** One round of the worker's loop, from [start_time = datetime.utcnow()]
    to the log line announcing the next cycle. *)
Definition streaming_cycle (args : WorkerArgs) (iteration : Z) : M unit :=
  let* start_time := get_utcnow in
  logger INFO (StreamingCycle iteration start_time) >>
  try_except
    (let* results := process_multiple_stocks_intraday (wa_symbols args) "5min" in
     logger INFO (CycleCompleted iteration (sum_values results)) >>
     log_symbol_records (map_to_list results) >>
     match wa_callback args with
     | Some callback =>
         try_except (callback iteration results)
           (fun e => logger ERROR (CallbackFailed e))
     | None => ret tt
     end)
    (fun e => logger ERROR (ErrorInStreamingCycle iteration e)) >>
  logger INFO (NextCycleScheduled start_time (wa_interval_minutes args)).

Definition log_line (lvl : Level) (msg : LogMsg) (w : World) : World :=
  with_log w ((lvl, msg) :: log w).

(** [_streaming_worker], run for at most [fuel] rounds of its [while]
    loop, from the given iteration count and number of flag checks. *)
Fixpoint _streaming_worker (fuel : nat) (stop_is_set : nat -> bool)
    (args : WorkerArgs) (iteration : Z) (checks : nat) (w : World) : WorkerRun :=
  match fuel with
  | O => WorkerRunning iteration checks w
  | S fuel' =>
      if stop_is_set checks then
        WorkerExited iteration (log_line INFO WorkerStopped w)
      else if cap_reached (wa_max_iterations args) iteration then
        WorkerExited iteration
          (log_line INFO WorkerStopped
             (log_line INFO
                (ReachedMaximumIterations
                   (match wa_max_iterations args with Some c => c | None => 0 end))
                w))
      else
        let iteration := iteration + 1 in
        match streaming_cycle args iteration w with
        | (w', Err e) =>
            WorkerExited iteration
              (log_line INFO WorkerStopped
                 (log_line ERROR (UnexpectedWorkerError e) w'))
        | (w', Ok _) =>
            let wait_seconds := wa_interval_minutes args * 60 in
            let checks :=
              wait_for_next_cycle (Z.to_nat wait_seconds) stop_is_set (S checks) in
            _streaming_worker fuel' stop_is_set args iteration checks w'
        end
  end.

End Streaming.

(** ** A reference runtime

    An executable instance of [PyRuntime] for plain decimal text and the
    three timestamp formats, used to run the model on concrete payloads. *)

Definition digit_of (c : ascii) : option Z :=
  let n := nat_of_ascii c in
  if ((48 <=? n) && (n <=? 57))%nat then Some (Z.of_nat n - 48) else None.

(** Digits with at most one point, at least one digit. *)
Fixpoint decimal_digits (s : string) (num : Z) (den : positive)
    (dot any : bool) : option Q :=
  match s with
  | EmptyString => if any then Some (Qmake num den) else None
  | String c rest =>
      if Ascii.eqb c "."%char then
        if dot then None else decimal_digits rest num den true any
      else
        match digit_of c with
        | Some d =>
            decimal_digits rest (num * 10 + d)
              (if dot then (den * 10)%positive else den) dot true
        | None => None
        end
  end.

Definition ref_float_of_str (s : string) : option pyfloat :=
  let u := upper s in
  if String.eqb u "NAN" || String.eqb u "+NAN" || String.eqb u "-NAN" then Some PNaN
  else if String.eqb u "INF" || String.eqb u "+INF" || String.eqb u "INFINITY"
       then Some (PInf false)
  else if String.eqb u "-INF" || String.eqb u "-INFINITY" then Some (PInf true)
  else
    match s with
    | String "-" rest => (fun q => PFin (Qopp q)) <$> decimal_digits rest 0 1 false false
    | String "+" rest => PFin <$> decimal_digits rest 0 1 false false
    | _ => PFin <$> decimal_digits s 0 1 false false
    end.

Fixpoint integer_digits (s : string) (acc : Z) (any : bool) : option Z :=
  match s with
  | EmptyString => if any then Some acc else None
  | String c rest =>
      match digit_of c with
      | Some d => integer_digits rest (acc * 10 + d) true
      | None => None
      end
  end.

Definition ref_int_of_str (s : string) : option Z :=
  match s with
  | String "-" rest => Z.opp <$> integer_digits rest 0 false
  | String "+" rest => integer_digits rest 0 false
  | _ => integer_digits s 0 false
  end.

(** Reads [n] digits exactly. *)
Fixpoint read_digits (n : nat) (s : string) (acc : Z) : option (Z * string) :=
  match n with
  | O => Some (acc, s)
  | S n' =>
      match s with
      | String c rest =>
          match digit_of c with
          | Some d => read_digits n' rest (acc * 10 + d)
          | None => None
          end
      | EmptyString => None
      end
  end.

(** The fields of a timestamp while it is being read. *)
Record Fields := { f_year : Z; f_month : Z; f_day : Z;
                   f_hour : Z; f_minute : Z; f_second : Z }.

Definition set_field (d : ascii) (v : Z) (f : Fields) : option Fields :=
  if Ascii.eqb d "Y" then
    Some {| f_year := v; f_month := f_month f; f_day := f_day f;
            f_hour := f_hour f; f_minute := f_minute f; f_second := f_second f |}
  else if Ascii.eqb d "m" then
    Some {| f_year := f_year f; f_month := v; f_day := f_day f;
            f_hour := f_hour f; f_minute := f_minute f; f_second := f_second f |}
  else if Ascii.eqb d "d" then
    Some {| f_year := f_year f; f_month := f_month f; f_day := v;
            f_hour := f_hour f; f_minute := f_minute f; f_second := f_second f |}
  else if Ascii.eqb d "H" then
    Some {| f_year := f_year f; f_month := f_month f; f_day := f_day f;
            f_hour := v; f_minute := f_minute f; f_second := f_second f |}
  else if Ascii.eqb d "M" then
    Some {| f_year := f_year f; f_month := f_month f; f_day := f_day f;
            f_hour := f_hour f; f_minute := v; f_second := f_second f |}
  else if Ascii.eqb d "S" then
    Some {| f_year := f_year f; f_month := f_month f; f_day := f_day f;
            f_hour := f_hour f; f_minute := f_minute f; f_second := v |}
  else None.

(** Reads [s] along the format: [%Y] is four digits, the other directives
    two, every other character stands for itself. *)
Fixpoint read_format (fmt : string) (s : string) (f : Fields) : option Fields :=
  match fmt with
  | EmptyString => match s with EmptyString => Some f | _ => None end
  | String "%" (String d fmt') =>
      match read_digits (if Ascii.eqb d "Y" then 4 else 2) s 0 with
      | Some (v, s') =>
          match set_field d v f with
          | Some f' => read_format fmt' s' f'
          | None => None
          end
      | None => None
      end
  | String c fmt' =>
      match s with
      | String c' s' => if Ascii.eqb c c' then read_format fmt' s' f else None
      | EmptyString => None
      end
  end.

Definition days_in_month (y m : Z) : Z :=
  if m =? 2 then (if is_leap y then 29 else 28)
  else if (m =? 4) || (m =? 6) || (m =? 9) || (m =? 11) then 30 else 31.

Definition ref_strptime (s fmt : string) : option datetime :=
  match read_format fmt s {| f_year := 1900; f_month := 1; f_day := 1;
                             f_hour := 0; f_minute := 0; f_second := 0 |} with
  | Some f =>
      if (1 <=? f_year f) && (1 <=? f_month f) && (f_month f <=? 12)
         && (1 <=? f_day f) && (f_day f <=? days_in_month (f_year f) (f_month f))
         && (f_hour f <=? 23) && (f_minute f <=? 59) && (f_second f <=? 59)
      then Some {| dt_ordinal := days_before_year (f_year f)
                                 + days_before_month (f_year f) (f_month f)
                                 + f_day f;
                   dt_hour := f_hour f; dt_minute := f_minute f;
                   dt_second := f_second f; dt_microsecond := 0 |}
      else None
  | None => None
  end.

#[global] Instance reference_runtime : PyRuntime := {|
  float_of_str := ref_float_of_str;
  float_of_int := fun z => Ok (float_of_Z z);
  int_of_str := ref_int_of_str;
  strptime := ref_strptime;
  dateutil_parse := fun _ => None
|}.

(** ** Definitions used to state the properties *)

(** When today is a trading day and the open instant is still ahead. *)
Definition open_still_ahead (s : MarketSchedule) (t : datetime) : bool :=
  is_trading_day s t && dt_lt t (at_hour t (open_hour s)).


(** A world with empty tables, no pool yet, and the given engine and
    provider; the clock reads Wednesday 2024-01-10 15:00. *)
Definition fresh_world (refuses : nat -> Stmt -> bool)
    (prov : string -> string -> HttpResult) : World :=
  {| connection_pool := false; engine_refuses := refuses; requests := 0;
     tables := {| stocks := []; stock_prices_intraday := []; etl_job_logs := [] |};
     utcnow := mk_datetime 2024 1 10 15 0; provider := prov; log := [] |}.

(** An engine that accepts every request. *)
Definition accepts_all : nat -> Stmt -> bool := fun _ _ => false.

(** A provider that cannot be reached. *)
Definition unreachable : string -> string -> HttpResult :=
  fun _ _ => HttpRaises (RequestException "connection refused").

Definition blank_world : World := fresh_world accepts_all unreachable.

(** The record the loop of [_create_price_objects] appends for one entry,
    [None] when the entry is skipped: the value of the guarded loop body.
    (It is the same in every world, see [entry_record_spec].) *)
Definition entry_record `{PyRuntime} (sym itv : string) (entry : string * Json)
    : option StockPriceIntraday :=
  match snd (try_except (price_object sym itv entry.1 entry.2)
               (price_object_handler sym entry.1) blank_world) with
  | Ok r => r
  | Err _ => None
  end.

(** The records of the entries that are not skipped, in order. *)
Definition accepted_records `{PyRuntime} (sym itv : string)
    (items : list (string * Json)) : list StockPriceIntraday :=
  omap (entry_record sym itv) items.

(** The rows stored under a natural key. *)
Definition rows_with (key : PriceKey) (t : Tables) : list PriceRow :=
  filter (fun r => row_key r = key) (stock_prices_intraday t).

(** The store holds at most one row per natural key: the uniqueness
    constraint of the price table.  The empty table has it and every load
    keeps it (see [_load_single_price_record_unique]). *)
Definition unique_keys (t : Tables) : Prop :=
  NoDup (row_key <$> stock_prices_intraday t).

(** A row carries the OHLCV values of a record. *)
Definition carries (row : PriceRow) (r : StockPriceIntraday) : Prop :=
  pr_open_price row = open_price r /\ pr_high_price row = high_price r
  /\ pr_low_price row = low_price r /\ pr_close_price row = close_price r
  /\ pr_volume row = volume r.

(** A computation leaves an observation [f] of the world unchanged. *)
Definition preserves {X A : Type} (f : World -> X) (m : M A) : Prop :=
  forall w, f (fst (m w)) = f w.

(** Everything but the log. *)
Definition but_log (w : World)
    : bool * (nat -> Stmt -> bool) * nat * Tables * datetime
      * (string -> string -> HttpResult) :=
  (connection_pool w, engine_refuses w, requests w, tables w, utcnow w, provider w).

(** The pipeline starts recorded in a log, most recent first. *)
Definition starts (l : list LogRecord) : list string :=
  omap (fun r => match r with
                 | (INFO, StartingPipeline sym _) => Some sym
                 | _ => None
                 end) l.

(** The recorded starts together with what no call changes: the engine,
    the provider and the clock. *)
Definition quiet_view (w : World)
    : list string * (nat -> Stmt -> bool) * (string -> string -> HttpResult)
      * datetime :=
  (starts (log w), engine_refuses w, provider w, utcnow w).

(** A log record other than the start of a pipeline run. *)
Definition not_a_start (r : LogRecord) : Prop :=
  match r with
  | (INFO, StartingPipeline _ _) => False
  | _ => True
  end.

(** The records the pipeline is expected to load for a symbol: those of the
    entries of the provider's series that parse and pass validation. *)
Definition expected_records `{PyRuntime} (w : World) (sym itv : string)
    : list StockPriceIntraday :=
  match snd (extract_intraday_data sym itv w) with
  | Ok (Some raw) =>
      match rd_time_series raw with
      | Some (JObject items) => accepted_records (upper sym) itv items
      | _ => []
      end
  | _ => []
  end.

(** The symbols whose pipeline run was started, oldest first. *)
Definition started (l : list LogRecord) : list string := rev (starts l).

(** ** Example data *)

(** One entry of a time series, as the provider sends it. *)
Definition bar (o h l c v : string) : Json :=
  JObject [("1. open", JString o); ("2. high", JString h); ("3. low", JString l);
           ("4. close", JString c); ("5. volume", JString v)].

(** Ten entries; the fourth has its high below its close. *)
Definition ten_entries : list (string * Json) :=
  [("2024-01-10 15:00:00", bar "150.10" "151.00" "149.90" "150.50" "1200");
   ("2024-01-10 14:55:00", bar "150.00" "150.40" "149.80" "150.10" "900");
   ("2024-01-10 14:50:00", bar "149.70" "150.20" "149.60" "150.00" "1100");
   ("2024-01-10 14:45:00", bar "149.50" "149.60" "149.20" "149.70" "800");
   ("2024-01-10 14:40:00", bar "149.30" "149.60" "149.10" "149.50" "950");
   ("2024-01-10 14:35:00", bar "149.00" "149.40" "148.90" "149.30" "1000");
   ("2024-01-10 14:30:00", bar "148.80" "149.10" "148.70" "149.00" "700");
   ("2024-01-10 14:25:00", bar "148.90" "149.00" "148.60" "148.80" "650");
   ("2024-01-10 14:20:00", bar "148.70" "149.00" "148.50" "148.90" "600");
   ("2024-01-10 14:15:00", bar "148.60" "148.80" "148.40" "148.70" "500")].

(** An entry whose open price is the text [nan]. *)
Definition nan_entry : string * Json :=
  ("2024-01-10 14:55:00", bar "nan" "151.00" "149.90" "150.50" "1200").

(** A payload whose only entry has its high below its open and close. *)
Definition raw_without_valid_entry : RawData :=
  {| rd_symbol := Some "IBM"; rd_interval := Some "5min";
     rd_time_series :=
       Some (JObject [("2024-01-10 15:00:00",
                       bar "150.10" "150.00" "149.90" "150.50" "1200")]);
     rd_metadata := None |}.

(** Provider answers: a series without data points, and an in-band error. *)
Definition empty_series_body : list (string * Json) :=
  [("Meta Data", JObject [("3. Last Refreshed", JString "2024-01-10 15:00:00");
                          ("6. Time Zone", JString "US/Eastern")]);
   ("Time Series (5min)", JObject [])].

Definition error_body : list (string * Json) :=
  [("Error Message", JString "Invalid API call.")].

Definition series_body (items : list (string * Json)) : list (string * Json) :=
  [("Meta Data", JObject [("3. Last Refreshed", JString "2024-01-10 15:00:00");
                          ("6. Time Zone", JString "US/Eastern")]);
   ("Time Series (5min)", JObject items)].

(** The row [_load_single_price_record] inserts for a record. *)
Definition inserted_row (r : StockPriceIntraday) (now : datetime) : PriceRow :=
  {| pr_stock_symbol := stock_symbol r; pr_timestamp := timestamp r;
     pr_open_price := open_price r; pr_high_price := high_price r;
     pr_low_price := low_price r; pr_close_price := close_price r;
     pr_volume := volume r; pr_interval := interval r;
     pr_created_at := now; pr_updated_at := now |}.

(** What a loader call leaves alone: the pool, the engine, the provider and
    the clock. *)
Definition steady (w w' : World) : Prop :=
  connection_pool w' = connection_pool w
  /\ engine_refuses w' = engine_refuses w
  /\ provider w' = provider w
  /\ utcnow w' = utcnow w.

(** The first key of a transformed result whose lookup raises [KeyError]
    in [load_transformed_data], if any. *)
Definition missing_key (td : TransformedData) : option string :=
  match td_metadata td with
  | None => Some "metadata"
  | Some md =>
      match tm_symbol md, td_stock td, td_price_records td with
      | None, _, _ => Some "symbol"
      | Some _, None, _ => Some "stock"
      | Some _, Some _, None => Some "price_records"
      | Some _, Some _, Some _ => None
      end
  end.

(** [transformed_data.get('metadata', {}).get('symbol', 'unknown')]. *)
Definition logged_symbol (td : TransformedData) : string :=
  match td_metadata td with
  | Some md => match tm_symbol md with Some s => s | None => "unknown" end
  | None => "unknown"
  end.

(** The rows of the stocks table. *)
Definition stocks_view (w : World) : list StockRow := stocks (tables w).

(** The lookup of [load_stock] finds a row for the symbol. *)
Definition stock_known (w : World) (sym : string) : bool :=
  match list_find (fun r => sr_symbol r = sym) (stocks (tables w)) with
  | Some _ => true
  | None => false
  end.

(** What an audit row says, its timestamps apart: the name of the job, the
    status, the records attempted and processed, and the error message. *)
Definition audit_entry (r : JobLogRow)
    : string * JobStatus * Z * Z * option string :=
  (jl_job_name r, jl_status r, jl_total_records r, jl_records_processed r,
   jl_error_message r).

(** The statements of [load_stock] and of [_log_etl_job]. *)
Definition stock_or_audit (q : Stmt) : bool :=
  match q with
  | SelectStock _ | InsertStock _ | InsertJobLog _ => true
  | _ => false
  end.

(** A world whose pool is initialised. *)
Definition ready_world : World := with_pool blank_world true.

(** An engine that refuses the statements on the [stocks] table. *)
Definition refuses_stocks : nat -> Stmt -> bool :=
  fun _ q => match q with SelectStock _ | InsertStock _ => true | _ => false end.

Definition ibm_1500 : StockPriceIntraday :=
  {| stock_symbol := "IBM"; timestamp := mk_datetime 2024 1 10 15 0;
     open_price := PFin (Qmake 15010 100); high_price := PFin (Qmake 15100 100);
     low_price := PFin (Qmake 14990 100); close_price := PFin (Qmake 15050 100);
     volume := 1200; interval := "5min" |}.

(** The same bar, revised by the provider. *)
Definition ibm_1500_revised : StockPriceIntraday :=
  {| stock_symbol := "IBM"; timestamp := mk_datetime 2024 1 10 15 0;
     open_price := PFin (Qmake 15010 100); high_price := PFin (Qmake 15120 100);
     low_price := PFin (Qmake 14990 100); close_price := PFin (Qmake 15110 100);
     volume := 1850; interval := "5min" |}.

Definition ibm_stock : Stock :=
  {| symbol := "IBM"; company_name := "IBM Stock"; exchange := "NYSE";
     currency := "USD"; is_active := true;
     created_at := mk_datetime 2024 1 10 15 0;
     updated_at := mk_datetime 2024 1 10 15 0 |}.

Definition ibm_transformed : TransformedData :=
  {| td_stock := Some ibm_stock;
     td_price_records := Some [ibm_1500];
     td_metadata :=
       Some {| tm_symbol := Some "IBM"; tm_interval := "5min";
               tm_record_count := 1;
               tm_transformation_timestamp := mk_datetime 2024 1 10 15 0;
               tm_api_metadata := None |} |}.

(** A transformed result that lost its ['stock'] entry. *)
Definition ibm_without_stock : TransformedData :=
  {| td_stock := None;
     td_price_records := Some [ibm_1500];
     td_metadata := td_metadata ibm_transformed |}.

(** Three symbols: the provider has two bars for A, cannot be reached for
    B, and has the ten entries above for C. *)
Definition abc_provider (sym itv : string) : HttpResult :=
  if String.eqb sym "A" then
    HttpJson (series_body
                [("2024-01-10 15:00:00", bar "10.10" "10.40" "10.00" "10.30" "500");
                 ("2024-01-10 14:55:00", bar "10.00" "10.20" "9.90" "10.10" "450")])
  else if String.eqb sym "C" then HttpJson (series_body ten_entries)
  else HttpRaises (Timeout "read timed out").

Definition abc_world : World := fresh_world accepts_all abc_provider.

(** The row of a stock that was entered in the store beforehand. *)
Definition listed (sym : string) : StockRow :=
  {| sr_symbol := sym; sr_name := sym +:+ " Stock"; sr_exchange := "NYSE";
     sr_is_active := true; sr_created_at := mk_datetime 2024 1 2 9 0 |}.

(** A world whose stocks table holds the given rows. *)
Definition with_stocks (w : World) (rows : list StockRow) : World :=
  {| connection_pool := connection_pool w; engine_refuses := engine_refuses w;
     requests := requests w;
     tables := {| stocks := rows;
                  stock_prices_intraday := stock_prices_intraday (tables w);
                  etl_job_logs := etl_job_logs (tables w) |};
     utcnow := utcnow w; provider := provider w; log := log w |}.

(** The three symbols again, with A and C listed in the store. *)
Definition abc_listed_world : World :=
  with_stocks abc_world [listed "A"; listed "C"].

(** The stop flag is never set. *)
Definition never_set : nat -> bool := fun _ => false.

(** ** market_scheduler.py: the next close and the removal of a job *)

(** [get_next_market_close]: the computation of [get_next_market_open] with
    the close hour; [None] only when the scan ran out of fuel. *)
Definition get_next_market_close (fuel : nat) (self : MarketScheduler)
    (now : datetime) (current_time : option datetime) : option (Res datetime) :=
  let s := market_schedule self in
  let current_time := or_utcnow now current_time in
  let scan :=
    match scan_next_trading_day fuel s current_time with
    | None => None
    | Some d => Some (replace_hour d (close_hour s))
    end in
  if is_trading_day s current_time then
    match replace_hour current_time (close_hour s) with
    | Err e => Some (Err e)
    | Ok today_close =>
        if dt_lt current_time today_close then Some (Ok today_close) else scan
    end
  else scan.

(** [remove_scheduled_job]: [del] of a present name; as for the
    registrations, the scheduler and the returned flag are kept. *)
Definition remove_scheduled_job (self : MarketScheduler) (name : string)
    : MarketScheduler * bool :=
  if bool_decide (is_Some (scheduled_jobs self !! name)) then
    ({| market_schedule := market_schedule self;
        is_running := is_running self;
        scheduled_jobs := delete name (scheduled_jobs self) |},
     true)
  else (self, false).

(** The time of day of a [datetime] lies within the ranges its constructor
    enforces. *)
Definition time_of_day_valid (t : datetime) : Prop :=
  0 <= dt_hour t <= 23 /\ 0 <= dt_minute t <= 59
  /\ 0 <= dt_second t <= 59 /\ 0 <= dt_microsecond t <= 999999.

(** The hours of a schedule are in calendar order. *)
Definition hours_in_order (s : MarketSchedule) : Prop :=
  pre_market_start s <= open_hour s <= close_hour s
  /\ close_hour s <= after_hours_end s.

(** ** Definitions used to state the properties of the loader and of a run *)

(** The record a batch leaves under a key: the last one with that key. *)
Definition last_with_key (key : PriceKey) (records : list StockPriceIntraday)
    : option StockPriceIntraday :=
  last (filter (fun r => price_key r = key) records).

(** The message of the FAILED row of a run that loads nothing. *)
Definition failure_message (w : World) (sym itv : string) : string :=
  match snd (extract_intraday_data sym itv w) with
  | Ok (Some _) => "Transformation failed"
  | _ => "Extraction failed"
  end.

(** What the SUCCESS row of a symbol with valid records says, its
    timestamps apart. *)
Definition success_entry `{PyRuntime} (w : World) (itv sym : string)
    : option (string * JobStatus * Z * Z * option string) :=
  match expected_records w sym itv with
  | [] => None
  | recs =>
      Some ("intraday_etl_" +:+ upper sym, SUCCESS, Z.of_nat (length recs),
            Z.of_nat (length recs), None)
  end.

(** ** The batch functions of the extractor, the transformer, the loader
       and the pipeline

    [run_etl_pipeline] runs the three phases one after the other over
    dictionaries keyed by symbol. *)

(** A Python [dict] keyed by text, in insertion order. *)
Definition PyDict (V : Type) : Type := list (string * V).

(** [d[key] = v]: an existing key keeps its place, a new key goes last. *)
Fixpoint dict_set {V : Type} (key : string) (v : V) (d : PyDict V) : PyDict V :=
  match d with
  | [] => [(key, v)]
  | (k, x) :: rest =>
      if String.eqb k key then (k, v) :: rest else (k, x) :: dict_set key v rest
  end.

(** [d.values()]. *)
Definition dict_values {V : Type} (d : PyDict V) : list V := snd <$> d.

(** [sum(1 for x in xs if test x)]. *)
Definition count_if {V : Type} (test : V -> bool) (xs : list V) : Z :=
  Z.of_nat (length (List.filter test xs)).

(** A number that is an [int] or a [float]. *)
Inductive Number :=
| NInt (z : Z)
| NFloat (f : pyfloat).

(** The float arithmetic the statistics take from the runtime: the true
    division of two integers, the product of a float and an integer, and
    [(b - a).total_seconds()] on datetimes. *)
Class PyArith := {
  int_truediv : Z -> Z -> pyfloat;
  float_times_int : pyfloat -> Z -> pyfloat;
  total_seconds : datetime -> datetime -> pyfloat
}.

(** [(a / b * 100) if b > 0 else 0]. *)
Definition percentage `{PyArith} (a b : Z) : Number :=
  if 0 <? b then NFloat (float_times_int (int_truediv a b) 100) else NInt 0.

(** The lines the batch functions log, with the values they interpolate. *)
Inductive BatchMsg :=
(* ETL/extract.py *)
| StartingExtraction (n : Z) (itv : string)
| ProcessingSymbol (sym : string)
| ExtractionCompleted (successful total : Z)
(* ETL/transform.py *)
| StartingTransformation (n : Z)
| SkippingTransformation (sym : string)
| TransformingSymbol (sym : string)
| TransformationCompleted (successful total : Z)
(* load.py *)
| StartingDataLoading (n : Z)
| SkippingLoading (sym : string)
| LoadingSymbol (sym : string)
| LoadingCompleted (successful total : Z)
(* intraday_pipeline.py *)
| StartingEtlPipeline (n : Z) (itv : string)
| ExtractionPhase
| TransformationPhase
| LoadingPhase
| EtlPipelineCompleted (seconds : pyfloat)
| OverallSuccessRate (rate : Number)
| TotalRecordsProcessed (n : Z).

Record ExtractionStats := {
  es_total_symbols : Z;
  es_successful_extractions : Z;
  es_failed_extractions : Z;
  es_total_data_points : Z;
  es_success_rate : Number
}.

Record TransformationStats := {
  ts_total_symbols : Z;
  ts_successful_symbols : Z;
  ts_failed_symbols : Z;
  ts_total_price_records : Z;
  ts_success_rate : Number
}.

Record LoadingStats := {
  ls_total_symbols : Z;
  ls_successful_symbols : Z;
  ls_failed_symbols : Z;
  ls_total_price_records : Z;
  ls_total_loaded_records : Z;
  ls_success_rate : Number;
  ls_loading_efficiency : Number
}.

Record PipelineMetadata := {
  pm_start_time : datetime;
  pm_end_time : datetime;
  pm_duration_seconds : pyfloat;
  pm_symbols_processed : Z;
  pm_interval : string
}.

(** The dictionary [run_etl_pipeline] returns. *)
Record PipelineResults := {
  pipeline_metadata : PipelineMetadata;
  extraction : ExtractionStats;
  transformation : TransformationStats;
  loading : LoadingStats;
  overall_success_rate : Number;
  total_records_processed : Z
}.

Section Batch.
Context `{PyRuntime} `{PyArith}.

(** The logger of the batch functions: [note lvl msg] records a line.  The
    log of the world holds the lines of the per-symbol functions; of [note]
    the properties assume only that it returns and leaves everything but the
    log alone. *)
Variable note : Level -> BatchMsg -> M unit.

(** The loop of [extract_multiple_stocks]; the [time.sleep(1)] between two
    symbols only delays. *)
Fixpoint extract_symbols (symbols : list string) (itv : string)
    (results : PyDict (option RawData)) : M (PyDict (option RawData)) :=
  match symbols with
  | [] => ret results
  | sym :: rest =>
      note INFO (ProcessingSymbol sym) >>
      let* data := extract_intraday_data sym itv in
      extract_symbols rest itv (dict_set sym data results)
  end.

Definition extract_multiple_stocks (symbols : list string) (itv : string)
    : M (PyDict (option RawData)) :=
  note INFO (StartingExtraction (Z.of_nat (length symbols)) itv) >>
  let* results := extract_symbols symbols itv [] in
  let successful_extractions :=
    count_if (fun data => bool_decide (is_Some data)) (dict_values results) in
  note INFO (ExtractionCompleted successful_extractions (Z.of_nat (length symbols))) >>
  ret results.

(** The loop of [transform_multiple_stocks]. *)
Fixpoint transform_items (items : list (string * option RawData))
    (transformed_results : PyDict (option TransformedData))
    : M (PyDict (option TransformedData)) :=
  match items with
  | [] => ret transformed_results
  | (sym, None) :: rest =>
      note WARNING (SkippingTransformation sym) >>
      transform_items rest (dict_set sym None transformed_results)
  | (sym, Some raw_data) :: rest =>
      note INFO (TransformingSymbol sym) >>
      let* transformed_data := transform_intraday_data raw_data in
      transform_items rest (dict_set sym transformed_data transformed_results)
  end.

Definition transform_multiple_stocks (raw_data_dict : PyDict (option RawData))
    : M (PyDict (option TransformedData)) :=
  note INFO (StartingTransformation (Z.of_nat (length raw_data_dict))) >>
  let* transformed_results := transform_items raw_data_dict [] in
  let successful_transformations :=
    count_if (fun data => bool_decide (is_Some data))
      (dict_values transformed_results) in
  note INFO (TransformationCompleted successful_transformations
               (Z.of_nat (length raw_data_dict))) >>
  ret transformed_results.

(** The loop of [load_multiple_stocks]. *)
Fixpoint load_items (items : list (string * option TransformedData))
    (loading_results : PyDict LoadResult) : M (PyDict LoadResult) :=
  match items with
  | [] => ret loading_results
  | (sym, None) :: rest =>
      note WARNING (SkippingLoading sym) >>
      load_items rest
        (dict_set sym (failed_load None "No transformed data available")
           loading_results)
  | (sym, Some transformed_data) :: rest =>
      note INFO (LoadingSymbol sym) >>
      let* result := load_transformed_data transformed_data in
      load_items rest (dict_set sym result loading_results)
  end.

Definition load_multiple_stocks
    (transformed_data_dict : PyDict (option TransformedData))
    : M (PyDict LoadResult) :=
  note INFO (StartingDataLoading (Z.of_nat (length transformed_data_dict))) >>
  let* loading_results := load_items transformed_data_dict [] in
  let successful_loads := count_if lr_success (dict_values loading_results) in
  note INFO (LoadingCompleted successful_loads
               (Z.of_nat (length transformed_data_dict))) >>
  ret loading_results.

(** The loop of [_get_extraction_stats] that adds up the data points;
    [len] raises on a series that has no length. *)
Fixpoint total_data_points (values : list (option RawData)) (total : Z) : Res Z :=
  match values with
  | [] => Ok total
  | data :: rest =>
      match data with
      | Some raw_data =>
          if raw_data_empty raw_data then total_data_points rest total
          else
            match rd_time_series raw_data with
            | Some time_series =>
                match py_len time_series with
                | Ok n => total_data_points rest (total + n)
                | Err e => Err e
                end
            | None => total_data_points rest total
            end
      | None => total_data_points rest total
      end
  end.

Definition _get_extraction_stats (raw_data_dict : PyDict (option RawData))
    : Res ExtractionStats :=
  let total_symbols := Z.of_nat (length raw_data_dict) in
  let successful_extractions :=
    count_if (fun data => bool_decide (is_Some data)) (dict_values raw_data_dict) in
  let failed_extractions := total_symbols - successful_extractions in
  match total_data_points (dict_values raw_data_dict) 0 with
  | Err e => Err e
  | Ok points =>
      Ok {| es_total_symbols := total_symbols;
            es_successful_extractions := successful_extractions;
            es_failed_extractions := failed_extractions;
            es_total_data_points := points;
            es_success_rate := percentage successful_extractions total_symbols |}
  end.

(** The loop of [get_transformation_stats] that adds up the records. *)
Fixpoint total_records (values : list (option TransformedData)) (total : Z) : Z :=
  match values with
  | [] => total
  | data :: rest =>
      match data with
      | Some transformed_data =>
          if transformed_data_empty transformed_data then total_records rest total
          else
            match td_price_records transformed_data with
            | Some price_records =>
                total_records rest (total + Z.of_nat (length price_records))
            | None => total_records rest total
            end
      | None => total_records rest total
      end
  end.

Definition get_transformation_stats
    (transformed_data : PyDict (option TransformedData)) : TransformationStats :=
  let total_symbols := Z.of_nat (length transformed_data) in
  let successful_symbols :=
    count_if (fun data => bool_decide (is_Some data)) (dict_values transformed_data) in
  let failed_symbols := total_symbols - successful_symbols in
  {| ts_total_symbols := total_symbols;
     ts_successful_symbols := successful_symbols;
     ts_failed_symbols := failed_symbols;
     ts_total_price_records := total_records (dict_values transformed_data) 0;
     ts_success_rate := percentage successful_symbols total_symbols |}.

(** [result.get(key, 0)]. *)
Definition get_or_zero (entry : option Z) : Z :=
  match entry with
  | Some n => n
  | None => 0
  end.

(** The loop of [get_loading_stats]: the totals of the successful loads,
    attempted records first, loaded records second. *)
Fixpoint loading_totals (values : list LoadResult) (totals : Z * Z) : Z * Z :=
  match values with
  | [] => totals
  | result :: rest =>
      if lr_success result then
        loading_totals rest
          (totals.1 + get_or_zero (lr_total_price_records result),
           totals.2 + get_or_zero (lr_prices_loaded result))
      else loading_totals rest totals
  end.

Definition get_loading_stats (loading_results : PyDict LoadResult) : LoadingStats :=
  let total_symbols := Z.of_nat (length loading_results) in
  let successful_symbols := count_if lr_success (dict_values loading_results) in
  let failed_symbols := total_symbols - successful_symbols in
  let totals := loading_totals (dict_values loading_results) (0, 0) in
  {| ls_total_symbols := total_symbols;
     ls_successful_symbols := successful_symbols;
     ls_failed_symbols := failed_symbols;
     ls_total_price_records := totals.1;
     ls_total_loaded_records := totals.2;
     ls_success_rate := percentage successful_symbols total_symbols;
     ls_loading_efficiency := percentage totals.2 totals.1 |}.

(** [run_etl_pipeline]; the pool is ensured outside any [try]. *)
Definition run_etl_pipeline (symbols : list string) (itv : string)
    : M PipelineResults :=
  let* pipeline_start := get_utcnow in
  note INFO (StartingEtlPipeline (Z.of_nat (length symbols)) itv) >>
  _ensure_db_connection >>
  note INFO ExtractionPhase >>
  let* raw_data_dict := extract_multiple_stocks symbols itv in
  note INFO TransformationPhase >>
  let* transformed_data_dict := transform_multiple_stocks raw_data_dict in
  note INFO LoadingPhase >>
  let* loading_results := load_multiple_stocks transformed_data_dict in
  let* pipeline_end := get_utcnow in
  let pipeline_duration := total_seconds pipeline_start pipeline_end in
  let* extraction_stats := lift (_get_extraction_stats raw_data_dict) in
  let transformation_stats := get_transformation_stats transformed_data_dict in
  let loading_stats := get_loading_stats loading_results in
  let pipeline_results :=
    {| pipeline_metadata :=
         {| pm_start_time := pipeline_start; pm_end_time := pipeline_end;
            pm_duration_seconds := pipeline_duration;
            pm_symbols_processed := Z.of_nat (length symbols);
            pm_interval := itv |};
       extraction := extraction_stats;
       transformation := transformation_stats;
       loading := loading_stats;
       overall_success_rate := ls_success_rate loading_stats;
       total_records_processed := ls_total_loaded_records loading_stats |} in
  note INFO (EtlPipelineCompleted pipeline_duration) >>
  note INFO (OverallSuccessRate (overall_success_rate pipeline_results)) >>
  note INFO (TotalRecordsProcessed (total_records_processed pipeline_results)) >>
  ret pipeline_results.

End Batch.

(** What an extraction and a transformation return, [None] standing for a
    failure. *)
Definition extracted (w : World) (sym itv : string) : option RawData :=
  match snd (extract_intraday_data sym itv w) with
  | Ok o => o
  | Err _ => None
  end.

Definition transformed `{PyRuntime} (w : World) (raw_data : RawData)
    : option TransformedData :=
  match snd (transform_intraday_data raw_data w) with
  | Ok o => o
  | Err _ => None
  end.

(** The SUCCESS row of the audit log for a symbol with valid records. *)
Definition success_row `{PyRuntime} (w : World) (itv sym : string) : option JobLogRow :=
  match expected_records w sym itv with
  | [] => None
  | recs =>
      Some (job_log_row (upper sym) (Z.of_nat (length recs))
              (Z.of_nat (length recs)) SUCCESS None (utcnow w))
  end.

(** A logger that returns and leaves everything but the log alone. *)
Definition only_logs {Msg : Type} (note : Level -> Msg -> M unit) : Prop :=
  forall lvl msg w,
    snd (note lvl msg w) = Ok tt /\ but_log (fst (note lvl msg w)) = but_log w.

(** What the batch loader returns for a symbol when the engine takes every
    statement. *)
Definition load_outcome `{PyRuntime} (w : World) (itv sym : string) : LoadResult :=
  match expected_records w sym itv with
  | [] => failed_load None "No transformed data available"
  | recs =>
      {| lr_success := true; lr_symbol := Some (upper sym); lr_error := None;
         lr_stock_loaded := Some true;
         lr_prices_loaded := Some (Z.of_nat (length recs));
         lr_total_price_records := Some (Z.of_nat (length recs));
         lr_loading_timestamp := Some (utcnow w) |}
  end.

(** The numbers of valid records the provider holds for the symbols. *)
Definition valid_counts `{PyRuntime} (w : World) (itv : string)
    (symbols : list string) : list Z :=
  (fun sym => Z.of_nat (length (expected_records w sym itv))) <$> symbols.

(** [sum] of a list of integers. *)
Definition sum_list (l : list Z) : Z := foldr Z.add 0 l.

(** A logger that records nothing, as one whose level filters the lines
    out. *)
Definition silent {Msg : Type} : Level -> Msg -> M unit := fun _ _ => ret tt.

(** Exact arithmetic on rationals, for runs of the model: a division or a
    product that leaves the rationals gives NaN. *)
#[global] Instance exact_arith : PyArith := {|
  int_truediv := fun a b => PFin (inject_Z a / inject_Z b)%Q;
  float_times_int := fun f n =>
    match f with
    | PFin q => PFin (q * inject_Z n)%Q
    | PInf neg => if n =? 0 then PNaN else PInf (if n <? 0 then negb neg else neg)
    | PNaN => PNaN
    end;
  total_seconds := fun a b => PFin (inject_Z (dt_micros b - dt_micros a) / inject_Z 1000000)%Q
|}.

(** ** STREAM_N_POLLING/polling_manager.py *)

(** The lines [_process_symbols_in_batches] and [continuous_polling] log. *)
Inductive PollingMsg :=
| ProcessingBatch (number : Z) (batch : list string)
| ErrorProcessingBatch (batch : list string) (e : Exn)
| StartingContinuousPolling (minutes : Z)
| PollingReachedMaximum (cap : Z)
| PollingCycle (iteration : Z) (start : datetime)
| PollingCycleSuccessful (iteration records : Z)
| PollingCycleFailed (iteration : Z)
| PollingSymbolRecords (sym : string) (count : Z)
| PollingNextCycle (start : datetime) (minutes : Z)
| ErrorInContinuousPolling (e : Exn).

(** [range(0, stop, step)] for a [stop] that is not negative: a step of
    zero raises, a negative step gives no index. *)
Definition py_range (stop step : Z) : Res (list Z) :=
  if step =? 0 then Err (ValueError "range() arg 3 must not be zero")
  else if step <? 0 then Ok []
  else Ok ((fun k => Z.of_nat k * step) <$> seq 0 (Z.to_nat ((stop + step - 1) / step))).

(** The slice [l[i:j]] for [0 <= i <= j]. *)
Definition slice {A : Type} (l : list A) (i j : Z) : list A :=
  take (Z.to_nat (j - i)) (drop (Z.to_nat i) l).

(** [time.sleep(seconds)]: a negative length raises. *)
Definition py_sleep (seconds : Z) : Res unit :=
  if seconds <? 0 then Err (ValueError "sleep length must be non-negative")
  else Ok tt.

(** The dataclass [PollingConfig]. *)
Record PollingConfig := {
  interval_minutes : Z;
  max_iterations : option Z;
  symbols_of : option (list string);
  interval_of : string;
  batch_size : Z;
  retry_on_failure : bool;
  max_retries : Z
}.

(** The counters of [continuous_polling]. *)
Record PollingCounters := {
  pc_iteration : Z;
  pc_total_records : Z;
  pc_successful_cycles : Z;
  pc_failed_cycles : Z
}.

(** The dictionary [continuous_polling] returns; the duration is kept in
    microseconds. *)
Record PollingResult := {
  total_iterations : Z;
  successful_cycles : Z;
  failed_cycles : Z;
  polling_records_processed : Z;
  polling_start_time : datetime;
  polling_end_time : datetime;
  total_duration : Z;
  polling_success_rate : Number
}.

Section Polling.
Context `{PyRuntime} `{PyArith}.
Variable note : Level -> PollingMsg -> M unit.

(** The loop of [_process_symbols_in_batches] over the start indices; the
    [time.sleep(2)] between two batches only delays. *)
Fixpoint process_batches (symbols : list string) (itv : string) (batch_size : Z)
    (starts : list Z) (all_results : gmap string Z) : M (gmap string Z) :=
  match starts with
  | [] => ret all_results
  | i :: rest =>
      let batch := slice symbols i (i + batch_size) in
      note INFO (ProcessingBatch (i / batch_size + 1) batch) >>
      let* all_results :=
        try_except
          (let* batch_results := process_multiple_stocks_intraday batch itv in
           (* all_results.update(batch_results) *)
           ret (batch_results ∪ all_results))
          (fun e =>
             note ERROR (ErrorProcessingBatch batch e) >>
             ret (foldl (fun results sym => <[sym := 0]> results) all_results batch)) in
      process_batches symbols itv batch_size rest all_results
  end.

Definition _process_symbols_in_batches (symbols : list string) (itv : string)
    (batch_size : Z) : M (gmap string Z) :=
  let* starts := lift (py_range (Z.of_nat (length symbols)) batch_size) in
  process_batches symbols itv batch_size starts ∅.

(** The lines of the symbols with a positive count. *)
Fixpoint note_symbol_records (items : list (string * Z)) : M unit :=
  match items with
  | [] => ret tt
  | (sym, count) :: rest =>
      (if 0 <? count then note INFO (PollingSymbolRecords sym count) else ret tt) >>
      note_symbol_records rest
  end.

(** One round of the loop of [continuous_polling], in two parts: up to the
    result of the batches, with the iteration already counted, and from the
    counting of the cycle to the end of the sleep.  An exception leaves the
    loop with the counters as they are at that point.  The line of the next
    cycle carries the start of this one and the minutes to add to it. *)
Definition polling_round (config : PollingConfig) (symbols : list string)
    (c : PollingCounters) (w : World)
    : World * PollingCounters * option Exn :=
  let c1 := {| pc_iteration := pc_iteration c + 1;
               pc_total_records := pc_total_records c;
               pc_successful_cycles := pc_successful_cycles c;
               pc_failed_cycles := pc_failed_cycles c |} in
  match (let* cycle_start := get_utcnow in
         note INFO (PollingCycle (pc_iteration c1) cycle_start) >>
         let* batch_results :=
           _process_symbols_in_batches symbols (interval_of config)
             (batch_size config) in
         ret (cycle_start, batch_results)) w with
  | (w1, Err e) => (w1, c1, Some e)
  | (w1, Ok (cycle_start, batch_results)) =>
      let cycle_records := sum_values batch_results in
      let c2 := {| pc_iteration := pc_iteration c1;
                   pc_total_records := pc_total_records c1 + cycle_records;
                   pc_successful_cycles :=
                     if 0 <? cycle_records then pc_successful_cycles c1 + 1
                     else pc_successful_cycles c1;
                   pc_failed_cycles :=
                     if 0 <? cycle_records then pc_failed_cycles c1
                     else pc_failed_cycles c1 + 1 |} in
      match ((if 0 <? cycle_records
              then note INFO (PollingCycleSuccessful (pc_iteration c1) cycle_records)
              else note WARNING (PollingCycleFailed (pc_iteration c1))) >>
             note_symbol_records (map_to_list batch_results) >>
             note INFO (PollingNextCycle cycle_start (interval_minutes config)) >>
             lift (py_sleep (interval_minutes config * 60))) w1 with
      | (w2, Err e) => (w2, c2, Some e)
      | (w2, Ok _) => (w2, c2, None)
      end
  end.

(** The [while True] loop, for at most [fuel] rounds; [None] when it is
    still running after them. *)
Fixpoint polling_loop (fuel : nat) (config : PollingConfig) (symbols : list string)
    (c : PollingCounters) (w : World)
    : option (World * PollingCounters * option Exn) :=
  match fuel with
  | O => None
  | S fuel' =>
      if cap_reached (max_iterations config) (pc_iteration c) then
        match note INFO (PollingReachedMaximum
                           (match max_iterations config with
                            | Some cap => cap
                            | None => 0
                            end)) w with
        | (w', Ok _) => Some (w', c, None)
        | (w', Err e) => Some (w', c, Some e)
        end
      else
        match polling_round config symbols c w with
        | (w', c', Some e) => Some (w', c', Some e)
        | (w', c', None) => polling_loop fuel' config symbols c' w'
        end
  end.

(** [continuous_polling], its loop run for at most [fuel] rounds.  It sets
    the symbols of the configuration it was given when they are missing; the
    configuration is returned with the result.  No [KeyboardInterrupt]
    arrives in the model. *)
Definition continuous_polling (fuel : nat) (config : PollingConfig) (w : World)
    : option (World * Res (PollingConfig * PollingResult)) :=
  match note INFO (StartingContinuousPolling (interval_minutes config)) w with
  | (w0, Err e) => Some (w0, Err e)
  | (w0, Ok _) =>
      let symbols := match symbols_of config with
                     | None => default_symbols
                     | Some l => l
                     end in
      let config := {| interval_minutes := interval_minutes config;
                       max_iterations := max_iterations config;
                       symbols_of := Some symbols;
                       interval_of := interval_of config;
                       batch_size := batch_size config;
                       retry_on_failure := retry_on_failure config;
                       max_retries := max_retries config |} in
      let start_time := utcnow w0 in
      match polling_loop fuel config symbols
              {| pc_iteration := 0; pc_total_records := 0;
                 pc_successful_cycles := 0; pc_failed_cycles := 0 |} w0 with
      | None => None
      | Some (w1, c, ended) =>
          let finish (c : PollingCounters) : M (PollingConfig * PollingResult) :=
            let* end_time := get_utcnow in
            ret (config,
                 {| total_iterations := pc_iteration c;
                    successful_cycles := pc_successful_cycles c;
                    failed_cycles := pc_failed_cycles c;
                    polling_records_processed := pc_total_records c;
                    polling_start_time := start_time;
                    polling_end_time := end_time;
                    total_duration := dt_micros end_time - dt_micros start_time;
                    polling_success_rate :=
                      percentage (pc_successful_cycles c) (pc_iteration c) |}) in
          match ended with
          | None => Some (finish c w1)
          | Some e =>
              Some ((note ERROR (ErrorInContinuousPolling e) >>
                     finish {| pc_iteration := pc_iteration c;
                               pc_total_records := pc_total_records c;
                               pc_successful_cycles := pc_successful_cycles c;
                               pc_failed_cycles := pc_failed_cycles c + 1 |}) w1)
          end
      end
  end.

End Polling.

(** The counters once the iteration of a round is counted. *)
Definition counted (c : PollingCounters) : PollingCounters :=
  {| pc_iteration := pc_iteration c + 1;
     pc_total_records := pc_total_records c;
     pc_successful_cycles := pc_successful_cycles c;
     pc_failed_cycles := pc_failed_cycles c |}.

(** A configuration over the symbols A, B and C of the example. *)
Definition abc_polling (interval_minutes : Z) (max_iterations : option Z)
    (batch_size : Z) : PollingConfig :=
  {| interval_minutes := interval_minutes;
     max_iterations := max_iterations;
     symbols_of := Some ["A"; "B"; "C"];
     interval_of := "5min";
     batch_size := batch_size;
     retry_on_failure := true;
     max_retries := 3 |}.

(** ** STREAM_N_POLLING/streaming_service.py: stopping, and a single cycle *)

(** The lines [stop_streaming] and [run_single_cycle] log; the line of a
    failed callback is the worker's. *)
Inductive StreamMsg :=
| ServiceNotRunning
| StoppingService
| ServiceStopped
| RunningSingleCycle (n : Z)
| SingleCycleCompleted (total : Z).

Section Service.
Context `{PyRuntime}.
Variable note : Level -> StreamMsg -> M unit.

(** [stop_streaming]: sets the stop event and clears [is_running]; the
    [join] of the worker thread, which waits for at most ten seconds, is
    left out. *)
Definition stop_streaming (self : DataStreamingService)
    : M (DataStreamingService * bool) :=
  if negb (svc_is_running self) then
    note INFO ServiceNotRunning >> ret (self, true)
  else
    note INFO StoppingService >>
    let self := {| svc_is_running := false; svc_stop_event := true;
                   svc_streaming_thread := svc_streaming_thread self |} in
    note INFO ServiceStopped >>
    ret (self, true).

(** [run_single_cycle]; the callback receives the iteration number [1] and
    the results. *)
Definition run_single_cycle (symbols : option (list string))
    (callback : option (Z -> gmap string Z -> M unit)) : M (gmap string Z) :=
  let symbols := match symbols with
                 | None => default_symbols
                 | Some l => l
                 end in
  note INFO (RunningSingleCycle (Z.of_nat (length symbols))) >>
  let* results := process_multiple_stocks_intraday symbols "5min" in
  let total_processed := sum_values results in
  note INFO (SingleCycleCompleted total_processed) >>
  match callback with
  | Some callback =>
      try_except (callback 1 results) (fun e => logger ERROR (CallbackFailed e)) >>
      ret results
  | None => ret results
  end.

End Service.

(* ===================================================================== *)
(** * Part II: properties                                                 *)
(* ===================================================================== *)

(** ** The market calendar *)

Section Calendar.
Variable self : MarketScheduler.
Variable now : datetime.
Let s := market_schedule self.

Lemma is_market_open_spec (current_time : option datetime) :
  let t := or_utcnow now current_time in
  is_market_open self now current_time
  = is_trading_day s t
    && ((open_hour s <=? dt_hour t) && (dt_hour t <? close_hour s)).
Proof.
  unfold is_market_open; cbn zeta; fold s.
  destruct (is_trading_day s (or_utcnow now current_time)); reflexivity.
Qed.

Lemma is_pre_market_spec (current_time : option datetime) :
  let t := or_utcnow now current_time in
  is_pre_market self now current_time
  = is_trading_day s t
    && ((pre_market_start s <=? dt_hour t) && (dt_hour t <? open_hour s)).
Proof.
  unfold is_pre_market; cbn zeta; fold s.
  destruct (is_trading_day s (or_utcnow now current_time)); reflexivity.
Qed.

Lemma is_after_hours_spec (current_time : option datetime) :
  let t := or_utcnow now current_time in
  is_after_hours self now current_time
  = is_trading_day s t
    && ((close_hour s <=? dt_hour t) && (dt_hour t <? after_hours_end s)).
Proof.
  unfold is_after_hours; cbn zeta; fold s.
  destruct (is_trading_day s (or_utcnow now current_time)); reflexivity.
Qed.

End Calendar.

Lemma add_days_add_days (d : datetime) (a b : Z) :
  add_days (add_days d a) b = add_days d (a + b).
Proof. unfold add_days; cbn. f_equal. lia. Qed.

Lemma weekday_add_days (d : datetime) (k : Z) :
  weekday (add_days d k) = (weekday d + k) mod 7.
Proof.
  unfold weekday, add_days; cbn.
  rewrite Zplus_mod_idemp_l. f_equal. lia.
Qed.

Lemma replace_hour_at_hour (d : datetime) (h : Z) :
  0 <= h <= 23 -> replace_hour d h = Ok (at_hour d h).
Proof.
  intros Hh. unfold replace_hour.
  replace ((0 <=? h) && (h <=? 23)) with true; [reflexivity|].
  symmetry. apply andb_true_iff. split; apply Z.leb_le; lia.
Qed.

(** The forward scan stops at the first trading day, provided one lies
    within [fuel] days. *)
Lemma scan_next_trading_day_first (s : MarketSchedule) (fuel : nat) :
  forall d : datetime,
    (exists k, 1 <= k <= Z.of_nat fuel /\ is_trading_day s (add_days d k) = true) ->
    exists k, 1 <= k <= Z.of_nat fuel
      /\ scan_next_trading_day fuel s d = Some (add_days d k)
      /\ is_trading_day s (add_days d k) = true
      /\ (forall j, 1 <= j < k -> is_trading_day s (add_days d j) = false).
Proof.
  induction fuel as [|fuel IH]; intros d [k0 [Hk0 Ht0]].
  - lia.
  - cbn [scan_next_trading_day].
    destruct (is_trading_day s (add_days d 1)) eqn:E1.
    + exists 1. repeat split; try lia; try assumption.
    + assert (k0 <> 1) by (intros ->; congruence).
      destruct (IH (add_days d 1)) as [k [Hk [Hs [Ht Hmin]]]].
      { exists (k0 - 1). split; [lia|].
        rewrite add_days_add_days. replace (1 + (k0 - 1)) with k0 by lia.
        exact Ht0. }
      rewrite add_days_add_days in Hs, Ht.
      exists (1 + k). repeat split; try lia; try assumption.
      intros j Hj. destruct (Z.eq_dec j 1) as [->|Hne]; [exact E1|].
      specialize (Hmin (j - 1)). rewrite add_days_add_days in Hmin.
      replace (1 + (j - 1)) with j in Hmin by lia. apply Hmin. lia.
Qed.

(** Within any seven consecutive days every weekday occurs. *)
Lemma trading_day_within_week (s : MarketSchedule) (d : datetime) :
  (exists wd, wd ∈ trading_days s /\ 0 <= wd < 7) ->
  exists k, 1 <= k <= 7 /\ is_trading_day s (add_days d k) = true.
Proof.
  intros [wd [Hin Hwd]].
  exists ((wd - weekday d - 1) mod 7 + 1).
  pose proof (Z.mod_pos_bound (wd - weekday d - 1) 7 ltac:(lia)) as Hb.
  split; [lia|].
  unfold is_trading_day. apply bool_decide_eq_true.
  rewrite weekday_add_days.
  replace ((weekday d + ((wd - weekday d - 1) mod 7 + 1)) mod 7) with wd; [exact Hin|].
  rewrite Z.add_assoc, (Z.add_comm (weekday d)), <- Z.add_assoc.
  rewrite Zplus_mod_idemp_l.
  replace (wd - weekday d - 1 + (weekday d + 1)) with wd by lia.
  symmetry. apply Z.mod_small. lia.
Qed.

(** C7.  Market-window predicates.  For the scheduler configured with
    open=9, close=16, pre-market start=4, after-hours end=20 and trading days
    Monday to Friday, each predicate is false on an instant whose weekday is
    not a trading day and is otherwise the hour test with an inclusive lower
    and an exclusive upper bound; [is_market_open] is false on Saturday 10:00,
    true on Wednesday 10:00 and false on Wednesday 8:00, [is_pre_market] is
    true on Wednesday 6:00, [is_after_hours] is true on Wednesday 17:00 and
    false on Wednesday 21:00. *)
Theorem market_window_predicates :
  let self := new_scheduler (Some (MarketSchedule_init 9 16 4 20 "UTC" (Some [0; 1; 2; 3; 4]))) in
  let trading t := bool_decide (weekday t ∈ [0; 1; 2; 3; 4]) in
  (forall now t, is_market_open self now (Some t)
                 = trading t && ((9 <=? dt_hour t) && (dt_hour t <? 16)))
  /\ (forall now t, is_pre_market self now (Some t)
                    = trading t && ((4 <=? dt_hour t) && (dt_hour t <? 9)))
  /\ (forall now t, is_after_hours self now (Some t)
                    = trading t && ((16 <=? dt_hour t) && (dt_hour t <? 20)))
  /\ weekday (mk_datetime 2024 1 13 10 0) = 5
  /\ weekday (mk_datetime 2024 1 10 10 0) = 2
  /\ (forall now, is_market_open self now (Some (mk_datetime 2024 1 13 10 0)) = false)
  /\ (forall now, is_market_open self now (Some (mk_datetime 2024 1 10 10 0)) = true)
  /\ (forall now, is_market_open self now (Some (mk_datetime 2024 1 10 8 0)) = false)
  /\ (forall now, is_pre_market self now (Some (mk_datetime 2024 1 10 6 0)) = true)
  /\ (forall now, is_after_hours self now (Some (mk_datetime 2024 1 10 17 0)) = true)
  /\ (forall now, is_after_hours self now (Some (mk_datetime 2024 1 10 21 0)) = false).
Proof.
  cbn zeta.
  split; [intros; apply is_market_open_spec|].
  split; [intros; apply is_pre_market_spec|].
  split; [intros; apply is_after_hours_spec|].
  repeat split; intros; vm_compute; reflexivity.
Qed.

(** C8.  Next-open computation.  For a schedule with a valid open hour and
    at least one trading weekday, [get_next_market_open] returns (the scan
    needs at most seven rounds) today's open instant when today is a trading
    day and the instant lies before it, and otherwise the open instant of the
    first trading day found by stepping forward one day at a time; with
    Monday to Friday and open=9, Friday 20:00 yields the following Monday
    9:00. *)
Theorem next_market_open_skips_non_trading_days :
  (forall (self : MarketScheduler) (now : datetime)
          (current_time : option datetime) (fuel : nat),
      let s := market_schedule self in
      let t := or_utcnow now current_time in
      0 <= open_hour s <= 23 ->
      (exists wd, wd ∈ trading_days s /\ 0 <= wd < 7) ->
      (7 <= fuel)%nat ->
      if open_still_ahead s t
      then get_next_market_open fuel self now current_time
           = Some (Ok (at_hour t (open_hour s)))
      else exists k,
          1 <= k <= 7
          /\ get_next_market_open fuel self now current_time
             = Some (Ok (at_hour (add_days t k) (open_hour s)))
          /\ is_trading_day s (add_days t k) = true
          /\ (forall j, 1 <= j < k -> is_trading_day s (add_days t j) = false))
  /\ weekday (mk_datetime 2024 1 12 20 0) = 4
  /\ weekday (mk_datetime 2024 1 15 9 0) = 0
  /\ (forall now,
        get_next_market_open 7 (new_scheduler None) now
          (Some (mk_datetime 2024 1 12 20 0))
        = Some (Ok (mk_datetime 2024 1 15 9 0))).
Proof.
  split; [|repeat split; intros; vm_compute; reflexivity].
  intros self now current_time fuel s t Hh Hex Hfuel.
  assert (Hscan : exists k, 1 <= k <= 7
            /\ scan_next_trading_day fuel s t = Some (add_days t k)
            /\ is_trading_day s (add_days t k) = true
            /\ (forall j, 1 <= j < k -> is_trading_day s (add_days t j) = false)).
  { destruct (trading_day_within_week s t Hex) as [k0 [Hk0 Ht0]].
    destruct (scan_next_trading_day_first s fuel t) as [k [Hk [Hs [Ht Hmin]]]].
    { exists k0. split; [lia|exact Ht0]. }
    exists k. repeat split; try assumption; try lia.
    destruct (Z_le_gt_dec k k0) as [Hle|Hgt]; [lia|].
    specialize (Hmin k0 ltac:(lia)). congruence. }
  unfold get_next_market_open, open_still_ahead. fold s. fold t.
  rewrite (replace_hour_at_hour t _ Hh).
  destruct (is_trading_day s t) eqn:Etd; cbn [andb].
  - destruct (dt_lt t (at_hour t (open_hour s))) eqn:Elt; [reflexivity|].
    destruct Hscan as [k [Hk [Hs [Ht Hmin]]]].
    exists k. rewrite Hs, (replace_hour_at_hour _ _ Hh). auto.
  - destruct Hscan as [k [Hk [Hs [Ht Hmin]]]].
    exists k. rewrite Hs, (replace_hour_at_hour _ _ Hh). auto.
Qed.

(** Witness of C8: the general statement applied to Friday 2024-01-12 20:00
    under the default schedule. *)
Lemma next_market_open_friday_witness :
  exists k,
    1 <= k <= 7
    /\ get_next_market_open 7 (new_scheduler None) (mk_datetime 2024 1 1 0 0)
         (Some (mk_datetime 2024 1 12 20 0))
       = Some (Ok (at_hour (add_days (mk_datetime 2024 1 12 20 0) k) 9)).
Proof.
  pose proof (proj1 next_market_open_skips_non_trading_days
                (new_scheduler None) (mk_datetime 2024 1 1 0 0)
                (Some (mk_datetime 2024 1 12 20 0)) 7%nat) as H.
  cbn zeta in H.
  destruct H as [k [Hk [Hget _]]].
  - vm_compute; split; discriminate.
  - exists 0. split; [set_solver|lia].
  - lia.
  - exists k. split; [exact Hk|exact Hget].
Defined.

(** C9.  Duplicate job registration.  Registering a job under a name that is
    not yet present returns [true] and stores the registration, leaving every
    other entry alone; any later registration under the same name, by any of
    the three registration methods and with any arguments, returns [false]
    and leaves the scheduler, with the stored registration, unchanged. *)
Theorem duplicate_job_registration_rejected
    (self : MarketScheduler) (now : datetime) (name : string)
    (symbols : list string) (interval_minutes : Z) (callback : option Callback) :
  scheduled_jobs self !! name = None ->
  exists self',
    schedule_market_hours_job self now name symbols interval_minutes callback
    = (self', true)
    /\ scheduled_jobs self' !! name
       = Some {| job_name := name; job_symbols := symbols;
                 job_interval_minutes := interval_minutes;
                 job_callback := callback; job_type := market_hours;
                 job_created_at := now |}
    /\ (forall other, other <> name ->
          scheduled_jobs self' !! other = scheduled_jobs self !! other)
    /\ market_schedule self' = market_schedule self
    /\ (forall now2 symbols2 interval2 callback2,
          schedule_market_hours_job self' now2 name symbols2 interval2 callback2
          = (self', false)
          /\ schedule_pre_market_job self' now2 name symbols2 interval2 callback2
             = (self', false)
          /\ schedule_after_hours_job self' now2 name symbols2 interval2 callback2
             = (self', false)).
Proof.
  intros Hfresh.
  unfold schedule_market_hours_job, schedule_pre_market_job,
    schedule_after_hours_job, register_job.
  rewrite bool_decide_eq_false_2 by (rewrite Hfresh; apply is_Some_None).
  eexists. split; [reflexivity|]. cbn [scheduled_jobs market_schedule].
  split; [apply lookup_insert_eq|].
  split; [intros other Hne; apply lookup_insert_ne; congruence|].
  split; [reflexivity|].
  intros now2 symbols2 interval2 callback2.
  rewrite bool_decide_eq_true_2 by (rewrite lookup_insert_eq; eauto).
  auto.
Qed.

(** Witness of C9: a job named x registered twice on a new scheduler. *)
Lemma duplicate_job_registration_witness :
  scheduled_jobs (new_scheduler None) !! "x" = None
  /\ exists self',
      schedule_market_hours_job (new_scheduler None) (mk_datetime 2024 1 10 10 0)
        "x" ["AAPL"; "MSFT"] 5 None = (self', true)
      /\ schedule_market_hours_job self' (mk_datetime 2024 1 10 10 5)
           "x" ["TSLA"] 15 None = (self', false).
Proof.
  split; [apply lookup_empty|].
  destruct (duplicate_job_registration_rejected (new_scheduler None)
              (mk_datetime 2024 1 10 10 0) "x" ["AAPL"; "MSFT"] 5 None
              (lookup_empty _))
    as [self' [Hreg [_ [_ [_ Hdup]]]]].
  exists self'. split; [exact Hreg|].
  exact (proj1 (Hdup (mk_datetime 2024 1 10 10 5) ["TSLA"] 15 None)).
Defined.

(** ** The transformer *)

Section TransformerFacts.
Context `{PyRuntime}.

(** The value of the guarded loop body does not depend on the world. *)
Lemma entry_record_spec (sym itv ts : string) (pd : Json) (w : World) :
  snd (try_except (price_object sym itv ts pd) (price_object_handler sym ts) w)
  = Ok (entry_record sym itv (ts, pd)).
Proof.
  unfold entry_record, try_except, price_object, bind, _parse_timestamp; cbn [fst snd].
  destruct (try_formats ts timestamp_formats); [|destruct (dateutil_parse ts)];
    cbn; try reflexivity.
  all: unfold lift.
  all: destruct (get_number py_float (float_of_Z 0) pd "1. open") as [o|[]];
    cbn; try reflexivity.
  all: destruct (get_number py_float (float_of_Z 0) pd "2. high") as [h|[]];
    cbn; try reflexivity.
  all: destruct (get_number py_float (float_of_Z 0) pd "3. low") as [l|[]];
    cbn; try reflexivity.
  all: destruct (get_number py_float (float_of_Z 0) pd "4. close") as [c|[]];
    cbn; try reflexivity.
  all: destruct (get_number py_int 0 pd "5. volume") as [v|[]];
    cbn; try reflexivity.
  all: destruct (_validate_price_data o h l c v); cbn; reflexivity.
Qed.

Lemma accepted_records_cons (sym itv : string) (e : string * Json)
    (items : list (string * Json)) :
  accepted_records sym itv (e :: items)
  = match entry_record sym itv e with
    | Some r => r :: accepted_records sym itv items
    | None => accepted_records sym itv items
    end.
Proof. reflexivity. Qed.

(** The loop returns the records of the entries it did not skip. *)
Lemma create_price_objects_loop_value (sym itv : string)
    (items : list (string * Json)) :
  forall (acc : list StockPriceIntraday) (w : World),
    snd (create_price_objects_loop sym itv items acc w)
    = Ok (acc ++ accepted_records sym itv items).
Proof.
  induction items as [|[ts pd] items IH]; intros acc w.
  - cbn. rewrite app_nil_r. reflexivity.
  - cbn [create_price_objects_loop]. unfold bind at 1.
    pose proof (entry_record_spec sym itv ts pd w) as Hbody.
    destruct (try_except (price_object sym itv ts pd)
                (price_object_handler sym ts) w) as [w' r].
    cbn [snd] in Hbody; subst r.
    rewrite accepted_records_cons.
    destruct (entry_record sym itv (ts, pd)) as [rec|].
    + rewrite IH. rewrite <- app_assoc. reflexivity.
    + apply IH.
Qed.

Lemma _create_price_objects_value (sym itv : string) (time_series : Json) (w : World) :
  snd (_create_price_objects sym time_series itv w)
  = match time_series with
    | JObject items => Ok (accepted_records sym itv items)
    | _ => Err (AttributeError "object has no attribute 'items'")
    end.
Proof.
  destruct time_series; try reflexivity.
  unfold _create_price_objects. apply create_price_objects_loop_value.
Qed.

(** A record is produced only from an entry whose numbers passed
    [_validate_price_data]. *)
Lemma entry_record_validated (sym itv : string) (entry : string * Json)
    (r : StockPriceIntraday) :
  entry_record sym itv entry = Some r ->
  _validate_price_data (open_price r) (high_price r) (low_price r)
    (close_price r) (volume r) = true
  /\ stock_symbol r = sym /\ interval r = itv.
Proof.
  destruct entry as [ts pd].
  unfold entry_record, try_except, price_object, bind, _parse_timestamp; cbn [fst snd].
  destruct (try_formats ts timestamp_formats); [|destruct (dateutil_parse ts)];
    cbn; try discriminate.
  all: unfold lift.
  all: destruct (get_number py_float (float_of_Z 0) pd "1. open") as [o|[]];
    cbn; try discriminate.
  all: destruct (get_number py_float (float_of_Z 0) pd "2. high") as [h|[]];
    cbn; try discriminate.
  all: destruct (get_number py_float (float_of_Z 0) pd "3. low") as [l|[]];
    cbn; try discriminate.
  all: destruct (get_number py_float (float_of_Z 0) pd "4. close") as [c|[]];
    cbn; try discriminate.
  all: destruct (get_number py_int 0 pd "5. volume") as [v|[]];
    cbn; try discriminate.
  all: destruct (_validate_price_data o h l c v) eqn:Ev; cbn; try discriminate.
  all: intros [= <-]; cbn; auto.
Qed.

Lemma accepted_records_validated (sym itv : string) (items : list (string * Json))
    (r : StockPriceIntraday) :
  r ∈ accepted_records sym itv items ->
  exists entry, entry ∈ items /\ entry_record sym itv entry = Some r
    /\ _validate_price_data (open_price r) (high_price r) (low_price r)
         (close_price r) (volume r) = true.
Proof.
  unfold accepted_records. rewrite list_elem_of_omap.
  intros [entry [Hin Hrec]]. exists entry. repeat split; try assumption.
  apply (entry_record_validated sym itv entry r Hrec).
Qed.

(** The number of records is the number of entries that are not skipped. *)
Lemma accepted_records_length (sym itv : string) (items : list (string * Json)) :
  length (accepted_records sym itv items)
  = length (filter (fun e => is_Some (entry_record sym itv e)) items).
Proof.
  induction items as [|e items IH]; [reflexivity|].
  rewrite accepted_records_cons, filter_cons.
  destruct (entry_record sym itv e) as [r|] eqn:E.
  - rewrite decide_True by eauto. cbn. f_equal. exact IH.
  - rewrite decide_False by (intros [? ?]; discriminate). exact IH.
Qed.

(** What [transform_intraday_data] returns. *)
Lemma transform_intraday_data_value (raw_data : RawData) (w : World) :
  exists o, snd (transform_intraday_data raw_data w) = Ok o
    /\ match rd_symbol raw_data, rd_interval raw_data, rd_time_series raw_data with
       | Some sym, Some itv, Some (JObject items) =>
           match accepted_records sym itv items with
           | [] => o = None
           | recs =>
               exists td, o = Some td
                 /\ td_price_records td = Some recs
                 /\ (exists stock, td_stock td = Some stock /\ symbol stock = sym)
                 /\ (exists md, td_metadata td = Some md /\ tm_symbol md = Some sym)
           end
       | _, _, _ => o = None
       end.
Proof.
  unfold transform_intraday_data.
  destruct raw_data as [osym oitv ots omd]; cbn [rd_symbol rd_interval rd_time_series rd_metadata].
  destruct ots as [ts|].
  2:{ exists None. rewrite orb_true_r. cbn.
      split; [reflexivity|]. destruct osym, oitv; reflexivity. }
  replace (raw_data_empty _ || negb (bool_decide (is_Some (Some ts)))) with false.
  2:{ symmetry. apply orb_false_iff. split.
      - unfold raw_data_empty; cbn. destruct osym, oitv; reflexivity.
      - rewrite bool_decide_eq_true_2 by eauto. reflexivity. }
  destruct osym as [sym|]; [|eexists; split; [reflexivity|reflexivity]].
  destruct oitv as [itv|]; [|eexists; split; [reflexivity|reflexivity]].
  unfold try_except, bind at 1 2 3 4 5 6; cbn -[_create_price_objects].
  pose proof (_create_price_objects_value sym itv ts
                (with_log w ((INFO, TransformingIntraday sym itv) :: log w))) as Hv.
  destruct (_create_price_objects sym ts itv _) as [w1 r]. cbn [snd] in Hv. subst r.
  destruct ts; cbn; try (eexists; split; reflexivity).
  destruct (accepted_records sym itv members) as [|r recs] eqn:Hrecs; cbn.
  - eexists; split; reflexivity.
  - eexists; split; [reflexivity|]. eexists; split; [reflexivity|]. cbn.
    split; [reflexivity|]. split; eexists; split; reflexivity.
Qed.

End TransformerFacts.

(** *** Validation *)

Lemma float_le_false_gt (a b : pyfloat) :
  a <> PNaN -> b <> PNaN -> float_le a b = false -> float_gt a b = true.
Proof.
  destruct a as [x|[]|], b as [y|[]|]; cbn; unfold Qlt_bool;
    intros Ha Hb Hle; try congruence.
  rewrite Hle. reflexivity.
Qed.

Lemma float_lt_false_le (a b : pyfloat) :
  a <> PNaN -> b <> PNaN -> float_lt a b = false -> float_le b a = true.
Proof.
  destruct a as [x|[]|], b as [y|[]|]; cbn; unfold Qlt_bool;
    intros Ha Hb Hlt; try congruence.
  apply negb_false_iff in Hlt. exact Hlt.
Qed.

Lemma py_max_not_nan (a b : pyfloat) : a <> PNaN -> b <> PNaN -> py_max a b <> PNaN.
Proof. unfold py_max. destruct (float_gt b a); auto. Qed.

Lemma py_min_not_nan (a b : pyfloat) : a <> PNaN -> b <> PNaN -> py_min a b <> PNaN.
Proof. unfold py_min. destruct (float_lt b a); auto. Qed.

(** On prices that are numbers, a passed validation is the invariant of the
    specification: prices above zero, volume not negative, the high at least
    [max(open, close)], the low at most [min(open, close)], no price above
    the ceiling of one million. *)
Lemma _validate_price_data_sound `{PyRuntime} (o h l c : pyfloat) (v : Z) :
  o <> PNaN -> h <> PNaN -> l <> PNaN -> c <> PNaN ->
  _validate_price_data o h l c v = true ->
  Forall (fun p => float_gt p (float_of_Z 0) = true) [o; h; l; c]
  /\ 0 <= v
  /\ float_le (py_max o c) h = true
  /\ float_le l (py_min o c) = true
  /\ Forall (fun p => float_le p (float_of_Z 1000000) = true) [o; h; l; c].
Proof.
  intros Ho Hh Hl Hc. unfold _validate_price_data.
  destruct (existsb (fun price => float_le price _) [o; h; l; c]) eqn:Epos;
    [discriminate|].
  destruct (v <? 0) eqn:Ev; [discriminate|].
  destruct (float_lt h (py_max o c)) eqn:Ehi; [discriminate|].
  destruct (float_gt l (py_min o c)) eqn:Elo; [discriminate|].
  destruct (existsb (fun price => float_gt price _) [o; h; l; c]) eqn:Ecap;
    [discriminate|]. intros _.
  cbn in Epos, Ecap.
  repeat match goal with
         | Hx : (_ || _) = false |- _ => apply orb_false_iff in Hx; destruct Hx
         end.
  assert (Hz : float_of_Z 0 <> PNaN) by discriminate.
  assert (Hm : float_of_Z 1000000 <> PNaN) by discriminate.
  split; [repeat constructor; apply float_le_false_gt; assumption|].
  split; [apply Z.ltb_ge; assumption|].
  split; [apply float_lt_false_le; auto using py_max_not_nan|].
  split; [apply float_lt_false_le; auto using py_min_not_nan|].
  repeat constructor; apply float_lt_false_le; assumption.
Qed.

(** Ten entries of which one has its high below [max(open, close)] give
    nine records. *)
Example nine_of_ten_entries :
  length ten_entries = 10%nat
  /\ entry_record "IBM" "5min"
       ("2024-01-10 14:45:00", bar "149.50" "149.60" "149.20" "149.70" "800") = None
  /\ length (filter (fun e => is_Some (entry_record "IBM" "5min" e)) ten_entries) = 9%nat
  /\ (forall w, exists recs,
        snd (_create_price_objects "IBM" (JObject ten_entries) "5min" w) = Ok recs
        /\ length recs = 9%nat).
Proof.
  split; [reflexivity|]. split; [vm_compute; reflexivity|].
  assert (Hlen : length (accepted_records "IBM" "5min" ten_entries) = 9%nat)
    by (vm_compute; reflexivity).
  split; [rewrite <- accepted_records_length; exact Hlen|].
  intros w. exists (accepted_records "IBM" "5min" ten_entries).
  split; [apply (_create_price_objects_value "IBM" "5min" (JObject ten_entries))
         |exact Hlen].
Qed.

(** C6.  OHLC invariant enforcement.  An entry whose open price is the text
    [nan] parses ([float('nan')]), passes [_validate_price_data], because
    every comparison with NaN is false, and yields a record: the list
    produced for it holds one record whose open price is not above zero. *)
Theorem nan_price_passes_validation :
  float_of_str "nan" = Some PNaN
  /\ _validate_price_data PNaN (PFin (Qmake 15100 100)) (PFin (Qmake 14990 100))
       (PFin (Qmake 15050 100)) 1200
     = true
  /\ snd (_create_price_objects "IBM" (JObject [nan_entry]) "5min" blank_world)
     = Ok [{| stock_symbol := "IBM";
              timestamp := mk_datetime 2024 1 10 14 55;
              open_price := PNaN;
              high_price := PFin (Qmake 15100 100);
              low_price := PFin (Qmake 14990 100);
              close_price := PFin (Qmake 15050 100);
              volume := 1200;
              interval := "5min" |}]
  /\ float_gt PNaN (float_of_Z 0) = false.
Proof. repeat split; vm_compute; reflexivity. Qed.

(** Counterexample of C4: a well-formed container none of whose entries
    passes validation makes the transformation fail. *)
Lemma transform_without_valid_entry_fails :
  rd_time_series raw_without_valid_entry
  = Some (JObject [("2024-01-10 15:00:00",
                    bar "150.10" "150.00" "149.90" "150.50" "1200")])
  /\ snd (transform_intraday_data raw_without_valid_entry blank_world) = Ok None.
Proof. split; vm_compute; reflexivity. Qed.

(** C4 (amended).  [transform_intraday_data] never raises.  It returns a
    result exactly when the payload holds its symbol, its interval and a
    time series that is a dictionary, and at least one entry of the series
    is parsed and passes validation; the result then carries the records of
    those entries.  It returns [None] otherwise: when the container is absent
    or is not a dictionary, and also when no entry passes. *)
Theorem transform_succeeds_iff_an_entry_is_valid `{PyRuntime}
    (raw_data : RawData) (w : World) :
  exists o,
    snd (transform_intraday_data raw_data w) = Ok o
    /\ (is_Some o <->
        exists sym itv items,
          rd_symbol raw_data = Some sym /\ rd_interval raw_data = Some itv
          /\ rd_time_series raw_data = Some (JObject items)
          /\ accepted_records sym itv items <> [])
    /\ (forall td, o = Some td ->
        exists sym itv items,
          rd_symbol raw_data = Some sym /\ rd_interval raw_data = Some itv
          /\ rd_time_series raw_data = Some (JObject items)
          /\ td_price_records td = Some (accepted_records sym itv items)).
Proof.
  destruct (transform_intraday_data_value raw_data w) as [o [Ho Hcase]].
  exists o. split; [exact Ho|].
  destruct (rd_symbol raw_data) as [sym|];
    [|subst o; split; [split; [intros [? ?]; discriminate
                              |intros (? & ? & ? & ? & _); discriminate]
                      |discriminate]].
  destruct (rd_interval raw_data) as [itv|];
    [|subst o; split; [split; [intros [? ?]; discriminate
                              |intros (? & ? & ? & _ & ? & _); discriminate]
                      |discriminate]].
  destruct (rd_time_series raw_data) as [[| | | | | |items]|];
    try (subst o; split; [split; [intros [? ?]; discriminate
                                 |intros (? & ? & ? & _ & _ & ? & _); discriminate]
                         |discriminate]).
  destruct (accepted_records sym itv items) as [|r recs] eqn:Hrecs.
  - subst o. split; [|discriminate].
    split; [intros [? ?]; discriminate|].
    intros (sym' & itv' & items' & [= <-] & [= <-] & [= <-] & Hne). congruence.
  - destruct Hcase as [td [-> [Hpr _]]]. split.
    + split; [|eauto]. intros _. exists sym, itv, items.
      rewrite Hrecs. repeat split; discriminate.
    + intros td' [= <-]. exists sym, itv, items. rewrite Hrecs. auto.
Qed.

(** ** The extractor *)

(** Counterexample of C5: a response whose series holds no data point makes
    the extractor return [None], the value it also returns for an in-band
    provider error; no payload with an empty series is returned. *)
Lemma empty_series_is_returned_as_none :
  dict_get "Time Series (5min)" empty_series_body = Some (JObject [])
  /\ snd (extract_intraday_data "IBM" "5min"
            (fresh_world accepts_all (fun _ _ => HttpJson empty_series_body)))
     = Ok None
  /\ snd (extract_intraday_data "IBM" "5min"
            (fresh_world accepts_all (fun _ _ => HttpJson error_body)))
     = Ok None.
Proof. repeat split; vm_compute; reflexivity. Qed.

(** What [extract_intraday_data] returns and logs, case by case. *)
Lemma extract_intraday_data_run (sym itv : string) (w : World) :
  let r := snd (extract_intraday_data sym itv w) in
  let w' := fst (extract_intraday_data sym itv w) in
  let announced := (INFO, ExtractingIntraday sym itv) :: log w in
  (exists o, r = Ok o)
  /\ (forall raw, r = Ok (Some raw) ->
      exists ts, rd_time_series raw = Some ts /\ truthy ts = true
        /\ rd_symbol raw = Some (upper sym) /\ rd_interval raw = Some itv)
  /\ match provider w (upper sym) itv with
     | HttpRaises e =>
         r = Ok None /\ exists msg, log w' = (ERROR, msg) :: announced
     | HttpJson data =>
         match dict_get "Error Message" data with
         | Some message =>
             r = Ok None /\ log w' = (ERROR, ApiError sym message) :: announced
         | None =>
         match dict_get "Note" data with
         | Some note =>
             r = Ok None /\ log w' = (WARNING, ApiRateLimitNote sym note) :: announced
         | None =>
         match dict_get ("Time Series (" +:+ itv +:+ ")") data with
         | None =>
             r = Ok None /\ log w' = (ERROR, NoTimeSeriesFound sym data) :: announced
         | Some ts =>
             if truthy ts then
               match py_len ts, meta_data_get data "3. Last Refreshed",
                     meta_data_get data "6. Time Zone" with
               | Ok n, Ok refreshed, Ok tz =>
                   r = Ok (Some {| rd_symbol := Some (upper sym);
                                   rd_interval := Some itv;
                                   rd_time_series := Some ts;
                                   rd_metadata :=
                                     Some {| last_refreshed := refreshed;
                                             api_timezone := tz;
                                             extraction_timestamp := utcnow w |} |})
                   /\ log w' = (INFO, ExtractedDataPoints n sym) :: announced
               | _, _, _ =>
                   r = Ok None /\ exists e, hd_error (log w')
                                            = Some (ERROR, UnexpectedExtractError sym e)
               end
             else
               r = Ok None
               /\ log w' = (WARNING, NoIntradayDataAvailable sym) :: announced
         end end end
     end.
Proof.
  cbn zeta.
  unfold extract_intraday_data, try_except, bind, logger, http_get, ret, lift,
    get_utcnow, meta_data_get; cbn.
  destruct (provider w (upper sym) itv) as [e|data]; cbn.
  { destruct e; cbn; (split; [eauto|]); (split; [intros ? [=]|]);
      (split; [reflexivity|eauto]). }
  destruct (dict_get "Error Message" data) as [message|]; cbn.
  { split; [eauto|]. split; [intros ? [=]|]. split; reflexivity. }
  destruct (dict_get "Note" data) as [note|]; cbn.
  { split; [eauto|]. split; [intros ? [=]|]. split; reflexivity. }
  destruct (dict_get ("Time Series (" +:+ itv +:+ ")") data) as [ts|]; cbn.
  2:{ split; [eauto|]. split; [intros ? [=]|]. split; reflexivity. }
  destruct (truthy ts) eqn:Ets; cbn.
  2:{ split; [eauto|]. split; [intros ? [=]|]. split; reflexivity. }
  destruct ts as [| | | |s|items|members]; cbn;
    try (split; [eauto|]; split; [intros ? [=]|]; split; [reflexivity|eauto]).
  all: destruct (dict_get "Meta Data" data) as [[| | | | | |m]|]; cbn;
    try (split; [eauto|]; split; [intros ? [=]|]; split; [reflexivity|eauto]).
  all: split; [eauto|]; (split; [|split; reflexivity]);
    intros raw [= <-]; cbn; eauto.
Qed.

(** C5 (amended).  [extract_intraday_data] never raises and returns either
    a payload or [None].  [None] covers, in this order of precedence: an
    exception of the request (logged as an error), an in-band
    ['Error Message'] (error), an in-band ['Note'] (warning), a missing
    time-series entry (error), and a time series without data points, which
    is logged as a warning of its own but returned like the errors.  A
    payload is returned only for a non-empty time series, which it carries
    with the upper-cased symbol and the interval. *)
Theorem extract_outcome_classification (sym itv : string) (w : World) :
  let r := snd (extract_intraday_data sym itv w) in
  let w' := fst (extract_intraday_data sym itv w) in
  let announced := (INFO, ExtractingIntraday sym itv) :: log w in
  (exists o, r = Ok o)
  /\ (forall raw, r = Ok (Some raw) ->
      exists ts, rd_time_series raw = Some ts /\ truthy ts = true
        /\ rd_symbol raw = Some (upper sym) /\ rd_interval raw = Some itv)
  /\ match provider w (upper sym) itv with
     | HttpRaises e =>
         r = Ok None /\ exists msg, log w' = (ERROR, msg) :: announced
     | HttpJson data =>
         match dict_get "Error Message" data with
         | Some message =>
             r = Ok None /\ log w' = (ERROR, ApiError sym message) :: announced
         | None =>
         match dict_get "Note" data with
         | Some note =>
             r = Ok None /\ log w' = (WARNING, ApiRateLimitNote sym note) :: announced
         | None =>
         match dict_get ("Time Series (" +:+ itv +:+ ")") data with
         | None =>
             r = Ok None /\ log w' = (ERROR, NoTimeSeriesFound sym data) :: announced
         | Some ts =>
             if truthy ts then
               match py_len ts, meta_data_get data "3. Last Refreshed",
                     meta_data_get data "6. Time Zone" with
               | Ok n, Ok refreshed, Ok tz =>
                   r = Ok (Some {| rd_symbol := Some (upper sym);
                                   rd_interval := Some itv;
                                   rd_time_series := Some ts;
                                   rd_metadata :=
                                     Some {| last_refreshed := refreshed;
                                             api_timezone := tz;
                                             extraction_timestamp := utcnow w |} |})
                   /\ log w' = (INFO, ExtractedDataPoints n sym) :: announced
               | _, _, _ =>
                   r = Ok None /\ exists e, hd_error (log w')
                                            = Some (ERROR, UnexpectedExtractError sym e)
               end
             else
               r = Ok None
               /\ log w' = (WARNING, NoIntradayDataAvailable sym) :: announced
         end end end
     end.
Proof. exact (extract_intraday_data_run sym itv w). Qed.

(** ** The loader: upsert of price records *)

Section PriceRows.
Variables (o h l c : pyfloat) (v : Z) (updated : datetime) (key : PriceKey).
Let upd := update_row o h l c v updated key.

Lemma update_row_key (r : PriceRow) : row_key (upd r) = row_key r.
Proof.
  unfold upd, update_row, key_eqb. case_bool_decide; reflexivity.
Qed.

Lemma update_row_keys (rows : list PriceRow) :
  row_key <$> (upd <$> rows) = row_key <$> rows.
Proof.
  induction rows as [|r rows IH]; [reflexivity|].
  cbn. rewrite update_row_key. f_equal. exact IH.
Qed.

Lemma update_row_other (r : PriceRow) : row_key r <> key -> upd r = r.
Proof.
  intros Hne. unfold upd, update_row, key_eqb.
  rewrite bool_decide_eq_false_2 by exact Hne. reflexivity.
Qed.

Lemma filter_update_same (rows : list PriceRow) :
  filter (fun r => row_key r = key) (upd <$> rows)
  = upd <$> filter (fun r => row_key r = key) rows.
Proof.
  induction rows as [|r rows IH]; [reflexivity|].
  rewrite fmap_cons, !filter_cons, update_row_key.
  case_decide; [rewrite fmap_cons|]; rewrite IH; reflexivity.
Qed.

Lemma filter_update_other (k : PriceKey) (rows : list PriceRow) :
  k <> key ->
  filter (fun r => row_key r = k) (upd <$> rows) = filter (fun r => row_key r = k) rows.
Proof.
  intros Hne. induction rows as [|r rows IH]; [reflexivity|].
  rewrite fmap_cons, !filter_cons, update_row_key.
  case_decide as Hk; rewrite IH; [|reflexivity].
  rewrite update_row_other by congruence. reflexivity.
Qed.

End PriceRows.

Lemma filter_key_absent (k : PriceKey) (rows : list PriceRow) :
  k ∉ (row_key <$> rows) -> filter (fun r => row_key r = k) rows = [].
Proof.
  intros Hnot. induction rows as [|r rows IH]; [reflexivity|].
  rewrite fmap_cons, not_elem_of_cons in Hnot. destruct Hnot as [Hne Hnot].
  rewrite filter_cons, decide_False by congruence. auto.
Qed.

(** Under unique keys a key selects at most one row. *)
Lemma unique_keys_at_most_one (k : PriceKey) (rows : list PriceRow) :
  NoDup (row_key <$> rows) -> (length (filter (fun r => row_key r = k) rows) <= 1)%nat.
Proof.
  induction rows as [|r rows IH]; intros Hnd; [cbn; lia|].
  rewrite fmap_cons in Hnd. apply NoDup_cons in Hnd as [Hnot Hnd].
  rewrite filter_cons. case_decide as Hk.
  - subst k. rewrite filter_key_absent by exact Hnot. cbn. lia.
  - auto.
Qed.

Lemma find_none_key_absent (k : PriceKey) (rows : list PriceRow) :
  list_find (fun r => row_key r = k) rows = None -> k ∉ (row_key <$> rows).
Proof.
  rewrite list_find_None, Forall_forall. intros Hall Hin.
  apply list_elem_of_fmap in Hin as [r [-> Hr]]. exact (Hall r Hr eq_refl).
Qed.

Lemma find_some_in_filter (k : PriceKey) (rows : list PriceRow) (i : nat) (r : PriceRow) :
  list_find (fun r => row_key r = k) rows = Some (i, r) ->
  r ∈ filter (fun r => row_key r = k) rows.
Proof.
  rewrite list_find_Some. intros [Hl [Hk _]].
  apply list_elem_of_filter. split; [exact Hk|].
  apply list_elem_of_lookup. eauto.
Qed.

(** The three ways a call of [_load_single_price_record] can end: nothing
    stored and [False] returned; the rows of the key updated; a row
    appended for a key that had none. *)
Lemma _load_single_price_record_run (r : StockPriceIntraday) (w : World) :
  let w' := fst (_load_single_price_record r w) in
  let b := snd (_load_single_price_record r w) in
  let rows := stock_prices_intraday (tables w) in
  stocks (tables w') = stocks (tables w)
  /\ etl_job_logs (tables w') = etl_job_logs (tables w)
  /\ connection_pool w' = connection_pool w
  /\ engine_refuses w' = engine_refuses w
  /\ provider w' = provider w
  /\ utcnow w' = utcnow w
  /\ ((b = Ok false /\ stock_prices_intraday (tables w') = rows)
      \/ (b = Ok true
          /\ (exists i row0, list_find (fun x => row_key x = price_key r) rows
                             = Some (i, row0))
          /\ stock_prices_intraday (tables w')
             = update_row (open_price r) (high_price r) (low_price r)
                 (close_price r) (volume r) (utcnow w) (price_key r) <$> rows)
      \/ (b = Ok true
          /\ list_find (fun x => row_key x = price_key r) rows = None
          /\ stock_prices_intraday (tables w') = rows ++ [inserted_row r (utcnow w)])).
Proof.
  cbn zeta.
  unfold _load_single_price_record, try_except, bind, execute_query, get_utcnow,
    logger, ret; cbn.
  destruct (connection_pool w) eqn:Hpool; cbn; [|tauto].
  destruct (engine_refuses w (requests w) (SelectPrice (price_key r))); cbn;
    [tauto|].
  destruct (list_find (fun x => row_key x = price_key r)
              (stock_prices_intraday (tables w))) as [[i row0]|] eqn:Hfind;
    cbn; rewrite ?Hpool; cbn.
  - destruct (engine_refuses w (S (requests w)) _); cbn; [tauto|].
    repeat (split; [first [reflexivity|exact Hpool]|]). right; left. eauto.
  - destruct (engine_refuses w (S (requests w)) _); cbn; [tauto|].
    repeat (split; [first [reflexivity|exact Hpool]|]). right; right. auto.
Qed.

Lemma update_row_carries (r : StockPriceIntraday) (now : datetime) (row : PriceRow) :
  row_key row = price_key r ->
  carries (update_row (open_price r) (high_price r) (low_price r)
             (close_price r) (volume r) now (price_key r) row) r.
Proof.
  intros Hk. unfold update_row, key_eqb.
  rewrite bool_decide_eq_true_2 by exact Hk. repeat split.
Qed.

(** A load keeps the keys of the store unique, whatever the engine does. *)
Lemma _load_single_price_record_unique (r : StockPriceIntraday) (w : World) :
  unique_keys (tables w) ->
  unique_keys (tables (fst (_load_single_price_record r w))).
Proof.
  unfold unique_keys. intros Hnd.
  destruct (_load_single_price_record_run r w)
    as (_ & _ & _ & _ & _ & _ & [[_ ->]|[(_ & _ & ->)|(_ & Hnone & ->)]]).
  - exact Hnd.
  - rewrite update_row_keys. exact Hnd.
  - rewrite fmap_app. apply NoDup_app. split; [exact Hnd|].
    split; [|apply NoDup_singleton].
    intros k Hk Hin. apply list_elem_of_singleton in Hin. subst k.
    exact (find_none_key_absent _ _ Hnone Hk).
Qed.

(** A successful load leaves exactly one row under the key of the record,
    and the row carries the values of the record. *)
Lemma _load_single_price_record_stores (r : StockPriceIntraday) (w : World) :
  unique_keys (tables w) ->
  snd (_load_single_price_record r w) = Ok true ->
  exists row,
    rows_with (price_key r) (tables (fst (_load_single_price_record r w))) = [row]
    /\ row_key row = price_key r
    /\ carries row r.
Proof.
  unfold unique_keys, rows_with. intros Hnd Hok.
  destruct (_load_single_price_record_run r w)
    as (_ & _ & _ & _ & _ & _ & [[Hb _]|[(_ & Hsome & ->)|(_ & Hnone & ->)]]).
  - congruence.
  - destruct Hsome as (i & row0 & Hfind).
    rewrite filter_update_same.
    pose proof (find_some_in_filter _ _ _ _ Hfind) as Hin.
    pose proof (unique_keys_at_most_one (price_key r) _ Hnd) as Hlen.
    destruct (filter (fun r0 => row_key r0 = price_key r)
                (stock_prices_intraday (tables w))) as [|x [|y rest]] eqn:Hf.
    + apply elem_of_nil in Hin. contradiction.
    + assert (Hx : row_key x = price_key r).
      { assert (Hxin : x ∈ filter (fun r0 => row_key r0 = price_key r)
                         (stock_prices_intraday (tables w)))
          by (rewrite Hf; apply list_elem_of_here).
        apply list_elem_of_filter in Hxin. tauto. }
      eexists. split; [reflexivity|]. split.
      * rewrite update_row_key. exact Hx.
      * apply update_row_carries. exact Hx.
    + cbn in Hlen. lia.
  - rewrite filter_app, (filter_key_absent _ _ (find_none_key_absent _ _ Hnone)).
    rewrite filter_cons, decide_True by reflexivity.
    eexists. split; [reflexivity|]. split; [reflexivity|]. repeat split.
Qed.

(** A load touches the rows of no other key. *)
Lemma _load_single_price_record_other_keys (r : StockPriceIntraday) (w : World)
    (k : PriceKey) :
  k <> price_key r ->
  rows_with k (tables (fst (_load_single_price_record r w))) = rows_with k (tables w).
Proof.
  unfold rows_with. intros Hne.
  destruct (_load_single_price_record_run r w)
    as (_ & _ & _ & _ & _ & _ & [[_ ->]|[(_ & _ & ->)|(_ & _ & ->)]]).
  - reflexivity.
  - apply filter_update_other. exact Hne.
  - rewrite filter_app, filter_cons, decide_False
      by (intros Heq; apply Hne; rewrite <- Heq; reflexivity).
    apply app_nil_r.
Qed.

Lemma load_prices_loop_unique (records : list StockPriceIntraday) :
  forall (count : Z) (w : World),
    unique_keys (tables w) ->
    unique_keys (tables (fst (load_prices_loop records count w))).
Proof.
  induction records as [|r records IH]; intros count w Hu; [exact Hu|].
  cbn [load_prices_loop]. unfold bind.
  pose proof (_load_single_price_record_unique r w Hu) as Hu1.
  pose proof (_load_single_price_record_run r w) as Hrun. cbn zeta in Hrun.
  destruct (_load_single_price_record r w) as [w1 [b|e]]; cbn [fst snd] in *.
  - apply IH. exact Hu1.
  - destruct Hrun as (_ & _ & _ & _ & _ & _ & [[? _]|[(? & _)|(? & _)]]);
      discriminate.
Qed.

Lemma load_intraday_prices_unique (sym : string)
    (records : list StockPriceIntraday) (w : World) :
  unique_keys (tables w) ->
  unique_keys (tables (fst (load_intraday_prices sym records w))).
Proof.
  intros Hu. destruct records as [|r records]; [exact Hu|].
  unfold load_intraday_prices, try_except, bind.
  pose proof (load_prices_loop_unique (r :: records) 0 w Hu) as Hu1.
  destruct (load_prices_loop (r :: records) 0 w) as [w1 [n|e]]; exact Hu1.
Qed.

(** C2.  Idempotent upsert.  In a store that holds at most one row per
    natural key, loading a record [r] and then a record [r'] with the same
    key (both loads succeeding) leaves exactly one row under that key, which
    carries the OHLCV values of [r'] (after the first load it carried those
    of [r]); and after any sequence of loads, succeeding or not, no key has
    more than one row. *)
Theorem upsert_is_idempotent (w : World) (r r' : StockPriceIntraday) :
  unique_keys (tables w) ->
  price_key r' = price_key r ->
  let w1 := fst (_load_single_price_record r w) in
  let w2 := fst (_load_single_price_record r' w1) in
  snd (_load_single_price_record r w) = Ok true ->
  snd (_load_single_price_record r' w1) = Ok true ->
  (exists row, rows_with (price_key r) (tables w1) = [row] /\ carries row r)
  /\ (exists row, rows_with (price_key r) (tables w2) = [row] /\ carries row r')
  /\ (forall (sym : string) (records : list StockPriceIntraday) (key : PriceKey),
        (length (rows_with key (tables (fst (load_intraday_prices sym records w))))
         <= 1)%nat).
Proof.
  intros Hu Hkey w1 w2 Hok1 Hok2.
  split; [|split].
  - destruct (_load_single_price_record_stores r w Hu Hok1) as (row & ? & _ & ?).
    eauto.
  - pose proof (_load_single_price_record_unique r w Hu) as Hu1.
    destruct (_load_single_price_record_stores r' w1 Hu1 Hok2) as (row & Hrow & _ & ?).
    rewrite Hkey in Hrow. eauto.
  - intros sym records key.
    apply unique_keys_at_most_one.
    apply (load_intraday_prices_unique sym records w Hu).
Qed.

(** Witness of C2: a bar of IBM loaded into an empty store and loaded again
    with revised values. *)
Lemma upsert_is_idempotent_witness :
  unique_keys (tables ready_world)
  /\ price_key ibm_1500_revised = price_key ibm_1500
  /\ exists row,
      rows_with (price_key ibm_1500)
        (tables (fst (_load_single_price_record ibm_1500_revised
                        (fst (_load_single_price_record ibm_1500 ready_world)))))
      = [row]
      /\ carries row ibm_1500_revised.
Proof.
  split; [constructor|]. split; [reflexivity|].
  refine (proj1 (proj2 (upsert_is_idempotent ready_world ibm_1500 ibm_1500_revised
                          _ _ _ _))).
  - constructor.
  - reflexivity.
  - vm_compute; reflexivity.
  - vm_compute; reflexivity.
Defined.

(** ** The loader: stocks and the audit log *)

Lemma steady_refl (w : World) : steady w w.
Proof. repeat split. Qed.

Lemma steady_trans (w1 w2 w3 : World) : steady w1 w2 -> steady w2 w3 -> steady w1 w3.
Proof. unfold steady. intuition congruence. Qed.

(** [load_stock] returns a boolean and changes no table.  It returns [True]
    exactly for a symbol its lookup finds; for a symbol the store does not
    hold yet, reading [stock.name] raises before the insert is submitted and
    the call returns [False]. *)
Lemma load_stock_run (stock : Stock) (w : World) :
  let w' := fst (load_stock stock w) in
  steady w w'
  /\ tables w' = tables w
  /\ (exists b, snd (load_stock stock w) = Ok b)
  /\ (connection_pool w = true ->
      engine_refuses w (requests w) (SelectStock (symbol stock)) = false ->
      snd (load_stock stock w) = Ok (stock_known w (symbol stock)))
  /\ (snd (load_stock stock w) = Ok true -> stock_known w (symbol stock) = true).
Proof.
  cbn zeta.
  unfold load_stock, try_except, bind, execute_query, logger, ret, lift,
    stock_name, stock_known, steady; cbn.
  destruct (connection_pool w) eqn:Hpool; cbn.
  2:{ repeat split; eauto; discriminate. }
  destruct (engine_refuses w (requests w) (SelectStock (symbol stock))) eqn:Hsel; cbn.
  { repeat split; eauto; discriminate. }
  destruct (list_find _ (stocks (tables w))) as [[i row]|]; cbn.
  all: repeat split; eauto; discriminate.
Qed.

(** [_log_etl_job] never raises and appends at most one audit row, exactly
    one when the engine takes the insert. *)
Lemma _log_etl_job_run (sym : string) (total processed : Z) (status : JobStatus)
    (message : option string) (w : World) :
  let w' := fst (_log_etl_job sym total processed status message w) in
  let row := job_log_row sym total processed status message (utcnow w) in
  steady w w'
  /\ snd (_log_etl_job sym total processed status message w) = Ok tt
  /\ stock_prices_intraday (tables w') = stock_prices_intraday (tables w)
  /\ (etl_job_logs (tables w') = etl_job_logs (tables w)
      \/ etl_job_logs (tables w') = etl_job_logs (tables w) ++ [row])
  /\ (connection_pool w = true ->
      engine_refuses w (requests w) (InsertJobLog row) = false ->
      etl_job_logs (tables w') = etl_job_logs (tables w) ++ [row]).
Proof.
  cbn zeta.
  unfold _log_etl_job, try_except, bind, execute_query, get_utcnow, logger, ret,
    steady; cbn.
  destruct (connection_pool w) eqn:Hpool; cbn.
  2:{ repeat split; eauto; discriminate. }
  destruct (engine_refuses w (requests w) _) eqn:Hins; cbn.
  - repeat split; eauto. intros _ ?; discriminate.
  - repeat split; eauto.
Qed.

(** The price loop returns a count and writes only price rows. *)
Lemma load_prices_loop_run (records : list StockPriceIntraday) :
  forall (count : Z) (w : World),
    let w' := fst (load_prices_loop records count w) in
    steady w w'
    /\ stocks (tables w') = stocks (tables w)
    /\ etl_job_logs (tables w') = etl_job_logs (tables w)
    /\ exists n, snd (load_prices_loop records count w) = Ok n.
Proof.
  induction records as [|r records IH]; intros count w; cbn zeta.
  - cbn. repeat split; eauto.
  - cbn [load_prices_loop]. unfold bind.
    pose proof (_load_single_price_record_run r w) as Hrun. cbn zeta in Hrun.
    destruct (_load_single_price_record r w) as [w1 [b|e]]; cbn [fst snd] in Hrun.
    + destruct Hrun as (Hs & Hj & Hp & He & Hpr & Hu & _).
      destruct (IH (if b then count + 1 else count) w1) as ((Hp' & He' & Hpr' & Hu') & Hs' & Hj' & Hn).
      unfold steady. repeat split; congruence.
    + destruct Hrun as (_ & _ & _ & _ & _ & _ & [[? _]|[(? & _)|(? & _)]]);
        discriminate.
Qed.

Lemma load_intraday_prices_run (sym : string)
    (records : list StockPriceIntraday) (w : World) :
  let w' := fst (load_intraday_prices sym records w) in
  steady w w'
  /\ stocks (tables w') = stocks (tables w)
  /\ etl_job_logs (tables w') = etl_job_logs (tables w)
  /\ exists n, snd (load_intraday_prices sym records w) = Ok n.
Proof.
  cbn zeta. destruct records as [|r records].
  - cbn. repeat split; eauto.
  - unfold load_intraday_prices, try_except, bind, logger, ret.
    destruct (load_prices_loop_run (r :: records) 0 w) as (Hst & Hs & Hj & [n Hn]).
    destruct (load_prices_loop (r :: records) 0 w) as [w1 res]; cbn [fst snd] in *.
    subst res. cbn. repeat split; eauto; apply Hst.
Qed.

(** With all its keys present, [load_transformed_data] loads the stock, then
    the prices, then writes the audit row. *)
Lemma load_transformed_data_present (td : TransformedData) (w : World)
    (md : TransformMetadata) (sym : string) (stock : Stock)
    (records : list StockPriceIntraday) :
  td_metadata td = Some md -> tm_symbol md = Some sym ->
  td_stock td = Some stock -> td_price_records td = Some records ->
  let w0 := with_log w ((INFO, LoadingTransformedData sym) :: log w) in
  let w1 := fst (load_stock stock w0) in
  let w2 := fst (load_intraday_prices sym records w1) in
  load_transformed_data td w
  = match snd (load_stock stock w0) with
    | Ok true =>
        match snd (load_intraday_prices sym records w1) with
        | Ok loaded =>
            (fst (_log_etl_job sym (Z.of_nat (length records)) loaded SUCCESS None w2),
             Ok {| lr_success := true; lr_symbol := Some sym; lr_error := None;
                   lr_stock_loaded := Some true;
                   lr_prices_loaded := Some loaded;
                   lr_total_price_records := Some (Z.of_nat (length records));
                   lr_loading_timestamp := Some (utcnow w) |})
        | Err e => load_transformed_data td w
        end
    | Ok false => (w1, Ok (failed_load (Some sym) "Failed to load stock information"))
    | Err e => load_transformed_data td w
    end.
Proof.
  intros Hmd Hsym Hstock Hrecs w0 w1 w2.
  destruct (load_stock_run stock w0) as (Hst1 & _ & [b Hb] & _).
  fold w1 in Hst1. rewrite Hb.
  destruct (load_intraday_prices_run sym records w1) as (Hst2 & _ & _ & [n Hn]).
  fold w2 in Hst2.
  destruct (_log_etl_job_run sym (Z.of_nat (length records)) n SUCCESS None w2)
    as (Hst3 & Hlog & _).
  assert (Hnow : utcnow (fst (_log_etl_job sym (Z.of_nat (length records)) n
                                SUCCESS None w2)) = utcnow w).
  { destruct Hst1 as (_ & _ & _ & H1), Hst2 as (_ & _ & _ & H2),
      Hst3 as (_ & _ & _ & H3). rewrite H3, H2, H1. reflexivity. }
  unfold load_transformed_data.
  replace (transformed_data_empty td) with false
    by (unfold transformed_data_empty; rewrite Hmd; destruct (td_stock td),
          (td_price_records td); reflexivity).
  rewrite Hmd, Hstock, Hrecs.
  unfold try_except, bind, getitem, ret, logger, get_utcnow; cbn -[load_stock
    load_intraday_prices _log_etl_job]. rewrite Hsym.
  cbn -[load_stock load_intraday_prices _log_etl_job].
  fold w0. subst w1 w2.
  destruct (load_stock stock w0) as [w1 r1]; cbn [fst snd] in *. subst r1.
  destruct b; cbn -[load_intraday_prices _log_etl_job]; [|reflexivity].
  rewrite Hn.
  destruct (load_intraday_prices sym records w1) as [w2 r2]; cbn [fst snd] in *.
  subst r2. cbn -[_log_etl_job].
  destruct (_log_etl_job sym (Z.of_nat (length records)) n SUCCESS None w2)
    as [w3 r3]; cbn [fst snd] in *. subst r3. cbn. rewrite Hnow. reflexivity.
Qed.

(** With a key missing, the [except] clause writes a FAILED audit row. *)
Lemma load_transformed_data_missing (td : TransformedData) (w : World) (key : string) :
  transformed_data_empty td = false ->
  missing_key td = Some key ->
  let e := KeyError key in
  let w0 := with_log w ((ERROR, FailedToLoadTransformedData e) :: log w) in
  load_transformed_data td w
  = (fst (_log_etl_job (logged_symbol td) 0 0 FAILED (Some (str e)) w0),
     Ok (failed_load (Some (logged_symbol td)) (str e))).
Proof.
  intros Hne Hkey e w0. subst e.
  unfold load_transformed_data. rewrite Hne.
  unfold missing_key, logged_symbol in *.
  destruct (td_metadata td) as [md|] eqn:Hmd;
    [destruct (tm_symbol md) as [sym|] eqn:Hsym|].
  1: destruct (td_stock td) as [stock|] eqn:Hst;
    [destruct (td_price_records td) as [recs|] eqn:Hrecs|].
  1: discriminate.
  all: injection Hkey as <-.
  all: unfold try_except, bind, getitem, ret, raise, logger;
    cbn -[_log_etl_job str]; rewrite ?Hsym; cbn -[_log_etl_job str].
  all: fold w0.
  all: pose proof (_log_etl_job_run) as Hrun; cbn zeta in Hrun.
  all: match goal with
       | |- context [_log_etl_job ?s 0 0 FAILED ?m ?wx] =>
           destruct (Hrun s 0 0 FAILED m wx) as (_ & Hok & _);
           destruct (_log_etl_job s 0 0 FAILED m wx) as [w1 r]
       end; cbn [fst snd] in *; subst r; reflexivity.
Qed.

Lemma missing_key_None (td : TransformedData) :
  missing_key td = None ->
  exists md sym stock records,
    td_metadata td = Some md /\ tm_symbol md = Some sym
    /\ td_stock td = Some stock /\ td_price_records td = Some records.
Proof.
  unfold missing_key.
  destruct (td_metadata td) as [md|]; [|intros [=]].
  destruct (tm_symbol md) as [sym|] eqn:Hsym, (td_stock td) as [stock|],
    (td_price_records td) as [records|]; intros Hk; try discriminate.
  exists md, sym, stock, records. repeat split. exact Hsym.
Qed.

Lemma missing_key_nonempty (td : TransformedData) :
  missing_key td = None -> transformed_data_empty td = false.
Proof.
  intros Hk. destruct (missing_key_None td Hk) as (md & sym & stock & recs & Hmd & _).
  unfold transformed_data_empty. rewrite Hmd.
  destruct (td_stock td), (td_price_records td); reflexivity.
Qed.

(** The audit rows of [load_transformed_data].  It never raises and
    appends at most one audit row.  For an input that is not empty, when the
    pool is up and the engine takes the statements on the stocks table and
    the audit insert: a missing key gives a FAILED row carrying the error
    message; all keys and a stock the store holds give a SUCCESS row with
    the numbers of records attempted and loaded (whatever happened to single
    price records); all keys and a stock the store does not hold give a
    failure and no row, and leave the tables as they were. *)
Lemma load_transformed_data_audit_rows :
  (forall (td : TransformedData) (w : World),
      (exists res, snd (load_transformed_data td w) = Ok res)
      /\ exists rows,
          etl_job_logs (tables (fst (load_transformed_data td w)))
          = etl_job_logs (tables w) ++ rows
          /\ (length rows <= 1)%nat)
  /\ (forall (td : TransformedData) (w : World),
      transformed_data_empty td = false ->
      connection_pool w = true ->
      (forall n q, stock_or_audit q = true -> engine_refuses w n q = false) ->
      let w' := fst (load_transformed_data td w) in
      match missing_key td with
      | None =>
          exists stock records,
            td_stock td = Some stock /\ td_price_records td = Some records
            /\ if stock_known w (symbol stock) then
                 exists loaded res,
                   etl_job_logs (tables w')
                   = etl_job_logs (tables w)
                     ++ [job_log_row (logged_symbol td) (Z.of_nat (length records))
                           loaded SUCCESS None (utcnow w)]
                   /\ snd (load_transformed_data td w) = Ok res
                   /\ lr_success res = true
                   /\ lr_prices_loaded res = Some loaded
               else
                 tables w' = tables w
                 /\ snd (load_transformed_data td w)
                    = Ok (failed_load (Some (logged_symbol td))
                            "Failed to load stock information")
      | Some key =>
          etl_job_logs (tables w')
          = etl_job_logs (tables w)
            ++ [job_log_row (logged_symbol td) 0 0 FAILED
                  (Some (str (KeyError key))) (utcnow w)]
          /\ snd (load_transformed_data td w)
             = Ok (failed_load (Some (logged_symbol td)) (str (KeyError key)))
      end).
Proof.
  split.
  - intros td w.
    destruct (transformed_data_empty td) eqn:Hempty.
    { unfold load_transformed_data. rewrite Hempty. cbn.
      split; [eauto|]. exists []. rewrite app_nil_r. split; [reflexivity|cbn; lia]. }
    destruct (missing_key td) as [key|] eqn:Hkey.
    { rewrite (load_transformed_data_missing td w key Hempty Hkey). cbn [fst snd].
      split; [eauto|].
      destruct (_log_etl_job_run (logged_symbol td) 0 0 FAILED
                  (Some (str (KeyError key)))
                  (with_log w ((ERROR, FailedToLoadTransformedData (KeyError key))
                               :: log w)))
        as (_ & _ & _ & [Hsame|Hrow] & _); cbn [tables with_log] in *.
      - exists []. rewrite app_nil_r. split; [exact Hsame|cbn; lia].
      - eexists. split; [exact Hrow|cbn; lia]. }
    destruct (missing_key_None td Hkey) as (md & sym & stock & records & Hmd & Hsym & Hst & Hrecs).
    rewrite (load_transformed_data_present td w md sym stock records Hmd Hsym Hst Hrecs).
    set (w0 := with_log w ((INFO, LoadingTransformedData sym) :: log w)).
    destruct (load_stock_run stock w0) as (_ & Ht1 & [b Hb] & _).
    assert (Hj1 : etl_job_logs (tables (fst (load_stock stock w0)))
                  = etl_job_logs (tables w)) by (rewrite Ht1; reflexivity).
    rewrite Hb.
    destruct b; cbn [fst snd].
    2:{ split; [eauto|]. exists []. rewrite app_nil_r.
        split; [exact Hj1|cbn; lia]. }
    destruct (load_intraday_prices_run sym records (fst (load_stock stock w0)))
      as (_ & _ & Hj2 & [n Hn]).
    rewrite Hn. cbn [fst snd]. split; [eauto|].
    destruct (_log_etl_job_run sym (Z.of_nat (length records)) n SUCCESS None
                (fst (load_intraday_prices sym records (fst (load_stock stock w0)))))
      as (_ & _ & _ & [Hsame|Hrow] & _).
    + exists []. rewrite app_nil_r. split; [|cbn; lia].
      rewrite Hsame, Hj2, Hj1. reflexivity.
    + eexists. split; [rewrite Hrow, Hj2, Hj1; reflexivity|cbn; lia].
  - intros td w Hempty Hpool Hacc w'. subst w'.
    destruct (missing_key td) as [key|] eqn:Hkey.
    { rewrite (load_transformed_data_missing td w key Hempty Hkey). cbn [fst snd].
      split; [|reflexivity].
      destruct (_log_etl_job_run (logged_symbol td) 0 0 FAILED
                  (Some (str (KeyError key)))
                  (with_log w ((ERROR, FailedToLoadTransformedData (KeyError key))
                               :: log w)))
        as (_ & _ & _ & _ & Hrow); cbn [tables with_log utcnow] in *.
      apply Hrow; [exact Hpool|]. apply Hacc. reflexivity. }
    destruct (missing_key_None td Hkey) as (md & sym & stock & records & Hmd & Hsym & Hst & Hrecs).
    assert (Hname : logged_symbol td = sym)
      by (unfold logged_symbol; rewrite Hmd, Hsym; reflexivity).
    exists stock, records. split; [exact Hst|]. split; [exact Hrecs|].
    rewrite (load_transformed_data_present td w md sym stock records Hmd Hsym Hst Hrecs).
    set (w0 := with_log w ((INFO, LoadingTransformedData sym) :: log w)).
    destruct (load_stock_run stock w0) as ((Hp1 & He1 & _ & Hu1) & Ht1 & _ & Hknown & _).
    assert (Hj1 : etl_job_logs (tables (fst (load_stock stock w0)))
                  = etl_job_logs (tables w)) by (rewrite Ht1; reflexivity).
    rewrite (Hknown Hpool (Hacc (requests w0) (SelectStock (symbol stock)) eq_refl)).
    change (stock_known w0 (symbol stock)) with (stock_known w (symbol stock)).
    destruct (stock_known w (symbol stock)).
    2:{ cbn [fst snd]. rewrite Ht1, Hname. split; reflexivity. }
    destruct (load_intraday_prices_run sym records (fst (load_stock stock w0)))
      as ((Hp2 & He2 & _ & Hu2) & _ & Hj2 & [n Hn]).
    rewrite Hn. cbn [fst snd].
    destruct (_log_etl_job_run sym (Z.of_nat (length records)) n SUCCESS None
                (fst (load_intraday_prices sym records (fst (load_stock stock w0)))))
      as (_ & _ & _ & _ & Hrow).
    exists n. eexists.
    split; [|split; [reflexivity|split; reflexivity]].
    rewrite Hrow, Hj2, Hj1, Hu2, Hu1, Hname; [reflexivity| |].
    + rewrite Hp2, Hp1. exact Hpool.
    + rewrite He2, He1. apply Hacc. reflexivity.
Qed.

(** C3 (code bug).  A transformed result for a symbol the store does not
    hold yet, loaded through a pool whose engine takes every statement:
    [load_stock] fails on [stock.name], [load_transformed_data] returns the
    failure at once and appends no audit row, while the [except] branch of
    the same function writes a FAILED row for every other failure, as it
    does for the same input without its ['stock'] entry.  The early return
    is taken as well when the engine refuses the statements on the stocks
    table.  A whole run of the pipeline for such a symbol then leaves no
    audit row at all. *)
Theorem stock_failure_leaves_no_audit_row :
  let w := ready_world in
  let w_refused := with_pool (fresh_world refuses_stocks unreachable) true in
  (forall n q, engine_refuses w n q = false)
  /\ etl_job_logs (tables w) = []
  /\ snd (load_transformed_data ibm_transformed w)
     = Ok (failed_load (Some "IBM") "Failed to load stock information")
  /\ etl_job_logs (tables (fst (load_transformed_data ibm_transformed w))) = []
  /\ snd (load_transformed_data ibm_transformed w_refused)
     = Ok (failed_load (Some "IBM") "Failed to load stock information")
  /\ etl_job_logs (tables (fst (load_transformed_data ibm_transformed w_refused))) = []
  /\ audit_entry
     <$> etl_job_logs (tables (fst (load_transformed_data ibm_without_stock w)))
     = [("intraday_etl_IBM", FAILED, 0, 0, Some "'stock'")]
  /\ snd (process_stock_intraday "A" "5min" abc_world) = Ok 0
  /\ etl_job_logs (tables (fst (process_stock_intraday "A" "5min" abc_world))) = [].
Proof. cbn zeta. repeat split; vm_compute; reflexivity. Qed.

(** ** Frame rules for the world monad *)

Section Frame.
Context {X : Type} (f : World -> X).

Lemma preserves_ret {A : Type} (a : A) : preserves f (ret a).
Proof. intros w. reflexivity. Qed.

Lemma preserves_raise {A : Type} (e : Exn) : preserves f (@raise A e).
Proof. intros w. reflexivity. Qed.

Lemma preserves_lift {A : Type} (r : Res A) : preserves f (lift r).
Proof. intros w. reflexivity. Qed.

Lemma preserves_getitem {A : Type} (key : string) (entry : option A) :
  preserves f (getitem key entry).
Proof. intros w. destruct entry; reflexivity. Qed.

Lemma preserves_get_utcnow : preserves f get_utcnow.
Proof. intros w. reflexivity. Qed.

Lemma preserves_http_get (sym itv : string) : preserves f (http_get sym itv).
Proof. intros w. unfold http_get. destruct (provider w sym itv); reflexivity. Qed.

Lemma preserves_bind {A B : Type} (m : M A) (k : A -> M B) :
  preserves f m -> (forall a, preserves f (k a)) -> preserves f (bind m k).
Proof.
  intros Hm Hk w. unfold bind. specialize (Hm w).
  destruct (m w) as [w1 [a|e]]; cbn [fst] in *.
  - rewrite (Hk a w1). exact Hm.
  - exact Hm.
Qed.

Lemma preserves_try_except {A : Type} (body : M A) (handler : Exn -> M A) :
  preserves f body -> (forall e, preserves f (handler e)) ->
  preserves f (try_except body handler).
Proof.
  intros Hb Hh w. unfold try_except. specialize (Hb w).
  destruct (body w) as [w1 [a|e]]; cbn [fst] in *.
  - exact Hb.
  - rewrite (Hh e w1). exact Hb.
Qed.

End Frame.

Lemma logger_but_log (lvl : Level) (msg : LogMsg) : preserves but_log (logger lvl msg).
Proof. intros w. reflexivity. Qed.

Lemma logger_quiet (lvl : Level) (msg : LogMsg) :
  not_a_start (lvl, msg) -> preserves quiet_view (logger lvl msg).
Proof.
  intros Hns w. unfold quiet_view, logger; cbn.
  destruct lvl, msg; try reflexivity. contradiction.
Qed.

Lemma execute_query_quiet (q : Stmt) : preserves quiet_view (execute_query q).
Proof.
  intros w. unfold execute_query, quiet_view.
  destruct (connection_pool w); cbn; [|reflexivity].
  destruct (engine_refuses w (requests w) q); cbn; [reflexivity|].
  destruct (run_stmt q (tables w)); reflexivity.
Qed.

Lemma init_connection_pool_quiet : preserves quiet_view init_connection_pool.
Proof.
  intros w. unfold init_connection_pool, quiet_view.
  destruct (engine_refuses w (requests w) Connect); reflexivity.
Qed.

(** One step of a frame proof: split a sequence, a handler or a case
    distinction, or close a leaf. *)
Ltac frame_step :=
  first
    [ assumption
    | apply preserves_ret | apply preserves_raise | apply preserves_lift
    | apply preserves_getitem | apply preserves_get_utcnow
    | apply preserves_http_get
    | apply logger_but_log
    | apply logger_quiet; exact I
    | apply execute_query_quiet | apply init_connection_pool_quiet
    | apply preserves_bind; [|intros ?]
    | apply preserves_try_except; [|intros ?]
    | match goal with
      | |- preserves _ (match ?x with _ => _ end) => destruct x
      | |- preserves _ (if ?b then _ else _) => destruct b
      | |- preserves _ (let _ := _ in _) => cbv zeta
      end ].

Ltac frame := repeat frame_step.

Lemma extract_intraday_data_but_log (sym itv : string) :
  preserves but_log (extract_intraday_data sym itv).
Proof. unfold extract_intraday_data, extract_handler. frame. Qed.

Lemma extract_intraday_data_quiet (sym itv : string) :
  preserves quiet_view (extract_intraday_data sym itv).
Proof. unfold extract_intraday_data, extract_handler. frame. Qed.

Section TransformerFrame.
Context `{PyRuntime}.

Lemma price_object_but_log (sym itv ts : string) (pd : Json) :
  preserves but_log (price_object sym itv ts pd).
Proof. unfold price_object, _parse_timestamp. frame. Qed.

Lemma price_object_quiet (sym itv ts : string) (pd : Json) :
  preserves quiet_view (price_object sym itv ts pd).
Proof. unfold price_object, _parse_timestamp. frame. Qed.

Lemma create_price_objects_loop_but_log (sym itv : string)
    (items : list (string * Json)) :
  forall acc, preserves but_log (create_price_objects_loop sym itv items acc).
Proof.
  induction items as [|[ts pd] items IH]; intros acc; cbn [create_price_objects_loop].
  - frame.
  - pose proof (price_object_but_log sym itv ts pd).
    unfold price_object_handler. frame; apply IH.
Qed.

Lemma create_price_objects_loop_quiet (sym itv : string)
    (items : list (string * Json)) :
  forall acc, preserves quiet_view (create_price_objects_loop sym itv items acc).
Proof.
  induction items as [|[ts pd] items IH]; intros acc; cbn [create_price_objects_loop].
  - frame.
  - pose proof (price_object_quiet sym itv ts pd).
    unfold price_object_handler. frame; apply IH.
Qed.

Lemma transform_intraday_data_but_log (raw_data : RawData) :
  preserves but_log (transform_intraday_data raw_data).
Proof.
  unfold transform_intraday_data, _create_stock_object, _create_price_objects.
  frame; apply create_price_objects_loop_but_log.
Qed.

Lemma transform_intraday_data_quiet (raw_data : RawData) :
  preserves quiet_view (transform_intraday_data raw_data).
Proof.
  unfold transform_intraday_data, _create_stock_object, _create_price_objects.
  frame; apply create_price_objects_loop_quiet.
Qed.

End TransformerFrame.

Lemma _log_etl_job_quiet (sym : string) (total processed : Z) (status : JobStatus)
    (message : option string) :
  preserves quiet_view (_log_etl_job sym total processed status message).
Proof. unfold _log_etl_job. frame. Qed.

Lemma load_stock_quiet (stock : Stock) : preserves quiet_view (load_stock stock).
Proof. unfold load_stock. frame. Qed.

Lemma _load_single_price_record_quiet (r : StockPriceIntraday) :
  preserves quiet_view (_load_single_price_record r).
Proof. unfold _load_single_price_record. frame. Qed.

Lemma load_prices_loop_quiet (records : list StockPriceIntraday) :
  forall count, preserves quiet_view (load_prices_loop records count).
Proof.
  induction records as [|r records IH]; intros count; cbn [load_prices_loop].
  - frame.
  - pose proof (_load_single_price_record_quiet r). frame; apply IH.
Qed.

Lemma load_intraday_prices_quiet (sym : string) (records : list StockPriceIntraday) :
  preserves quiet_view (load_intraday_prices sym records).
Proof.
  unfold load_intraday_prices.
  pose proof (load_prices_loop_quiet records 0). frame.
Qed.

Lemma load_transformed_data_quiet (td : TransformedData) :
  preserves quiet_view (load_transformed_data td).
Proof.
  unfold load_transformed_data.
  frame; first [apply load_stock_quiet | apply load_intraday_prices_quiet
               | apply _log_etl_job_quiet].
Qed.

(** *** The stocks table

    No call of the loader or of the pipeline changes the stocks table: the
    one statement that would, the insert of [load_stock], is never
    submitted. *)

Lemma stocks_view_known (w w' : World) (sym : string) :
  stocks_view w' = stocks_view w -> stock_known w' sym = stock_known w sym.
Proof. unfold stocks_view, stock_known. intros ->. reflexivity. Qed.

Lemma but_log_stocks {A : Type} (m : M A) :
  preserves but_log m -> preserves stocks_view m.
Proof.
  intros Hm w. specialize (Hm w). unfold but_log in Hm.
  injection Hm as _ _ _ Ht _ _. unfold stocks_view. rewrite Ht. reflexivity.
Qed.

Lemma logger_stocks (lvl : Level) (msg : LogMsg) :
  preserves stocks_view (logger lvl msg).
Proof. intros w. reflexivity. Qed.

Lemma execute_query_stocks (q : Stmt) :
  (forall row, q <> InsertStock row) -> preserves stocks_view (execute_query q).
Proof.
  intros Hq w. unfold execute_query, stocks_view.
  destruct (connection_pool w); cbn; [|reflexivity].
  destruct (engine_refuses w (requests w) q); cbn; [reflexivity|].
  destruct q; try reflexivity. destruct (Hq row eq_refl).
Qed.

(** The leaves of a frame proof about the stocks table. *)
Ltac stocks_leaf :=
  first [ apply logger_stocks
        | apply execute_query_stocks; intros ?; discriminate ].

Lemma _log_etl_job_stocks (sym : string) (total processed : Z) (status : JobStatus)
    (message : option string) :
  preserves stocks_view (_log_etl_job sym total processed status message).
Proof.
  intros w.
  unfold _log_etl_job, try_except, bind, execute_query, get_utcnow, logger, ret,
    stocks_view; cbn.
  destruct (connection_pool w); cbn; [|reflexivity].
  destruct (engine_refuses w (requests w) _); reflexivity.
Qed.

Lemma load_stock_stocks (stock : Stock) : preserves stocks_view (load_stock stock).
Proof.
  intros w. destruct (load_stock_run stock w) as (_ & Ht & _).
  unfold stocks_view. rewrite Ht. reflexivity.
Qed.

Lemma load_intraday_prices_stocks (sym : string) (records : list StockPriceIntraday) :
  preserves stocks_view (load_intraday_prices sym records).
Proof. intros w. apply (load_intraday_prices_run sym records w). Qed.

Lemma load_transformed_data_stocks (td : TransformedData) :
  preserves stocks_view (load_transformed_data td).
Proof.
  unfold load_transformed_data.
  frame; first [stocks_leaf | apply load_intraday_prices_stocks].
Qed.

(** ** The pipeline *)

Lemma quiet_view_env (w w' : World) :
  quiet_view w' = quiet_view w ->
  engine_refuses w' = engine_refuses w /\ provider w' = provider w
  /\ utcnow w' = utcnow w.
Proof. unfold quiet_view. intros [= _ ? ? ?]. auto. Qed.

Lemma but_log_fields (w w' : World) :
  but_log w' = but_log w ->
  connection_pool w' = connection_pool w /\ engine_refuses w' = engine_refuses w
  /\ tables w' = tables w /\ utcnow w' = utcnow w /\ provider w' = provider w.
Proof. unfold but_log. intros [= ? ? ? ? ? ?]. auto. Qed.

(** The value of an extraction depends on the provider and the clock only. *)
Lemma extract_intraday_data_value_env (sym itv : string) (w1 w2 : World) :
  provider w1 = provider w2 -> utcnow w1 = utcnow w2 ->
  snd (extract_intraday_data sym itv w1) = snd (extract_intraday_data sym itv w2).
Proof.
  intros Hp Hu.
  unfold extract_intraday_data, try_except, bind, logger, http_get, ret, lift,
    get_utcnow, meta_data_get; cbn.
  rewrite Hp.
  destruct (provider w2 (upper sym) itv) as [e|data]; cbn.
  { destruct e; reflexivity. }
  destruct (dict_get "Error Message" data); cbn; [reflexivity|].
  destruct (dict_get "Note" data); cbn; [reflexivity|].
  destruct (dict_get ("Time Series (" +:+ itv +:+ ")") data) as [ts|]; cbn;
    [|reflexivity].
  destruct (truthy ts); cbn; [|reflexivity].
  destruct ts; cbn; try reflexivity.
  all: destruct (dict_get "Meta Data" data) as [[| | | | | |m]|]; cbn;
    rewrite ?Hu; reflexivity.
Qed.

Lemma expected_records_env `{PyRuntime} (sym itv : string) (w1 w2 : World) :
  provider w1 = provider w2 -> utcnow w1 = utcnow w2 ->
  expected_records w1 sym itv = expected_records w2 sym itv.
Proof.
  intros Hp Hu. unfold expected_records.
  rewrite (extract_intraday_data_value_env sym itv w1 w2 Hp Hu). reflexivity.
Qed.

(** [_ensure_db_connection] leaves a pool behind when it returns, and
    returns when the engine takes the connection. *)
Lemma _ensure_db_connection_run `{PyRuntime} (w : World) :
  let w' := fst (_ensure_db_connection w) in
  quiet_view w' = quiet_view w
  /\ (snd (_ensure_db_connection w) = Ok tt -> connection_pool w' = true)
  /\ ((forall n q, engine_refuses w n q = false) ->
      snd (_ensure_db_connection w) = Ok tt)
  /\ forall u, snd (_ensure_db_connection w) = Ok u -> u = tt.
Proof.
  cbn zeta. unfold _ensure_db_connection, init_connection_pool, quiet_view.
  destruct (connection_pool w) eqn:Hpool; cbn.
  { repeat split; auto. intros []; reflexivity. }
  destruct (engine_refuses w (requests w) Connect) eqn:Hc; cbn.
  - repeat split; try discriminate.
    intros Hacc. rewrite Hacc in Hc. discriminate.
  - repeat split; auto. intros []; reflexivity.
Qed.

Lemma _ensure_db_connection_tables `{PyRuntime} (w : World) :
  tables (fst (_ensure_db_connection w)) = tables w.
Proof.
  unfold _ensure_db_connection, init_connection_pool.
  destruct (connection_pool w); cbn; [reflexivity|].
  destruct (engine_refuses w (requests w) Connect); reflexivity.
Qed.

Lemma _load_single_price_record_accepted (r : StockPriceIntraday) (w : World) :
  connection_pool w = true ->
  (forall n q, engine_refuses w n q = false) ->
  snd (_load_single_price_record r w) = Ok true.
Proof.
  intros Hpool Hacc.
  unfold _load_single_price_record, try_except, bind, execute_query, get_utcnow,
    logger, ret; cbn.
  rewrite Hpool, Hacc; cbn.
  destruct (list_find _ (stock_prices_intraday (tables w))) as [[i row]|];
    cbn; rewrite Hpool, Hacc; reflexivity.
Qed.

(** The price loop counts at most one per record, and every record when the
    engine takes every statement. *)
Lemma load_prices_loop_count (records : list StockPriceIntraday) :
  forall (count : Z) (w : World),
    exists n, snd (load_prices_loop records count w) = Ok n
      /\ count <= n <= count + Z.of_nat (length records)
      /\ (connection_pool w = true ->
          (forall k q, engine_refuses w k q = false) ->
          n = count + Z.of_nat (length records)).
Proof.
  induction records as [|r records IH]; intros count w.
  - exists count. cbn. repeat split; lia.
  - cbn [load_prices_loop]. unfold bind.
    pose proof (_load_single_price_record_run r w) as Hrun. cbn zeta in Hrun.
    pose proof (_load_single_price_record_accepted r w) as Hacc.
    destruct (_load_single_price_record r w) as [w1 [b|e]]; cbn [fst snd] in *.
    2:{ destruct Hrun as (_ & _ & _ & _ & _ & _ & [[? _]|[(? & _)|(? & _)]]);
        discriminate. }
    destruct Hrun as (_ & _ & Hp & He & _).
    destruct (IH (if b then count + 1 else count) w1) as (n & Hn & Hb & Hfull).
    exists n. split; [exact Hn|]. rewrite length_cons.
    split; [destruct b; lia|].
    intros Hpool Hall. specialize (Hacc Hpool Hall). injection Hacc as ->.
    rewrite Hfull; [lia|congruence|rewrite He; exact Hall].
Qed.

Lemma load_intraday_prices_count (sym : string)
    (records : list StockPriceIntraday) (w : World) :
  exists n, snd (load_intraday_prices sym records w) = Ok n
    /\ 0 <= n <= Z.of_nat (length records)
    /\ (connection_pool w = true ->
        (forall k q, engine_refuses w k q = false) ->
        n = Z.of_nat (length records)).
Proof.
  destruct records as [|r records].
  - exists 0. cbn. repeat split; lia.
  - unfold load_intraday_prices, try_except, bind, logger, ret.
    destruct (load_prices_loop_count (r :: records) 0 w) as (n & Hn & Hb & Hfull).
    destruct (load_prices_loop (r :: records) 0 w) as [w1 res]; cbn [fst snd] in *.
    subst res. cbn [fst snd]. exists n. repeat split; try lia. exact Hfull.
Qed.

Lemma logged_then_quiet {A : Type} (lvl : Level) (msg : LogMsg) (rest : M A)
    (handler : Exn -> M A) (w : World) :
  preserves quiet_view rest -> (forall e, preserves quiet_view (handler e)) ->
  quiet_view (fst (try_except (logger lvl msg >> rest) handler w))
  = quiet_view (with_log w ((lvl, msg) :: log w)).
Proof.
  intros Hrest Hh. unfold try_except, bind, logger. cbn.
  specialize (Hrest (with_log w ((lvl, msg) :: log w))).
  destruct (rest (with_log w ((lvl, msg) :: log w))) as [w1 [a|e]]; cbn [fst] in *.
  - exact Hrest.
  - rewrite (Hh e w1). exact Hrest.
Qed.

Section PipelineFacts.
Context `{PyRuntime}.

Lemma _ensure_db_connection_quiet : preserves quiet_view _ensure_db_connection.
Proof. intros w. apply (_ensure_db_connection_run w). Qed.

(** A run of the pipeline for one symbol records its start and nothing
    else that counts as one; it changes neither engine, provider nor clock. *)
Lemma process_stock_intraday_starts (sym itv : string) (w : World) :
  let w' := fst (process_stock_intraday sym itv w) in
  starts (log w') = sym :: starts (log w)
  /\ engine_refuses w' = engine_refuses w
  /\ provider w' = provider w
  /\ utcnow w' = utcnow w.
Proof.
  cbn zeta.
  assert (Hq : quiet_view (fst (process_stock_intraday sym itv w))
               = quiet_view (with_log w ((INFO, StartingPipeline sym itv) :: log w))).
  { unfold process_stock_intraday. apply logged_then_quiet.
    - pose proof _ensure_db_connection_quiet.
      pose proof (extract_intraday_data_quiet sym itv).
      frame; first [apply transform_intraday_data_quiet
                   | apply load_transformed_data_quiet
                   | apply _log_etl_job_quiet].
    - intros e. frame; apply _log_etl_job_quiet. }
  unfold quiet_view in Hq. cbn in Hq. injection Hq as -> -> -> ->. auto.
Qed.

(** A run of the pipeline leaves the stocks table as it was. *)
Lemma process_stock_intraday_stocks (sym itv : string) :
  preserves stocks_view (process_stock_intraday sym itv).
Proof.
  assert (Hpool : preserves stocks_view _ensure_db_connection).
  { intros w. unfold stocks_view. rewrite _ensure_db_connection_tables.
    reflexivity. }
  pose proof (but_log_stocks _ (extract_intraday_data_but_log sym itv)).
  unfold process_stock_intraday.
  frame; first [stocks_leaf
               | apply but_log_stocks, transform_intraday_data_but_log
               | apply load_transformed_data_stocks].
Qed.

End PipelineFacts.

Section PipelineCount.
Context `{PyRuntime}.

(** The tail of a failed run: log, audit row, return 0. *)
Lemma failed_run_returns_zero (msg : LogMsg) (sym : string) (message : option string)
    (w : World) :
  snd ((logger ERROR msg >> _log_etl_job sym 0 0 FAILED message >> ret 0) w) = Ok 0.
Proof.
  unfold bind, logger, ret. cbn [fst snd].
  destruct (_log_etl_job_run sym 0 0 FAILED message
              (with_log w ((ERROR, msg) :: log w))) as (_ & Hok & _).
  destruct (_log_etl_job _ _ _ _ _ _) as [w2 r2]; cbn [snd] in *.
  subst r2. reflexivity.
Qed.

Lemma caught_ok {A : Type} (m : M A) (h : Exn -> M A) (w : World) (a : A) :
  snd (m w) = Ok a ->
  snd (let (w', r) := m w in
       match r with
       | Ok a => (w', Ok a)
       | Err e => h e w'
       end) = Ok a.
Proof. destruct (m w) as [w' r]; cbn. intros ->. reflexivity. Qed.

(** The count of a run: between 0 and the number of valid records of the
    provider's series; that number when the engine takes every statement and
    the store holds the stock; 0 when the store does not hold the stock. *)
Lemma process_stock_intraday_count (sym itv : string) (w : World) :
  exists n,
    snd (process_stock_intraday sym itv w) = Ok n
    /\ 0 <= n <= Z.of_nat (length (expected_records w sym itv))
    /\ ((forall k q, engine_refuses w k q = false) ->
        stock_known w (upper sym) = true ->
        n = Z.of_nat (length (expected_records w sym itv)))
    /\ (stock_known w (upper sym) = false -> n = 0).
Proof.
  set (N := Z.of_nat (length (expected_records w sym itv))).
  assert (HN : 0 <= N) by (unfold N; lia).
  unfold process_stock_intraday, try_except.
  unfold bind at 1, logger at 1. cbn [fst snd].
  set (wa := with_log w ((INFO, StartingPipeline sym itv) :: log w)).
  unfold bind at 1.
  destruct (_ensure_db_connection_run wa) as (Hqb & Hpoolb & Haccb & Hub).
  pose proof (_ensure_db_connection_tables wa) as Htb.
  destruct (_ensure_db_connection wa) as [wb [u|e]] eqn:Eb; cbn [fst snd] in *.
  2:{ exists 0. split; [apply failed_run_returns_zero|]. split; [lia|].
      split; [|reflexivity].
      intros Hall. specialize (Haccb Hall). discriminate. }
  rewrite (Hub u eq_refl) in *. specialize (Hpoolb eq_refl). clear Hub Haccb u.
  apply quiet_view_env in Hqb. destruct Hqb as (Heb & Hpb & Hub).
  cbn [engine_refuses provider utcnow tables wa with_log] in Heb, Hpb, Hub, Htb.
  (* extraction *)
  unfold bind at 1, logger at 1. cbn [fst snd].
  set (wc := with_log wb ((INFO, StepExtracting sym) :: log wb)).
  unfold bind at 1.
  pose proof (extract_intraday_data_run sym itv wc) as (Htot & Hraw & _).
  pose proof (extract_intraday_data_but_log sym itv wc) as Hbl.
  pose proof (extract_intraday_data_value_env sym itv wc w Hpb Hub) as Hval.
  apply but_log_fields in Hbl.
  destruct (extract_intraday_data sym itv wc) as [wd rd]; cbn [fst snd] in *.
  destruct Htot as [o ->].
  destruct Hbl as (Hpd & Hed & Htd & Hud & Hprd).
  cbn [connection_pool engine_refuses utcnow provider tables wc with_log]
    in Hpd, Hed, Htd, Hud, Hprd.
  destruct o as [raw|].
  2:{ exists 0. split; [apply caught_ok, failed_run_returns_zero|].
      assert (N = 0) by (unfold N, expected_records; rewrite <- Hval; reflexivity).
      split; [lia|]. split; [intros _ _; lia|reflexivity]. }
  destruct (Hraw raw eq_refl) as (ts & Hts & _ & Hrsym & Hritv).
  assert (HNval : N = Z.of_nat (length match ts with
                                       | JObject items => accepted_records (upper sym) itv items
                                       | _ => []
                                       end)).
  { unfold N, expected_records. rewrite <- Hval, Hts. destruct ts; reflexivity. }
  (* transformation *)
  unfold bind at 1, logger at 1. cbn [fst snd].
  set (we := with_log wd ((INFO, StepTransforming sym) :: log wd)).
  unfold bind at 1.
  pose proof (transform_intraday_data_value raw we) as (o2 & Ho2 & Hcase).
  pose proof (transform_intraday_data_but_log raw we) as Hbl.
  apply but_log_fields in Hbl.
  destruct (transform_intraday_data raw we) as [wf rf]; cbn [fst snd] in *.
  subst rf. destruct Hbl as (Hpf & Hef & Htf & Huf & Hprf).
  cbn [connection_pool engine_refuses utcnow provider tables we with_log]
    in Hpf, Hef, Htf, Huf, Hprf.
  rewrite Hrsym, Hritv, Hts in Hcase.
  assert (Hnone : N = 0 ->
          exists n, snd (let (w', r) := (logger ERROR (TransformationFailed sym) >>
                           _log_etl_job sym 0 0 FAILED (Some "Transformation failed") >>
                           ret 0) wf in
                         match r with
                         | Ok a => (w', Ok a)
                         | Err e => (logger ERROR (PipelineFailed sym e) >>
                                     _log_etl_job sym 0 0 FAILED (Some (str e)) >> ret 0) w'
                         end) = Ok n
            /\ 0 <= n <= N
            /\ ((forall k q, engine_refuses w k q = false) ->
                stock_known w (upper sym) = true -> n = N)
            /\ (stock_known w (upper sym) = false -> n = 0)).
  { intros HN0. exists 0. split; [apply caught_ok, failed_run_returns_zero|].
    split; [lia|]. split; [intros _ _; lia|reflexivity]. }
  destruct ts as [| | | | | |items];
    try (subst o2; apply Hnone; rewrite HNval; reflexivity).
  destruct (accepted_records (upper sym) itv items) as [|r0 recs] eqn:Hacc.
  { subst o2. apply Hnone. rewrite HNval. reflexivity. }
  clear Hnone.
  destruct Hcase as (td & -> & Hrecs & (stock & Hstock & Hss) & (md & Hmd & Hsym)).
  (* loading *)
  unfold bind at 1, logger at 1. cbn [fst snd].
  set (wg := with_log wf ((INFO, StepLoading sym) :: log wf)).
  unfold bind at 1.
  rewrite (load_transformed_data_present td wg md (upper sym) stock (r0 :: recs)
             Hmd Hsym Hstock Hrecs).
  set (w0 := with_log wg ((INFO, LoadingTransformedData (upper sym)) :: log wg)).
  assert (Hpool0 : connection_pool w0 = true) by (cbn; congruence).
  assert (Heng0 : engine_refuses w0 = engine_refuses w) by (cbn; congruence).
  assert (Hknown0 : stock_known w0 (symbol stock) = stock_known w (upper sym)).
  { rewrite Hss. apply stocks_view_known. unfold stocks_view. cbn. congruence. }
  destruct (load_stock_run stock w0) as ((Hp1 & He1 & _) & _ & [b Hb] & Hknown & Htrue).
  rewrite Hknown0 in Hknown, Htrue.
  rewrite Hb.
  destruct b.
  2:{ cbn. exists 0. split; [reflexivity|]. split; [lia|]. split; [|reflexivity].
      intros Hall Hk. rewrite Hknown, Hk in Hb; [discriminate|exact Hpool0|].
      rewrite Heng0. apply Hall. }
  destruct (load_intraday_prices_count (upper sym) (r0 :: recs) (fst (load_stock stock w0)))
    as (n & Hn & Hbound & Hfull).
  rewrite Hn. cbn. exists n. split; [reflexivity|]. rewrite HNval.
  split; [exact Hbound|]. split.
  - intros Hall _. apply Hfull; [congruence|].
    intros k q. rewrite He1, Heng0. apply Hall.
  - intros Hk. rewrite (Htrue Hb) in Hk. discriminate.
Qed.

End PipelineCount.

Section BatchFacts.
Context `{PyRuntime}.

(** The loop over the symbols: every symbol is run, in order, and gets an
    entry; the entries of other symbols are kept, and so is the stocks
    table. *)
Lemma process_symbols_run (itv : string) (symbols : list string) :
  forall (results : gmap string Z) (w : World),
    exists results',
      snd (process_symbols symbols itv results w) = Ok results'
      /\ starts (log (fst (process_symbols symbols itv results w)))
         = rev symbols ++ starts (log w)
      /\ (forall s, s ∉ symbols -> results' !! s = results !! s)
      /\ (forall s, s ∈ symbols ->
          exists n, results' !! s = Some n
            /\ 0 <= n <= Z.of_nat (length (expected_records w s itv))
            /\ ((forall k q, engine_refuses w k q = false) ->
                stock_known w (upper s) = true ->
                n = Z.of_nat (length (expected_records w s itv)))
            /\ (stock_known w (upper s) = false -> n = 0))
      /\ stocks_view (fst (process_symbols symbols itv results w)) = stocks_view w.
Proof.
  induction symbols as [|sym symbols IH]; intros results w.
  - exists results. cbn. repeat split; auto.
    intros s Hs. apply elem_of_nil in Hs. contradiction.
  - destruct (process_stock_intraday_count sym itv w)
      as (n & Hn & Hbound & Hfull & Hzero).
    destruct (process_stock_intraday_starts sym itv w) as (Hst & He & Hp & Hu).
    pose proof (process_stock_intraday_stocks sym itv w) as Hsv.
    destruct (process_stock_intraday sym itv w) as [w1 r1] eqn:Erun;
      cbn [fst snd] in *.
    subst r1.
    assert (Hstep : process_symbols (sym :: symbols) itv results w
                    = process_symbols symbols itv (<[sym := n]> results) w1).
    { cbn [process_symbols]. unfold bind, try_except, ret. rewrite Erun.
      reflexivity. }
    rewrite Hstep.
    destruct (IH (<[sym := n]> results) w1)
      as (results' & Hres & Hstarts & Hkeep & Hin & Hsv').
    exists results'. split; [exact Hres|].
    split.
    { rewrite Hstarts, Hst. cbn [rev]. rewrite <- app_assoc. reflexivity. }
    split.
    { intros s Hs. apply not_elem_of_cons in Hs as [Hne Hs].
      rewrite (Hkeep s Hs). apply lookup_insert_ne. congruence. }
    split; [|rewrite Hsv'; exact Hsv].
    intros s Hs.
    destruct (decide (s ∈ symbols)) as [Hrest|Hrest].
    + destruct (Hin s Hrest) as (m & Hm & Hmb & Hmf & Hmz).
      rewrite (expected_records_env s itv w1 w Hp Hu) in Hmb, Hmf.
      rewrite (stocks_view_known w w1 (upper s) Hsv) in Hmf, Hmz.
      exists m. split; [exact Hm|]. split; [exact Hmb|]. split; [|exact Hmz].
      intros Hall. apply Hmf. intros k q. rewrite He. apply Hall.
    + apply elem_of_cons in Hs as [->|Hs]; [|contradiction].
      exists n. rewrite (Hkeep sym Hrest), lookup_insert_eq. auto.
Qed.

End BatchFacts.



(** ** The streaming worker *)

Section StreamingFacts.
Context `{PyRuntime}.

Lemma log_symbol_records_ok (items : list (string * Z)) :
  forall w, snd (log_symbol_records items w) = Ok tt.
Proof.
  induction items as [|[sym count] items IH]; intros w; [reflexivity|].
  cbn [log_symbol_records]. unfold bind, logger. cbn [fst snd]. apply IH.
Qed.

(** A cycle never raises: faults of the batch and of the callback are
    caught and logged. *)
Lemma streaming_cycle_ok (args : WorkerArgs) (iteration : Z) (w : World) :
  snd (streaming_cycle args iteration w) = Ok tt.
Proof.
  unfold streaming_cycle.
  unfold bind at 1, get_utcnow. cbn [fst snd].
  unfold bind at 1, logger at 1. cbn [fst snd].
  unfold bind at 1, try_except at 1.
  set (w0 := with_log w _).
  unfold bind at 1.
  destruct (process_multiple_stocks_intraday (wa_symbols args) "5min" w0)
    as [w1 [results|e]]; [|reflexivity].
  unfold bind at 1, logger at 1. cbn [fst snd].
  unfold bind at 1.
  pose proof (log_symbol_records_ok (map_to_list results)
                (with_log w1 ((INFO, CycleCompleted iteration (sum_values results))
                              :: log w1))) as Hlog.
  destruct (log_symbol_records _ _) as [w2 r2]. cbn [snd] in Hlog. subst r2.
  destruct (wa_callback args) as [callback|]; [|reflexivity].
  unfold try_except.
  destruct (callback iteration results w2) as [w3 [[]|e]]; reflexivity.
Qed.

(** A cap of [0] makes the worker behave as without a cap. *)
Lemma zero_cap_is_no_cap (symbols : list string) (interval_minutes : Z)
    (callback : option (Z -> gmap string Z -> M unit)) (stop_is_set : nat -> bool)
    (fuel : nat) :
  forall (iteration : Z) (checks : nat) (w : World),
    _streaming_worker fuel stop_is_set
      {| wa_symbols := symbols; wa_interval_minutes := interval_minutes;
         wa_max_iterations := Some 0; wa_callback := callback |}
      iteration checks w
    = _streaming_worker fuel stop_is_set
        {| wa_symbols := symbols; wa_interval_minutes := interval_minutes;
           wa_max_iterations := None; wa_callback := callback |}
        iteration checks w.
Proof.
  induction fuel as [|fuel IH]; intros iteration checks w; [reflexivity|].
  cbn [_streaming_worker wa_max_iterations cap_reached Z.eqb negb andb
       wa_interval_minutes].
  destruct (stop_is_set checks); [reflexivity|].
  change (streaming_cycle
            {| wa_symbols := symbols; wa_interval_minutes := interval_minutes;
               wa_max_iterations := Some 0; wa_callback := callback |})
    with (streaming_cycle
            {| wa_symbols := symbols; wa_interval_minutes := interval_minutes;
               wa_max_iterations := None; wa_callback := callback |}).
  destruct (streaming_cycle _ (iteration + 1) w) as [w' [[]|e]]; [|reflexivity].
  apply IH.
Qed.

(** Without a cap that fires, and with the flag never set, every round of
    the loop is a cycle and the loop does not end. *)
Lemma worker_keeps_running (args : WorkerArgs) (fuel : nat) :
  (forall iteration, cap_reached (wa_max_iterations args) iteration = false) ->
  forall (iteration : Z) (checks : nat) (w : World),
    exists checks' w',
      _streaming_worker fuel never_set args iteration checks w
      = WorkerRunning (iteration + Z.of_nat fuel) checks' w'.
Proof.
  intros Hcap. induction fuel as [|fuel IH]; intros iteration checks w.
  - exists checks, w. cbn. f_equal. lia.
  - cbn [_streaming_worker never_set]. rewrite Hcap.
    pose proof (streaming_cycle_ok args (iteration + 1) w) as Hok.
    destruct (streaming_cycle args (iteration + 1) w) as [w' r]. cbn [snd] in Hok.
    subst r.
    destruct (IH (iteration + 1)
                (wait_for_next_cycle (Z.to_nat (wa_interval_minutes args * 60))
                   never_set (S checks)) w') as (checks' & w'' & Hrun).
    exists checks', w''. rewrite Hrun. f_equal. lia.
Qed.

(** With a positive cap the worker leaves the loop after at most that many
    cycles, and after exactly that many when the flag is never set. *)
Lemma worker_stops_at_cap (args : WorkerArgs) (cap : Z) (stop_is_set : nat -> bool) :
  wa_max_iterations args = Some cap -> 0 < cap ->
  forall (fuel : nat) (iteration : Z) (checks : nat) (w : World),
    0 <= iteration <= cap ->
    (Z.to_nat (cap - iteration) < fuel)%nat ->
    exists iteration' w',
      _streaming_worker fuel stop_is_set args iteration checks w
      = WorkerExited iteration' w'
      /\ iteration <= iteration' <= cap
      /\ ((forall k, stop_is_set k = false) -> iteration' = cap).
Proof.
  intros Hmax Hpos.
  induction fuel as [|fuel IH]; intros iteration checks w Hit Hfuel; [lia|].
  cbn [_streaming_worker]. rewrite Hmax. cbn [cap_reached].
  destruct (stop_is_set checks) eqn:Hstop.
  { eexists _, _. split; [reflexivity|]. split; [lia|].
    intros Hnever. rewrite Hnever in Hstop. discriminate. }
  replace (negb (cap =? 0)) with true
    by (symmetry; apply negb_true_iff, Z.eqb_neq; lia).
  cbn [andb].
  destruct (cap <=? iteration) eqn:Hle.
  { apply Z.leb_le in Hle. eexists _, _. split; [reflexivity|]. split; lia. }
  apply Z.leb_gt in Hle.
  pose proof (streaming_cycle_ok args (iteration + 1) w) as Hok.
  destruct (streaming_cycle args (iteration + 1) w) as [w' r]. cbn [snd] in Hok.
  subst r.
  destruct (IH (iteration + 1)
              (wait_for_next_cycle (Z.to_nat (wa_interval_minutes args * 60))
                 stop_is_set (S checks)) w')
    as (it' & w'' & Hrun & Hb & Hfull); [lia|lia|].
  exists it', w''. split; [exact Hrun|]. split; [lia|exact Hfull].
Qed.

End StreamingFacts.

(** C10.  The iteration cap of the streaming worker.  [start_streaming]
    hands a cap of [0] to the worker as it is; the worker then runs exactly
    as without a cap: with the stop flag never set it is still looping after
    any number of rounds, each of them a cycle, and it leaves the loop once
    the flag is set.  With a positive cap [n] the worker leaves the loop after
    at most [n] cycles, after exactly [n] when the flag is never set. *)
Theorem zero_iteration_cap_never_fires `{PyRuntime}
    (symbols : list string) (interval_minutes : Z)
    (callback : option (Z -> gmap string Z -> M unit)) (w : World) :
  let args cap :=
    {| wa_symbols := symbols; wa_interval_minutes := interval_minutes;
       wa_max_iterations := cap; wa_callback := callback |} in
  (* the cap reaches the worker unchanged *)
  (forall self, svc_is_running self = false ->
     exists self', snd (start_streaming self (Some symbols) interval_minutes
                          (Some 0) callback w) = Ok (self', true)
       /\ svc_streaming_thread self' = Some (args (Some 0)))
  (* 0 is the same as no cap *)
  /\ (forall stop_is_set fuel iteration checks,
        _streaming_worker fuel stop_is_set (args (Some 0)) iteration checks w
        = _streaming_worker fuel stop_is_set (args None) iteration checks w)
  (* never stops by itself *)
  /\ (forall fuel, exists checks w',
        _streaming_worker fuel never_set (args (Some 0)) 0 0 w
        = WorkerRunning (Z.of_nat fuel) checks w')
  (* stops when the flag is set *)
  /\ (forall stop_is_set fuel iteration checks,
        stop_is_set checks = true ->
        exists w', _streaming_worker (S fuel) stop_is_set (args (Some 0))
                     iteration checks w
                   = WorkerExited iteration w')
  (* a positive cap bounds the number of cycles *)
  /\ (forall cap stop_is_set fuel,
        0 < cap -> (Z.to_nat cap < fuel)%nat ->
        exists cycles w',
          _streaming_worker fuel stop_is_set (args (Some cap)) 0 0 w
          = WorkerExited cycles w'
          /\ 0 <= cycles <= cap
          /\ ((forall k, stop_is_set k = false) -> cycles = cap)).
Proof.
  cbn zeta. split; [|split; [|split; [|split]]].
  - intros self Hrun. unfold start_streaming. rewrite Hrun.
    unfold bind, logger, ret. cbn. eauto.
  - intros stop_is_set fuel iteration checks. apply zero_cap_is_no_cap.
  - intros fuel.
    destruct (worker_keeps_running
                {| wa_symbols := symbols; wa_interval_minutes := interval_minutes;
                   wa_max_iterations := Some 0; wa_callback := callback |}
                fuel (fun _ => eq_refl) 0 0%nat w) as (checks & w' & Hrun).
    exists checks, w'. rewrite Hrun. reflexivity.
  - intros stop_is_set fuel iteration checks Hset.
    cbn [_streaming_worker]. rewrite Hset. eauto.
  - intros cap stop_is_set fuel Hpos Hfuel.
    apply (worker_stops_at_cap
             {| wa_symbols := symbols; wa_interval_minutes := interval_minutes;
                wa_max_iterations := Some cap; wa_callback := callback |}
             cap stop_is_set eq_refl Hpos fuel 0 0%nat w); [lia|].
    rewrite Z.sub_0_r. exact Hfuel.
Qed.

(** Witness of C10: one symbol, a one-minute interval, the flag never set.
    With a cap of 0 the worker is still looping after three rounds; with a
    cap of 2 it has left the loop after two cycles. *)
Lemma zero_iteration_cap_witness :
  (exists checks w',
      _streaming_worker 3 never_set
        {| wa_symbols := ["B"]; wa_interval_minutes := 1;
           wa_max_iterations := Some 0; wa_callback := None |}
        0 0 blank_world
      = WorkerRunning 3 checks w')
  /\ (exists w',
        _streaming_worker 3 never_set
          {| wa_symbols := ["B"]; wa_interval_minutes := 1;
             wa_max_iterations := Some 2; wa_callback := None |}
          0 0 blank_world
        = WorkerExited 2 w').
Proof.
  destruct (zero_iteration_cap_never_fires ["B"] 1 None blank_world)
    as (_ & _ & Hrun & _ & Hcap).
  split; [exact (Hrun 3%nat)|].
  destruct (Hcap 2 never_set 3%nat) as (cycles & w' & Hexit & _ & Hfull);
    [lia|cbn; lia|].
  exists w'. rewrite (Hfull (fun _ => eq_refl)) in Hexit. exact Hexit.
Defined.

(** ** The market calendar: windows, next instants, removal of jobs *)

Lemma add_days_0 (t : datetime) : add_days t 0 = t.
Proof. destruct t. unfold add_days; cbn. f_equal. lia. Qed.

(** An instant lies before any full hour of a later day. *)
Lemma before_later_day (t : datetime) (j h : Z) :
  time_of_day_valid t -> 1 <= j -> 0 <= h ->
  dt_lt t (at_hour (add_days t j) h) = true.
Proof.
  intros (Hh & Hm & Hs & Hu) Hj Hh0.
  unfold dt_lt, dt_micros, at_hour, add_days; cbn.
  apply Z.ltb_lt. lia.
Qed.

(** Within a day, an instant lies before a full hour exactly when its hour
    is smaller. *)
Lemma before_hour_today (t : datetime) (h : Z) :
  time_of_day_valid t ->
  dt_lt t (at_hour t h) = (dt_hour t <? h).
Proof.
  intros (Hh & Hm & Hs & Hu).
  unfold dt_lt, dt_micros, at_hour; cbn.
  destruct (dt_hour t <? h) eqn:E.
  - apply Z.ltb_lt in E. apply Z.ltb_lt. lia.
  - apply Z.ltb_ge in E. apply Z.ltb_ge. lia.
Qed.

(** The computation shared by [get_next_market_open] and
    [get_next_market_close]: the earliest instant at hour [h] of a trading
    day that lies after [t]. *)
Lemma next_instant_at_hour (s : MarketSchedule) (t : datetime) (h : Z) (fuel : nat) :
  0 <= h <= 23 ->
  (exists wd, wd ∈ trading_days s /\ 0 <= wd < 7) ->
  (7 <= fuel)%nat ->
  time_of_day_valid t ->
  exists k,
    0 <= k <= 7
    /\ (if is_trading_day s t then
          match replace_hour t h with
          | Err e => Some (Err e)
          | Ok today =>
              if dt_lt t today then Some (Ok today)
              else match scan_next_trading_day fuel s t with
                   | None => None
                   | Some d => Some (replace_hour d h)
                   end
          end
        else match scan_next_trading_day fuel s t with
             | None => None
             | Some d => Some (replace_hour d h)
             end)
       = Some (Ok (at_hour (add_days t k) h))
    /\ is_trading_day s (add_days t k) = true
    /\ dt_lt t (at_hour (add_days t k) h) = true
    /\ (forall j, 0 <= j < k ->
          is_trading_day s (add_days t j)
          && dt_lt t (at_hour (add_days t j) h) = false).
Proof.
  intros Hh Hex Hfuel Hvalid.
  assert (Hscan : exists k, 1 <= k <= 7
            /\ scan_next_trading_day fuel s t = Some (add_days t k)
            /\ is_trading_day s (add_days t k) = true
            /\ (forall j, 1 <= j < k -> is_trading_day s (add_days t j) = false)).
  { destruct (trading_day_within_week s t Hex) as [k0 [Hk0 Ht0]].
    destruct (scan_next_trading_day_first s fuel t) as [k [Hk [Hs [Ht Hmin]]]].
    { exists k0. split; [lia|exact Ht0]. }
    exists k. repeat split; try assumption; try lia.
    destruct (Z_le_gt_dec k k0) as [Hle|Hgt]; [lia|].
    specialize (Hmin k0 ltac:(lia)). congruence. }
  destruct Hscan as (k & Hk & Hs & Ht & Hmin).
  rewrite (replace_hour_at_hour t h Hh), Hs, (replace_hour_at_hour _ h Hh).
  destruct (is_trading_day s t && dt_lt t (at_hour t h)) eqn:Etoday.
  - apply andb_true_iff in Etoday as [Etd Elt].
    exists 0. rewrite add_days_0, Etd, Elt.
    repeat split; try lia; try assumption. 
  - exists k.
    split; [lia|]. split.
    { destruct (is_trading_day s t); [|reflexivity].
      cbn [andb] in Etoday. rewrite Etoday. reflexivity. }
    split; [exact Ht|].
    split; [apply before_later_day; [exact Hvalid|lia|lia]|].
    intros j Hj. destruct (Z.eq_dec j 0) as [->|Hne].
    + rewrite add_days_0. exact Etoday.
    + rewrite (Hmin j) by lia. reflexivity.
Qed.

(** X1.  The three market windows never overlap on adjacent bounds: no
    instant is both pre-market and open, or both open and after hours.  When
    the hours of the schedule are in calendar order, no instant is in two
    windows, and an instant is in one of them exactly when it falls on a
    trading day between the pre-market start (inclusive) and the after-hours
    end (exclusive). *)
Theorem market_windows_partition
    (self : MarketScheduler) (now : datetime) (current_time : option datetime) :
  let s := market_schedule self in
  let t := or_utcnow now current_time in
  is_pre_market self now current_time && is_market_open self now current_time = false
  /\ is_market_open self now current_time && is_after_hours self now current_time = false
  /\ (hours_in_order s ->
      is_pre_market self now current_time && is_after_hours self now current_time = false
      /\ is_pre_market self now current_time || is_market_open self now current_time
         || is_after_hours self now current_time
         = is_trading_day s t
           && ((pre_market_start s <=? dt_hour t) && (dt_hour t <? after_hours_end s))).
Proof.
  cbn zeta.
  rewrite is_pre_market_spec, is_market_open_spec, is_after_hours_spec. cbn zeta.
  destruct (is_trading_day _ _); cbn [andb orb]; [|auto].
  split; [|split].
  - apply andb_false_iff.
    destruct (dt_hour (or_utcnow now current_time) <? open_hour (market_schedule self)) eqn:E.
    + right. apply Z.ltb_lt in E. apply andb_false_iff. left. apply Z.leb_gt. lia.
    + left. apply andb_false_iff. right. reflexivity.
  - apply andb_false_iff.
    destruct (dt_hour (or_utcnow now current_time) <? close_hour (market_schedule self)) eqn:E.
    + right. apply Z.ltb_lt in E. apply andb_false_iff. left. apply Z.leb_gt. lia.
    + left. apply andb_false_iff. right. reflexivity.
  - intros ((Hpo & Hoc) & Hca).
    set (hr := dt_hour (or_utcnow now current_time)).
    destruct (Z.leb_spec (pre_market_start (market_schedule self)) hr),
      (Z.ltb_spec hr (open_hour (market_schedule self))),
      (Z.leb_spec (open_hour (market_schedule self)) hr),
      (Z.ltb_spec hr (close_hour (market_schedule self))),
      (Z.leb_spec (close_hour (market_schedule self)) hr),
      (Z.ltb_spec hr (after_hours_end (market_schedule self)));
      cbn; split; first [reflexivity | lia].
Qed.

(** Witness of X1: the default schedule, Wednesday 2024-01-10 10:00. *)
Lemma market_windows_partition_witness :
  hours_in_order default_schedule
  /\ is_pre_market (new_scheduler None) (mk_datetime 2024 1 10 10 0) None
     || is_market_open (new_scheduler None) (mk_datetime 2024 1 10 10 0) None
     || is_after_hours (new_scheduler None) (mk_datetime 2024 1 10 10 0) None
     = true.
Proof.
  assert (Hord : hours_in_order default_schedule) by (vm_compute; intuition discriminate).
  split; [exact Hord|].
  rewrite (proj2 (proj2 (proj2 (market_windows_partition (new_scheduler None)
                                  (mk_datetime 2024 1 10 10 0) None)) Hord)).
  vm_compute; reflexivity.
Defined.

(** X2.  For a schedule with a valid open hour and a trading weekday,
    [get_next_market_open] returns (seven rounds of the scan are enough) the
    earliest instant that is the open hour of a trading day and lies strictly
    after the given instant: the returned day is a trading day at most seven
    days ahead, and no earlier day qualifies. *)
Theorem next_market_open_is_earliest_future_open
    (self : MarketScheduler) (now : datetime) (current_time : option datetime)
    (fuel : nat) :
  let s := market_schedule self in
  let t := or_utcnow now current_time in
  0 <= open_hour s <= 23 ->
  (exists wd, wd ∈ trading_days s /\ 0 <= wd < 7) ->
  (7 <= fuel)%nat ->
  time_of_day_valid t ->
  exists k,
    0 <= k <= 7
    /\ get_next_market_open fuel self now current_time
       = Some (Ok (at_hour (add_days t k) (open_hour s)))
    /\ is_trading_day s (add_days t k) = true
    /\ dt_lt t (at_hour (add_days t k) (open_hour s)) = true
    /\ (forall j, 0 <= j < k ->
          is_trading_day s (add_days t j)
          && dt_lt t (at_hour (add_days t j) (open_hour s)) = false).
Proof.
  cbn zeta. intros Hh Hex Hfuel Hvalid.
  destruct (next_instant_at_hour (market_schedule self) (or_utcnow now current_time)
              (open_hour (market_schedule self)) fuel Hh Hex Hfuel Hvalid)
    as (k & Hk & Hget & Hrest).
  exists k. split; [exact Hk|]. split; [|exact Hrest].
  rewrite <- Hget. unfold get_next_market_open. cbn zeta.
  destruct (is_trading_day _ _); [|reflexivity].
  destruct (replace_hour _ _); reflexivity.
Qed.

(** Witness of X2: Friday 2024-01-12 20:00 under the default schedule. *)
Lemma next_market_open_is_earliest_witness :
  time_of_day_valid (mk_datetime 2024 1 12 20 0)
  /\ exists k,
      0 <= k <= 7
      /\ get_next_market_open 7 (new_scheduler None) (mk_datetime 2024 1 1 0 0)
           (Some (mk_datetime 2024 1 12 20 0))
         = Some (Ok (at_hour (add_days (mk_datetime 2024 1 12 20 0) k) 9))
      /\ dt_lt (mk_datetime 2024 1 12 20 0)
           (at_hour (add_days (mk_datetime 2024 1 12 20 0) k) 9) = true.
Proof.
  assert (Hv : time_of_day_valid (mk_datetime 2024 1 12 20 0))
    by (vm_compute; intuition discriminate).
  split; [exact Hv|].
  destruct (next_market_open_is_earliest_future_open (new_scheduler None)
              (mk_datetime 2024 1 1 0 0) (Some (mk_datetime 2024 1 12 20 0)) 7%nat)
    as (k & Hk & Hget & _ & Hlt & _).
  - vm_compute; split; discriminate.
  - exists 0. split; [set_solver|lia].
  - lia.
  - exact Hv.
  - exists k. auto.
Defined.

(** X3.  [get_next_market_close] returns, under the same conditions on the
    close hour, the earliest instant that is the close hour of a trading day
    and lies strictly after the given instant. *)
Theorem next_market_close_is_earliest_future_close
    (self : MarketScheduler) (now : datetime) (current_time : option datetime)
    (fuel : nat) :
  let s := market_schedule self in
  let t := or_utcnow now current_time in
  0 <= close_hour s <= 23 ->
  (exists wd, wd ∈ trading_days s /\ 0 <= wd < 7) ->
  (7 <= fuel)%nat ->
  time_of_day_valid t ->
  exists k,
    0 <= k <= 7
    /\ get_next_market_close fuel self now current_time
       = Some (Ok (at_hour (add_days t k) (close_hour s)))
    /\ is_trading_day s (add_days t k) = true
    /\ dt_lt t (at_hour (add_days t k) (close_hour s)) = true
    /\ (forall j, 0 <= j < k ->
          is_trading_day s (add_days t j)
          && dt_lt t (at_hour (add_days t j) (close_hour s)) = false).
Proof.
  cbn zeta. intros Hh Hex Hfuel Hvalid.
  destruct (next_instant_at_hour (market_schedule self) (or_utcnow now current_time)
              (close_hour (market_schedule self)) fuel Hh Hex Hfuel Hvalid)
    as (k & Hk & Hget & Hrest).
  exists k. split; [exact Hk|]. split; [|exact Hrest].
  rewrite <- Hget. unfold get_next_market_close. cbn zeta.
  destruct (is_trading_day _ _); [|reflexivity].
  destruct (replace_hour _ _); reflexivity.
Qed.

(** Witness of X3: Friday 2024-01-12 20:00 under the default schedule; the
    next close is Monday 16:00. *)
Lemma next_market_close_is_earliest_witness :
  time_of_day_valid (mk_datetime 2024 1 12 20 0)
  /\ get_next_market_close 7 (new_scheduler None) (mk_datetime 2024 1 1 0 0)
       (Some (mk_datetime 2024 1 12 20 0))
     = Some (Ok (mk_datetime 2024 1 15 16 0))
  /\ exists k,
      0 <= k <= 7
      /\ get_next_market_close 7 (new_scheduler None) (mk_datetime 2024 1 1 0 0)
           (Some (mk_datetime 2024 1 12 20 0))
         = Some (Ok (at_hour (add_days (mk_datetime 2024 1 12 20 0) k) 16)).
Proof.
  assert (Hv : time_of_day_valid (mk_datetime 2024 1 12 20 0))
    by (vm_compute; intuition discriminate).
  split; [exact Hv|]. split; [vm_compute; reflexivity|].
  destruct (next_market_close_is_earliest_future_close (new_scheduler None)
              (mk_datetime 2024 1 1 0 0) (Some (mk_datetime 2024 1 12 20 0)) 7%nat)
    as (k & Hk & Hget & _).
  - vm_compute; split; discriminate.
  - exists 0. split; [set_solver|lia].
  - lia.
  - exact Hv.
  - exists k. auto.
Defined.

(** X4.  The windows agree with the next instants: in the pre-market window
    the next open is today's; while the market is open the next close is
    today's, whatever the fuel, and the next open falls on a later day. *)
Theorem windows_agree_with_next_instants
    (self : MarketScheduler) (now : datetime) (current_time : option datetime)
    (fuel : nat) :
  let s := market_schedule self in
  let t := or_utcnow now current_time in
  time_of_day_valid t ->
  0 <= open_hour s <= 23 -> 0 <= close_hour s <= 23 ->
  (is_pre_market self now current_time = true ->
   get_next_market_open fuel self now current_time
   = Some (Ok (at_hour t (open_hour s))))
  /\ (is_market_open self now current_time = true ->
      get_next_market_close fuel self now current_time
      = Some (Ok (at_hour t (close_hour s)))
      /\ ((7 <= fuel)%nat ->
          exists k, 1 <= k <= 7
            /\ get_next_market_open fuel self now current_time
               = Some (Ok (at_hour (add_days t k) (open_hour s))))).
Proof.
  cbn zeta. intros Hvalid Ho Hc.
  rewrite is_pre_market_spec, is_market_open_spec. cbn zeta.
  set (s := market_schedule self) in *. set (t := or_utcnow now current_time) in *.
  split.
  - intros Hpre. apply andb_true_iff in Hpre as [Htd Hhr].
    apply andb_true_iff in Hhr as [_ Hlt].
    unfold get_next_market_open. cbn zeta. fold s t.
    rewrite Htd, (replace_hour_at_hour t _ Ho), (before_hour_today t _ Hvalid), Hlt.
    reflexivity.
  - intros Hopen. apply andb_true_iff in Hopen as [Htd Hhr].
    apply andb_true_iff in Hhr as [Hge Hlt].
    split.
    + unfold get_next_market_close. cbn zeta. fold s t.
      rewrite Htd, (replace_hour_at_hour t _ Hc), (before_hour_today t _ Hvalid), Hlt.
      reflexivity.
    + intros Hfuel.
      assert (Hex : exists wd, wd ∈ trading_days s /\ 0 <= wd < 7).
      { exists (weekday t). split.
        - unfold is_trading_day in Htd. apply bool_decide_eq_true in Htd. exact Htd.
        - unfold weekday. apply Z.mod_pos_bound. lia. }
      destruct (next_instant_at_hour s t (open_hour s) fuel Ho Hex Hfuel Hvalid)
        as (k & Hk & Hget & _ & _ & Hmin).
      assert (Hk1 : k <> 0).
      { intros ->. rewrite add_days_0 in Hget.
        rewrite Htd, (replace_hour_at_hour t _ Ho), (before_hour_today t _ Hvalid) in Hget.
        apply Z.leb_le in Hge.
        replace (dt_hour t <? open_hour s) with false in Hget
          by (symmetry; apply Z.ltb_ge; exact Hge).
        destruct (scan_next_trading_day fuel s t) as [d|] eqn:Hscan; [|discriminate].
        destruct (scan_next_trading_day_first s fuel t) as (k' & Hk' & Hs' & _).
        { destruct (trading_day_within_week s t Hex) as (k0 & Hk0 & Ht0).
          exists k0. split; [lia|exact Ht0]. }
        rewrite Hs' in Hscan. injection Hscan as <-.
        rewrite (replace_hour_at_hour _ _ Ho) in Hget.
        injection Hget as Hord. cbn in Hord. lia. }
      exists k. split; [lia|].
      rewrite <- Hget. unfold get_next_market_open. cbn zeta. fold s t.
      rewrite Htd, (replace_hour_at_hour t _ Ho). reflexivity.
Qed.

(** Witness of X4: Wednesday 2024-01-10 at 6:00 and at 10:00 under the
    default schedule. *)
Lemma windows_agree_with_next_instants_witness :
  is_pre_market (new_scheduler None) (mk_datetime 2024 1 10 6 0) None = true
  /\ get_next_market_open 0 (new_scheduler None) (mk_datetime 2024 1 10 6 0) None
     = Some (Ok (mk_datetime 2024 1 10 9 0))
  /\ is_market_open (new_scheduler None) (mk_datetime 2024 1 10 10 0) None = true
  /\ get_next_market_close 0 (new_scheduler None) (mk_datetime 2024 1 10 10 0) None
     = Some (Ok (mk_datetime 2024 1 10 16 0)).
Proof.
  assert (Hv : forall h, 0 <= h <= 23 -> time_of_day_valid (mk_datetime 2024 1 10 h 0))
    by (intros h Hh; unfold time_of_day_valid; cbn; lia).
  split; [vm_compute; reflexivity|].
  split.
  { apply (proj1 (windows_agree_with_next_instants (new_scheduler None)
                    (mk_datetime 2024 1 10 6 0) None 0%nat (Hv 6 ltac:(lia))
                    ltac:(vm_compute; split; discriminate)
                    ltac:(vm_compute; split; discriminate))).
    vm_compute; reflexivity. }
  split; [vm_compute; reflexivity|].
  apply (proj2 (windows_agree_with_next_instants (new_scheduler None)
                  (mk_datetime 2024 1 10 10 0) None 0%nat (Hv 10 ltac:(lia))
                  ltac:(vm_compute; split; discriminate)
                  ltac:(vm_compute; split; discriminate))).
  vm_compute; reflexivity.
Defined.

(** [remove_scheduled_job] returns [True] exactly for a registered name;
    the name is then absent and no other registration is touched. *)
Lemma remove_scheduled_job_run (self : MarketScheduler) (name : string) :
  let self' := fst (remove_scheduled_job self name) in
  snd (remove_scheduled_job self name)
  = bool_decide (is_Some (scheduled_jobs self !! name))
  /\ scheduled_jobs self' !! name = None
  /\ (forall other, other <> name ->
        scheduled_jobs self' !! other = scheduled_jobs self !! other)
  /\ market_schedule self' = market_schedule self
  /\ is_running self' = is_running self.
Proof.
  cbn zeta. unfold remove_scheduled_job.
  case_bool_decide as Hin; cbn.
  - split; [reflexivity|]. split; [apply lookup_delete_eq|].
    split; [intros other Hne; apply lookup_delete_ne; congruence|]. auto.
  - split; [reflexivity|].
    split; [apply eq_None_not_Some; exact Hin|]. auto.
Qed.

(** X5.  Registering a job under a fresh name and removing it again gives
    back the scheduler as it was; removing a name that is not registered
    returns [False] and changes nothing; after a removal the name can be
    registered again, by any of the three methods, and then holds the new
    registration; and removing another job leaves a registration alone. *)
Theorem job_removal_round_trip
    (kind : JobType) (self : MarketScheduler) (now : datetime) (name : string)
    (symbols : list string) (interval_minutes : Z) (callback : option Callback) :
  scheduled_jobs self !! name = None ->
  remove_scheduled_job self name = (self, false)
  /\ exists self1,
      register_job kind self now name symbols interval_minutes callback = (self1, true)
      /\ remove_scheduled_job self1 name = (self, true)
      /\ (forall other, other <> name ->
            scheduled_jobs (fst (remove_scheduled_job self1 other)) !! name
            = scheduled_jobs self1 !! name)
      /\ (forall kind2 now2 symbols2 interval2 callback2,
            exists self2,
              register_job kind2 (fst (remove_scheduled_job self1 name)) now2 name
                symbols2 interval2 callback2 = (self2, true)
              /\ scheduled_jobs self2 !! name
                 = Some {| job_name := name; job_symbols := symbols2;
                           job_interval_minutes := interval2;
                           job_callback := callback2; job_type := kind2;
                           job_created_at := now2 |}).
Proof.
  intros Hfresh.
  assert (Habsent : remove_scheduled_job self name = (self, false)).
  { unfold remove_scheduled_job.
    rewrite bool_decide_eq_false_2 by (rewrite Hfresh; apply is_Some_None).
    reflexivity. }
  split; [exact Habsent|].
  unfold register_job at 1.
  rewrite bool_decide_eq_false_2 by (rewrite Hfresh; apply is_Some_None).
  eexists. split; [reflexivity|].
  assert (Hback : remove_scheduled_job
                    {| market_schedule := market_schedule self;
                       is_running := is_running self;
                       scheduled_jobs :=
                         <[name := {| job_name := name; job_symbols := symbols;
                                      job_interval_minutes := interval_minutes;
                                      job_callback := callback; job_type := kind;
                                      job_created_at := now |}]> (scheduled_jobs self) |}
                    name = (self, true)).
  { unfold remove_scheduled_job. cbn [scheduled_jobs market_schedule is_running].
    rewrite bool_decide_eq_true_2 by (rewrite lookup_insert_eq; eauto).
    rewrite delete_insert_eq, delete_id by exact Hfresh.
    destruct self; reflexivity. }
  split; [exact Hback|].
  split.
  - intros other Hne. apply remove_scheduled_job_run. congruence.
  - intros kind2 now2 symbols2 interval2 callback2.
    rewrite Hback. cbn [fst]. unfold register_job.
    rewrite bool_decide_eq_false_2 by (rewrite Hfresh; apply is_Some_None).
    eexists. split; [reflexivity|]. cbn [scheduled_jobs]. apply lookup_insert_eq.
Qed.

(** Witness of X5: a job x registered on a new scheduler and removed. *)
Lemma job_removal_round_trip_witness :
  scheduled_jobs (new_scheduler None) !! "x" = None
  /\ exists self1,
      schedule_pre_market_job (new_scheduler None) (mk_datetime 2024 1 10 6 0)
        "x" ["AAPL"] 15 None = (self1, true)
      /\ remove_scheduled_job self1 "x" = (new_scheduler None, true).
Proof.
  split; [apply lookup_empty|].
  destruct (job_removal_round_trip pre_market (new_scheduler None)
              (mk_datetime 2024 1 10 6 0) "x" ["AAPL"] 15 None (lookup_empty _))
    as (_ & self1 & Hreg & Hrem & _).
  exists self1. split; [exact Hreg|exact Hrem].
Defined.

(** *** Validation on numbers *)

Lemma Qlt_bool_true (a b : Q) : Qlt_bool a b = true <-> (a < b)%Q.
Proof.
  unfold Qlt_bool. rewrite negb_true_iff. split.
  - intros Hle. apply Qnot_le_lt. intros Hba.
    apply Qle_bool_iff in Hba. congruence.
  - intros Hlt. destruct (Qle_bool b a) eqn:E; [|reflexivity].
    apply Qle_bool_iff in E. exfalso. exact (Qlt_not_le _ _ Hlt E).
Qed.

Lemma Qlt_bool_false (a b : Q) : Qlt_bool a b = false <-> (b <= a)%Q.
Proof.
  unfold Qlt_bool. rewrite negb_false_iff. apply Qle_bool_iff.
Qed.

Lemma Qle_bool_false (a b : Q) : Qle_bool a b = false <-> (b < a)%Q.
Proof.
  split.
  - intros Hle. apply Qnot_le_lt. intros Hab.
    apply Qle_bool_iff in Hab. congruence.
  - intros Hlt. destruct (Qle_bool a b) eqn:E; [|reflexivity].
    apply Qle_bool_iff in E. exfalso. exact (Qlt_not_le _ _ Hlt E).
Qed.

Ltac q_case :=
  match goal with
  | |- context [Qle_bool ?a ?b] =>
      let E := fresh "E" in
      destruct (Qle_bool a b) eqn:E;
      [apply Qle_bool_iff in E|apply Qle_bool_false in E]
  | |- context [Qlt_bool ?a ?b] =>
      let E := fresh "E" in
      destruct (Qlt_bool a b) eqn:E;
      [apply Qlt_bool_true in E|apply Qlt_bool_false in E]
  end.

(** An infinite price never passes. *)
Lemma infinite_price_rejected (o h l c : pyfloat) (v : Z) (negative : bool) :
  PInf negative ∈ [o; h; l; c] -> _validate_price_data o h l c v = false.
Proof.
  intros Hin. unfold _validate_price_data.
  destruct (existsb (fun price => float_le price _) [o; h; l; c]) eqn:Epos;
    [reflexivity|].
  destruct (v <? 0); [reflexivity|].
  destruct (float_lt h (py_max o c)); [reflexivity|].
  destruct (float_gt l (py_min o c)); [reflexivity|].
  replace (existsb (fun price => float_gt price _) [o; h; l; c]) with true;
    [reflexivity|].
  symmetry. apply existsb_exists. exists (PInf negative).
  split; [apply list_elem_of_In; exact Hin|].
  destruct negative; [|reflexivity].
  exfalso.
  assert (Hex : existsb (fun price => float_le price (float_of_Z 0)) [o; h; l; c] = true).
  { apply existsb_exists. exists (PInf true).
    split; [apply list_elem_of_In; exact Hin|reflexivity]. }
  congruence.
Qed.

(** X6.  On finite prices [_validate_price_data] accepts exactly the
    entries that keep the OHLC invariant: every price above zero, the volume
    not negative, the high at least the open and the close, the low at most
    the open and the close, no price above one million.  An entry with an
    infinite price is always rejected. *)
Theorem validation_accepts_exactly_the_invariant :
  (forall (o h l c : Q) (v : Z),
      _validate_price_data (PFin o) (PFin h) (PFin l) (PFin c) v = true
      <-> ((0 < o /\ 0 < h /\ 0 < l /\ 0 < c)
           /\ (o <= h /\ c <= h) /\ (l <= o /\ l <= c)
           /\ (o <= inject_Z 1000000 /\ h <= inject_Z 1000000
               /\ l <= inject_Z 1000000 /\ c <= inject_Z 1000000))%Q
          /\ 0 <= v)
  /\ (forall (o h l c : pyfloat) (v : Z) (negative : bool),
        PInf negative ∈ [o; h; l; c] -> _validate_price_data o h l c v = false).
Proof.
  split; [|exact infinite_price_rejected].
  intros o h l c v.
  unfold _validate_price_data, py_max, py_min, float_gt, float_lt, float_le,
    float_of_Z.
  cbn [existsb orb].
  change (inject_Z 0) with 0%Q.
  repeat (q_case; cbv beta iota; cbn [orb andb negb]).
  all: destruct (Z.ltb_spec v 0); cbv beta iota.
  all: repeat (q_case; cbv beta iota; cbn [orb andb negb]).
  all: split;
    [try discriminate; intros _
    |try reflexivity; intros [((?&?&?&?)&(?&?)&(?&?)&(?&?&?&?)) ?]; exfalso].
  all: first [lia | lra | (split; [|lia]); repeat split; lra].
Qed.

Section TransformerOutput.
Context `{PyRuntime}.

(** The result [transform_intraday_data] builds, field by field. *)
Lemma transform_intraday_data_result (raw_data : RawData) (w : World)
    (td : TransformedData) :
  snd (transform_intraday_data raw_data w) = Ok (Some td) ->
  exists sym itv items,
    rd_symbol raw_data = Some sym /\ rd_interval raw_data = Some itv
    /\ rd_time_series raw_data = Some (JObject items)
    /\ td = {| td_stock :=
                 Some {| symbol := sym; company_name := sym +:+ " Stock";
                         exchange := "NYSE"; currency := "USD"; is_active := true;
                         created_at := utcnow w; updated_at := utcnow w |};
               td_price_records := Some (accepted_records sym itv items);
               td_metadata :=
                 Some {| tm_symbol := Some sym; tm_interval := itv;
                         tm_record_count :=
                           Z.of_nat (length (accepted_records sym itv items));
                         tm_transformation_timestamp := utcnow w;
                         tm_api_metadata := rd_metadata raw_data |} |}
    /\ accepted_records sym itv items <> [].
Proof.
  unfold transform_intraday_data.
  destruct raw_data as [osym oitv ots omd];
    cbn [rd_symbol rd_interval rd_time_series rd_metadata].
  destruct ots as [ts|].
  2:{ rewrite orb_true_r. cbn. discriminate. }
  replace (raw_data_empty _ || negb (bool_decide (is_Some (Some ts)))) with false.
  2:{ symmetry. apply orb_false_iff. split.
      - unfold raw_data_empty; cbn. destruct osym, oitv; reflexivity.
      - rewrite bool_decide_eq_true_2 by eauto. reflexivity. }
  destruct osym as [sym|]; [|cbn; discriminate].
  destruct oitv as [itv|]; [|cbn; discriminate].
  unfold try_except, bind at 1 2 3 4 5 6; cbn -[_create_price_objects].
  pose proof (_create_price_objects_value sym itv ts
                (with_log w ((INFO, TransformingIntraday sym itv) :: log w))) as Hv.
  pose proof (create_price_objects_loop_but_log sym itv) as Hframe.
  destruct ts as [| | | | | |items]; try (cbn; discriminate).
  unfold _create_price_objects in *.
  specialize (Hframe items [] (with_log w ((INFO, TransformingIntraday sym itv) :: log w))).
  destruct (create_price_objects_loop sym itv items [] _) as [w1 r].
  cbn [fst snd] in Hv, Hframe. subst r.
  apply but_log_fields in Hframe. destruct Hframe as (_ & _ & _ & Hu & _).
  cbn [utcnow with_log] in Hu.
  destruct (accepted_records sym itv items) as [|r0 recs] eqn:Hrecs; cbn.
  - discriminate.
  - rewrite Hu. intros [= <-]. exists sym, itv, items.
    rewrite Hrecs. repeat split. discriminate.
Qed.

End TransformerOutput.

(** X7.  A result of [transform_intraday_data] is well formed: it holds
    the stock of the payload's symbol (named after it, on NYSE), a list of
    records that is not empty, all of them validated and carrying the symbol
    and the interval of the payload, and a record count equal to the length
    of the list; no key [load_transformed_data] looks up is missing.  Loaded
    through a pool whose engine takes every statement, such a result loads
    with success and every record is counted when the store holds the stock
    already; when it does not, the load fails on the stock and leaves the
    tables as they were. *)
Theorem transformed_result_is_well_formed `{PyRuntime}
    (raw_data : RawData) (w : World) (td : TransformedData) :
  snd (transform_intraday_data raw_data w) = Ok (Some td) ->
  missing_key td = None
  /\ exists sym itv stock recs md,
      rd_symbol raw_data = Some sym /\ rd_interval raw_data = Some itv
      /\ td_stock td = Some stock
      /\ symbol stock = sym /\ company_name stock = sym +:+ " Stock"
      /\ exchange stock = "NYSE" /\ is_active stock = true
      /\ td_price_records td = Some recs /\ recs <> []
      /\ td_metadata td = Some md
      /\ tm_symbol md = Some sym /\ tm_interval md = itv
      /\ tm_record_count md = Z.of_nat (length recs)
      /\ Forall (fun r => stock_symbol r = sym /\ interval r = itv
                          /\ _validate_price_data (open_price r) (high_price r)
                               (low_price r) (close_price r) (volume r) = true) recs
      /\ (forall w',
            connection_pool w' = true ->
            (forall k q, engine_refuses w' k q = false) ->
            if stock_known w' sym then
              exists res,
                snd (load_transformed_data td w') = Ok res
                /\ lr_success res = true /\ lr_symbol res = Some sym
                /\ lr_prices_loaded res = Some (Z.of_nat (length recs))
                /\ lr_total_price_records res = Some (Z.of_nat (length recs))
            else
              snd (load_transformed_data td w')
              = Ok (failed_load (Some sym) "Failed to load stock information")
              /\ tables (fst (load_transformed_data td w')) = tables w').
Proof.
  intros Hrun.
  destruct (transform_intraday_data_result raw_data w td Hrun)
    as (sym & itv & items & Hsym & Hitv & Hts & -> & Hne).
  split; [reflexivity|].
  set (stock := {| symbol := sym; company_name := sym +:+ " Stock";
                   exchange := "NYSE"; currency := "USD"; is_active := true;
                   created_at := utcnow w; updated_at := utcnow w |}).
  eexists sym, itv, stock, (accepted_records sym itv items), _.
  cbn [td_stock td_price_records td_metadata].
  split; [exact Hsym|]. split; [exact Hitv|].
  split; [reflexivity|]. cbn [symbol company_name exchange is_active].
  do 4 (split; [reflexivity|]).
  split; [reflexivity|]. split; [exact Hne|].
  split; [reflexivity|]. cbn [tm_symbol tm_interval tm_record_count].
  do 3 (split; [reflexivity|]).
  split.
  { apply Forall_forall. intros r Hr.
    destruct (accepted_records_validated sym itv items r Hr) as (entry & _ & Hrec & Hval).
    destruct (entry_record_validated sym itv entry r Hrec) as (_ & Hs & Hi). auto. }
  intros w' Hpool Hacc.
  erewrite load_transformed_data_present; [|reflexivity..].
  set (w0 := with_log w' _).
  destruct (load_stock_run stock w0) as ((Hp1 & He1 & _) & Ht1 & _ & Hknown & _).
  rewrite (Hknown Hpool (Hacc (requests w0) (SelectStock (symbol stock)))).
  change (stock_known w0 (symbol stock)) with (stock_known w' sym).
  destruct (stock_known w' sym).
  2:{ cbn [fst snd]. split; [reflexivity|]. rewrite Ht1. reflexivity. }
  destruct (load_intraday_prices_count sym (accepted_records sym itv items)
              (fst (load_stock stock w0)))
    as (n & Hn & _ & Hfull).
  rewrite Hn. cbn [snd]. eexists. split; [reflexivity|].
  cbn [lr_success lr_symbol lr_prices_loaded lr_total_price_records].
  repeat split. f_equal. apply Hfull.
  - rewrite Hp1. exact Hpool.
  - intros k q. rewrite He1. apply Hacc.
Qed.

(** Witness of X7: the ten entries of the example series, transformed for
    IBM. *)
Lemma transformed_result_is_well_formed_witness :
  exists td,
    snd (transform_intraday_data
           {| rd_symbol := Some "IBM"; rd_interval := Some "5min";
              rd_time_series := Some (JObject ten_entries); rd_metadata := None |}
           blank_world) = Ok (Some td)
    /\ missing_key td = None.
Proof.
  eexists. split; [vm_compute; reflexivity|].
  refine (proj1 (transformed_result_is_well_formed
                   {| rd_symbol := Some "IBM"; rd_interval := Some "5min";
                      rd_time_series := Some (JObject ten_entries);
                      rd_metadata := None |} blank_world _ _)).
  vm_compute; reflexivity.
Defined.

(** ** The loader: the stocks table *)

(** The lookup of [load_stock] finds a row exactly for the symbols of the
    table. *)
Lemma stock_known_elem_of (w : World) (sym : string) :
  stock_known w sym = true <-> sym ∈ sr_symbol <$> stocks (tables w).
Proof.
  unfold stock_known.
  destruct (list_find (fun r => sr_symbol r = sym) (stocks (tables w)))
    as [[i r]|] eqn:Hf.
  - split; [intros _|reflexivity].
    apply list_find_Some in Hf as (Hl & Hr & _).
    apply list_elem_of_fmap. exists r. split; [congruence|].
    apply list_elem_of_lookup. eauto.
  - split; [discriminate|]. intros Hin.
    apply list_elem_of_fmap in Hin as (r & Hr & Hin).
    apply list_find_None in Hf. rewrite Forall_forall in Hf.
    exfalso. exact (Hf r Hin (eq_sym Hr)).
Qed.

(** X9.  [load_stock] never adds a row.  Whatever the pool and the engine
    do, it raises nothing, changes no table, and returns [True] only for a
    symbol the stocks table holds.  Through a pool whose engine takes the
    lookup it returns [True] exactly when the table holds the symbol.  For a
    symbol the table does not hold it returns [False]: the lookup is the one
    statement submitted, the insert is not, because reading [stock.name]
    raises [AttributeError] before, which is the error the call logs; the
    symbol is as new at the next call. *)
Theorem load_stock_never_adds_a_row (stock : Stock) (w : World) :
  let w1 := fst (load_stock stock w) in
  let held := symbol stock ∈ sr_symbol <$> stocks (tables w) in
  (exists b, snd (load_stock stock w) = Ok b)
  /\ tables w1 = tables w
  /\ (snd (load_stock stock w) = Ok true -> held)
  /\ (connection_pool w = true ->
      engine_refuses w (requests w) (SelectStock (symbol stock)) = false ->
      snd (load_stock stock w) = Ok (bool_decide held)
      /\ requests w1 = S (requests w)
      /\ (~ held ->
          log w1
          = (ERROR, FailedToLoadStock (symbol stock)
                      (AttributeError "'Stock' object has no attribute 'name'"))
            :: log w))
  /\ (~ held ->
      snd (load_stock stock w) = Ok false
      /\ forall stock',
          symbol stock' = symbol stock -> snd (load_stock stock' w1) = Ok false).
Proof.
  cbn zeta.
  destruct (load_stock_run stock w) as (_ & Ht & Hb & Hknown & Htrue).
  assert (Hfalse : forall (s : Stock) (w0 : World),
             symbol s ∉ sr_symbol <$> stocks (tables w0) ->
             snd (load_stock s w0) = Ok false).
  { intros s w0 Hnew.
    destruct (load_stock_run s w0) as (_ & _ & [b Hb0] & _ & Htrue0).
    destruct b; [|exact Hb0].
    exfalso. apply Hnew, stock_known_elem_of, Htrue0, Hb0. }
  split; [exact Hb|]. split; [exact Ht|].
  split; [intros Hok; apply stock_known_elem_of, Htrue, Hok|].
  split.
  - intros Hpool Hacc. split; [|split].
    + rewrite (Hknown Hpool Hacc). f_equal.
      destruct (stock_known w (symbol stock)) eqn:Hk.
      * symmetry. apply bool_decide_eq_true_2, stock_known_elem_of, Hk.
      * symmetry. apply bool_decide_eq_false_2. intros Hin.
        apply stock_known_elem_of in Hin. congruence.
    + unfold load_stock, try_except, bind, execute_query, logger, ret, lift,
        stock_name; cbn.
      rewrite Hpool, Hacc; cbn.
      destruct (list_find _ (stocks (tables w))) as [[i row]|]; reflexivity.
    + intros Hnew.
      assert (Hk : stock_known w (symbol stock) = false).
      { destruct (stock_known w (symbol stock)) eqn:Hk; [|reflexivity].
        exfalso. apply Hnew, stock_known_elem_of, Hk. }
      unfold stock_known in Hk.
      unfold load_stock, try_except, bind, execute_query, logger, ret, lift,
        stock_name; cbn.
      rewrite Hpool, Hacc; cbn.
      destruct (list_find _ (stocks (tables w))) as [[i row]|];
        [discriminate|reflexivity].
  - intros Hnew. split; [exact (Hfalse stock w Hnew)|].
    intros stock' Hsame. apply Hfalse. rewrite Ht, Hsame. exact Hnew.
Qed.

(** ** The loader: a batch of price records *)

Lemma last_with_key_cons (key : PriceKey) (r : StockPriceIntraday)
    (records : list StockPriceIntraday) :
  last_with_key key (r :: records)
  = match last_with_key key records with
    | Some r' => Some r'
    | None => if bool_decide (price_key r = key) then Some r else None
    end.
Proof.
  unfold last_with_key. rewrite filter_cons.
  case_decide as Hk.
  - rewrite bool_decide_eq_true_2 by exact Hk.
    destruct (filter _ records) as [|x rest] eqn:Hf; [reflexivity|].
    rewrite last_cons. destruct (last (x :: rest)) eqn:Hl; [reflexivity|].
    apply last_None in Hl. discriminate.
  - rewrite bool_decide_eq_false_2 by exact Hk.
    destruct (last _); reflexivity.
Qed.

Lemma last_with_key_None (key : PriceKey) (records : list StockPriceIntraday) :
  last_with_key key records = None <-> key ∉ price_key <$> records.
Proof.
  unfold last_with_key. rewrite last_None. split.
  - intros Hf Hin. apply list_elem_of_fmap in Hin as (r & -> & Hr).
    assert (Hx : r ∈ filter (fun x => price_key x = price_key r) records)
      by (apply list_elem_of_filter; auto).
    rewrite Hf in Hx. apply elem_of_nil in Hx. exact Hx.
  - intros Hnot. destruct (filter _ records) as [|x rest] eqn:Hf; [reflexivity|].
    exfalso. apply Hnot.
    assert (Hx : x ∈ filter (fun r => price_key r = key) records)
      by (rewrite Hf; apply list_elem_of_here).
    apply list_elem_of_filter in Hx as [<- Hx].
    apply list_elem_of_fmap. eauto.
Qed.

(** The loop through a pool whose engine takes every statement: every
    record counts, each key of the batch ends with one row carrying the last
    record of that key, and the rows of other keys are left alone. *)
Lemma load_prices_loop_last_write_wins (records : list StockPriceIntraday) :
  forall (count : Z) (w : World),
    connection_pool w = true ->
    (forall n q, engine_refuses w n q = false) ->
    unique_keys (tables w) ->
    let w' := fst (load_prices_loop records count w) in
    snd (load_prices_loop records count w) = Ok (count + Z.of_nat (length records))
    /\ unique_keys (tables w')
    /\ (forall key r, last_with_key key records = Some r ->
          exists row, rows_with key (tables w') = [row] /\ carries row r)
    /\ (forall key, last_with_key key records = None ->
          rows_with key (tables w') = rows_with key (tables w)).
Proof.
  induction records as [|r records IH]; intros count w Hpool Hacc Hu; cbn zeta.
  - cbn. split; [f_equal; lia|]. split; [exact Hu|].
    split; [intros key r [=]|reflexivity].
  - pose proof (_load_single_price_record_accepted r w Hpool Hacc) as Hok.
    pose proof (_load_single_price_record_run r w) as Hrun. cbn zeta in Hrun.
    pose proof (_load_single_price_record_unique r w Hu) as Hu1.
    pose proof (_load_single_price_record_stores r w Hu Hok) as Hstore.
    pose proof (_load_single_price_record_other_keys r w) as Hother.
    assert (Hstep : load_prices_loop (r :: records) count w
                    = load_prices_loop records (count + 1)
                        (fst (_load_single_price_record r w))).
    { cbn [load_prices_loop]. unfold bind.
      destruct (_load_single_price_record r w) as [w1 res]; cbn [fst snd] in *.
      subst res. reflexivity. }
    rewrite Hstep.
    set (w1 := fst (_load_single_price_record r w)) in *.
    destruct Hrun as (_ & _ & Hp1 & He1 & _).
    destruct (IH (count + 1) w1) as (Hn & Hu' & Hlast & Hrest);
      [congruence|intros n q; rewrite He1; apply Hacc|exact Hu1|].
    split; [rewrite Hn, length_cons; f_equal; lia|].
    split; [exact Hu'|].
    split.
    + intros key r' Hl. rewrite last_with_key_cons in Hl.
      destruct (last_with_key key records) as [r2|] eqn:Hl2.
      * injection Hl as <-. apply Hlast. exact Hl2.
      * case_bool_decide as Hk; [|discriminate]. injection Hl as <-. subst key.
        rewrite (Hrest _ Hl2).
        destruct Hstore as (row & Hrow & _ & Hc). eauto.
    + intros key Hl. rewrite last_with_key_cons in Hl.
      destruct (last_with_key key records) as [r2|] eqn:Hl2; [discriminate|].
      case_bool_decide as Hk; [discriminate|].
      rewrite (Hrest _ Hl2). apply Hother. congruence.
Qed.

(** X10.  Last write wins within a batch.  Through a pool whose engine
    takes every statement, and on a table with at most one row per key,
    [load_intraday_prices] returns the number of records it was given; each
    key of the batch ends with exactly one row, carrying the values of the
    last record of that key in the batch; the rows of keys that are not in
    the batch, the stocks and the audit log are left as they were. *)
Theorem load_intraday_prices_last_write_wins (sym : string)
    (records : list StockPriceIntraday) (w : World) :
  connection_pool w = true ->
  (forall n q, engine_refuses w n q = false) ->
  unique_keys (tables w) ->
  let w' := fst (load_intraday_prices sym records w) in
  snd (load_intraday_prices sym records w) = Ok (Z.of_nat (length records))
  /\ unique_keys (tables w')
  /\ (forall r, r ∈ records ->
        exists row r',
          rows_with (price_key r) (tables w') = [row]
          /\ last_with_key (price_key r) records = Some r'
          /\ carries row r')
  /\ (forall key, key ∉ price_key <$> records ->
        rows_with key (tables w') = rows_with key (tables w))
  /\ stocks (tables w') = stocks (tables w)
  /\ etl_job_logs (tables w') = etl_job_logs (tables w).
Proof.
  intros Hpool Hacc Hu w'.
  destruct (load_intraday_prices_run sym records w) as (_ & Hs & Hj & _).
  fold w' in Hs, Hj.
  assert (Hw : tables w' = tables (fst (load_prices_loop records 0 w))
               /\ snd (load_intraday_prices sym records w)
                  = snd (load_prices_loop records 0 w)).
  { subst w'. destruct records as [|r records]; [split; reflexivity|].
    destruct (load_prices_loop_last_write_wins (r :: records) 0 w Hpool Hacc Hu)
      as (Hn & _).
    unfold load_intraday_prices, try_except, bind, logger, ret.
    destruct (load_prices_loop (r :: records) 0 w) as [w1 res]; cbn [fst snd] in *.
    subst res. split; reflexivity. }
  destruct Hw as (Ht & Hv). rewrite Ht, Hv.
  destruct (load_prices_loop_last_write_wins records 0 w Hpool Hacc Hu)
    as (Hn & Hu' & Hlast & Hrest).
  split; [rewrite Hn; f_equal; lia|]. split; [exact Hu'|].
  split.
  { intros r Hr.
    destruct (last_with_key (price_key r) records) as [r'|] eqn:Hl.
    - destruct (Hlast _ _ Hl) as (row & Hrow & Hc). eauto.
    - apply last_with_key_None in Hl. exfalso. apply Hl.
      apply list_elem_of_fmap. eauto. }
  split.
  { intros key Hk. apply Hrest, last_with_key_None, Hk. }
  rewrite <- Ht. auto.
Qed.

(** Witness of X10: a bar of IBM and its revision in one batch, loaded into
    an empty store; the row carries the revision. *)
Lemma load_intraday_prices_last_write_wins_witness :
  unique_keys (tables ready_world)
  /\ snd (load_intraday_prices "IBM" [ibm_1500; ibm_1500_revised] ready_world) = Ok 2
  /\ exists row,
      rows_with (price_key ibm_1500)
        (tables (fst (load_intraday_prices "IBM" [ibm_1500; ibm_1500_revised]
                        ready_world))) = [row]
      /\ carries row ibm_1500_revised.
Proof.
  assert (Hu : unique_keys (tables ready_world)) by constructor.
  split; [exact Hu|].
  destruct (load_intraday_prices_last_write_wins "IBM" [ibm_1500; ibm_1500_revised]
              ready_world eq_refl (fun _ _ => eq_refl) Hu)
    as (Hn & _ & Hrows & _).
  split; [exact Hn|].
  destruct (Hrows ibm_1500 (list_elem_of_here _ _)) as (row & r' & Hrow & Hlast & Hc).
  exists row. split; [exact Hrow|].
  vm_compute in Hlast. injection Hlast as <-. exact Hc.
Defined.

(** ** The pipeline: the audit trail of a run *)

Lemma _log_etl_job_tables (sym : string) (total processed : Z) (status : JobStatus)
    (message : option string) (w : World) :
  connection_pool w = true ->
  engine_refuses w (requests w)
    (InsertJobLog (job_log_row sym total processed status message (utcnow w))) = false ->
  tables (fst (_log_etl_job sym total processed status message w))
  = {| stocks := stocks (tables w);
       stock_prices_intraday := stock_prices_intraday (tables w);
       etl_job_logs := etl_job_logs (tables w)
                       ++ [job_log_row sym total processed status message (utcnow w)] |}.
Proof.
  intros Hpool Hacc.
  unfold _log_etl_job, try_except, bind, execute_query, get_utcnow, logger, ret; cbn.
  rewrite Hpool; cbn. rewrite Hacc; cbn. reflexivity.
Qed.

(** The tail of a failed run, as a run. *)
Lemma failed_run_world (msg : LogMsg) (sym : string) (message : option string)
    (handler : Exn -> M Z) (w : World) :
  (let (w', r) := (logger ERROR msg >> _log_etl_job sym 0 0 FAILED message >> ret 0) w in
   match r with
   | Ok a => (w', Ok a)
   | Err e => handler e w'
   end)
  = (fst (_log_etl_job sym 0 0 FAILED message (with_log w ((ERROR, msg) :: log w))),
     Ok 0).
Proof.
  unfold bind, logger, ret. cbn [fst snd].
  destruct (_log_etl_job_run sym 0 0 FAILED message
              (with_log w ((ERROR, msg) :: log w))) as (_ & Hok & _).
  destruct (_log_etl_job _ _ _ _ _ _) as [w2 r2]; cbn [fst snd] in *.
  subst r2. reflexivity.
Qed.

Section PipelineAudit.
Context `{PyRuntime}.

(** The tables a run leaves when the engine takes every statement. *)
Lemma process_stock_intraday_tables (sym itv : string) (w : World) :
  (forall k q, engine_refuses w k q = false) ->
  let t' := tables (fst (process_stock_intraday sym itv w)) in
  let recs := expected_records w sym itv in
  (recs = [] ->
   t' = {| stocks := stocks (tables w);
           stock_prices_intraday := stock_prices_intraday (tables w);
           etl_job_logs :=
             etl_job_logs (tables w)
             ++ [job_log_row sym 0 0 FAILED (Some (failure_message w sym itv))
                   (utcnow w)] |})
  /\ (recs <> [] -> stock_known w (upper sym) = true ->
      etl_job_logs t'
      = etl_job_logs (tables w)
        ++ [job_log_row (upper sym) (Z.of_nat (length recs)) (Z.of_nat (length recs))
              SUCCESS None (utcnow w)])
  /\ (recs <> [] -> stock_known w (upper sym) = false -> t' = tables w).
Proof.
  intros Hall. cbn zeta.
  remember (tables (fst (process_stock_intraday sym itv w))) as t' eqn:Ht'.
  assert (Hnone : expected_records w sym itv = [] ->
            t' = {| stocks := stocks (tables w);
                    stock_prices_intraday := stock_prices_intraday (tables w);
                    etl_job_logs :=
                      etl_job_logs (tables w)
                      ++ [job_log_row sym 0 0 FAILED
                            (Some (failure_message w sym itv)) (utcnow w)] |} ->
            (expected_records w sym itv = [] ->
             t' = {| stocks := stocks (tables w);
                     stock_prices_intraday := stock_prices_intraday (tables w);
                     etl_job_logs :=
                       etl_job_logs (tables w)
                       ++ [job_log_row sym 0 0 FAILED
                             (Some (failure_message w sym itv)) (utcnow w)] |})
            /\ (expected_records w sym itv <> [] -> stock_known w (upper sym) = true ->
                etl_job_logs t'
                = etl_job_logs (tables w)
                  ++ [job_log_row (upper sym)
                        (Z.of_nat (length (expected_records w sym itv)))
                        (Z.of_nat (length (expected_records w sym itv)))
                        SUCCESS None (utcnow w)])
            /\ (expected_records w sym itv <> [] ->
                stock_known w (upper sym) = false -> t' = tables w)).
  { intros He0 Hf. split; [intros _; exact Hf|].
    split; intros Hne; congruence. }
  unfold process_stock_intraday, try_except in Ht'.
  unfold bind at 1, logger at 1 in Ht'. cbn [fst snd] in Ht'.
  set (wa := with_log w ((INFO, StartingPipeline sym itv) :: log w)) in Ht'.
  unfold bind at 1 in Ht'.
  destruct (_ensure_db_connection_run wa) as (Hqb & Hpoolb & Haccb & Hub).
  pose proof (_ensure_db_connection_tables wa) as Htb.
  specialize (Haccb Hall).
  destruct (_ensure_db_connection wa) as [wb [u|e]] eqn:Eb; cbn [fst snd] in *;
    [|discriminate].
  specialize (Hpoolb Haccb). clear Hub Haccb.
  apply quiet_view_env in Hqb. destruct Hqb as (Heb & Hpb & Hub).
  cbn [engine_refuses provider utcnow tables wa with_log] in Heb, Hpb, Hub, Htb.
  (* extraction *)
  unfold bind at 1, logger at 1 in Ht'. cbn [fst snd] in Ht'.
  set (wc := with_log wb ((INFO, StepExtracting sym) :: log wb)) in Ht'.
  unfold bind at 1 in Ht'.
  pose proof (extract_intraday_data_run sym itv wc) as (Htot & Hraw & _).
  pose proof (extract_intraday_data_but_log sym itv wc) as Hbl.
  pose proof (extract_intraday_data_value_env sym itv wc w Hpb Hub) as Hval.
  apply but_log_fields in Hbl.
  destruct (extract_intraday_data sym itv wc) as [wd rd]; cbn [fst snd] in *.
  destruct Htot as [o ->].
  destruct Hbl as (Hpd & Hed & Htd & Hud & Hprd).
  cbn [connection_pool engine_refuses utcnow provider tables wc with_log]
    in Hpd, Hed, Htd, Hud, Hprd.
  assert (Hfail : forall (msg : LogMsg) (message : string) (wx : World),
             connection_pool wx = true -> engine_refuses wx = engine_refuses w ->
             utcnow wx = utcnow w -> tables wx = tables w ->
             tables (fst (_log_etl_job sym 0 0 FAILED (Some message)
                            (with_log wx ((ERROR, msg) :: log wx))))
             = {| stocks := stocks (tables w);
                  stock_prices_intraday := stock_prices_intraday (tables w);
                  etl_job_logs :=
                    etl_job_logs (tables w)
                    ++ [job_log_row sym 0 0 FAILED (Some message) (utcnow w)] |}).
  { intros msg message wx Hpx Hex Hux Htx.
    rewrite _log_etl_job_tables; cbn [connection_pool engine_refuses requests
                                        utcnow tables with_log].
    - rewrite Hux, Htx. reflexivity.
    - exact Hpx.
    - rewrite Hex. apply Hall. }
  destruct o as [raw|].
  2:{ rewrite failed_run_world in Ht'. cbn [fst] in Ht'.
      assert (Hexp : expected_records w sym itv = [])
        by (unfold expected_records; rewrite <- Hval; reflexivity).
      assert (Hmsg : failure_message w sym itv = "Extraction failed")
        by (unfold failure_message; rewrite <- Hval; reflexivity).
      apply Hnone; [exact Hexp|].
      rewrite Hmsg, Ht'. apply Hfail; congruence. }
  assert (Hmsg : failure_message w sym itv = "Transformation failed")
    by (unfold failure_message; rewrite <- Hval; reflexivity).
  destruct (Hraw raw eq_refl) as (ts & Hts & _ & Hrsym & Hritv).
  assert (Hexp : expected_records w sym itv
                 = match ts with
                   | JObject items => accepted_records (upper sym) itv items
                   | _ => []
                   end).
  { unfold expected_records. rewrite <- Hval, Hts. destruct ts; reflexivity. }
  (* transformation *)
  unfold bind at 1, logger at 1 in Ht'. cbn [fst snd] in Ht'.
  set (we := with_log wd ((INFO, StepTransforming sym) :: log wd)) in Ht'.
  unfold bind at 1 in Ht'.
  pose proof (transform_intraday_data_value raw we) as (o2 & Ho2 & Hcase).
  pose proof (transform_intraday_data_but_log raw we) as Hbl.
  apply but_log_fields in Hbl.
  destruct (transform_intraday_data raw we) as [wf rf]; cbn [fst snd] in *.
  subst rf. destruct Hbl as (Hpf & Hef & Htf & Huf & Hprf).
  cbn [connection_pool engine_refuses utcnow provider tables we with_log]
    in Hpf, Hef, Htf, Huf, Hprf.
  rewrite Hrsym, Hritv, Hts in Hcase.
  assert (Hnone2 : o2 = None -> expected_records w sym itv = [] ->
            t' = {| stocks := stocks (tables w);
                    stock_prices_intraday := stock_prices_intraday (tables w);
                    etl_job_logs :=
                      etl_job_logs (tables w)
                      ++ [job_log_row sym 0 0 FAILED
                            (Some (failure_message w sym itv)) (utcnow w)] |}).
  { intros -> He0. rewrite failed_run_world in Ht'. cbn [fst] in Ht'.
    rewrite Hmsg, Ht'. apply Hfail; congruence. }
  destruct ts as [| | | | | |items];
    try (apply Hnone; [rewrite Hexp; reflexivity
                      |apply Hnone2; [exact Hcase|rewrite Hexp; reflexivity]]).
  destruct (accepted_records (upper sym) itv items) as [|r0 recs] eqn:Hacc.
  { apply Hnone; [rewrite Hexp; reflexivity
                 |apply Hnone2; [exact Hcase|rewrite Hexp; reflexivity]]. }
  clear Hnone Hnone2.
  destruct Hcase as (td & -> & Hrecs & (stock & Hstock & Hss) & (md & Hmd & Hsym)).
  (* loading *)
  unfold bind at 1, logger at 1 in Ht'. cbn [fst snd] in Ht'.
  set (wg := with_log wf ((INFO, StepLoading sym) :: log wf)) in Ht'.
  unfold bind at 1 in Ht'.
  rewrite (load_transformed_data_present td wg md (upper sym) stock (r0 :: recs)
             Hmd Hsym Hstock Hrecs) in Ht'.
  set (w0 := with_log wg ((INFO, LoadingTransformedData (upper sym)) :: log wg)) in Ht'.
  assert (Hpool0 : connection_pool w0 = true) by (cbn; congruence).
  assert (Heng0 : engine_refuses w0 = engine_refuses w) by (cbn; congruence).
  assert (Hu0 : utcnow w0 = utcnow w) by (cbn; congruence).
  assert (Ht0 : tables w0 = tables w) by (cbn; congruence).
  assert (Hknown0 : stock_known w0 (symbol stock) = stock_known w (upper sym)).
  { rewrite Hss. unfold stock_known. rewrite Ht0. reflexivity. }
  destruct (load_stock_run stock w0)
    as ((Hp1 & He1 & _ & Hu1) & Ht1 & _ & Hknown & _).
  rewrite Hknown in Ht'; [|exact Hpool0|rewrite Heng0; apply Hall].
  rewrite Hknown0 in Ht'.
  set (w1 := fst (load_stock stock w0)) in *.
  rewrite Hexp.
  split; [discriminate|].
  split; intros _ Hk; rewrite Hk in Ht'.
  - destruct (load_intraday_prices_count (upper sym) (r0 :: recs) w1)
      as (n & Hn & _ & Hfull).
    destruct (load_intraday_prices_run (upper sym) (r0 :: recs) w1)
      as ((Hp2 & He2 & _ & Hu2) & _ & Hj2 & _).
    rewrite Hn in Ht'.
    set (w2 := fst (load_intraday_prices (upper sym) (r0 :: recs) w1)) in *.
    rewrite (Hfull ltac:(congruence) ltac:(intros k q; rewrite He1, Heng0; apply Hall))
      in Ht'.
    cbn [fst snd lr_success negb] in Ht'.
    unfold bind at 1, logger at 1, ret in Ht'. cbn [fst snd tables with_log] in Ht'.
    rewrite Ht'.
    rewrite _log_etl_job_tables.
    + cbn [etl_job_logs]. rewrite Hj2, Ht1, Ht0, Hu2, Hu1, Hu0. reflexivity.
    + congruence.
    + rewrite He2, He1, Heng0. apply Hall.
  - cbn [fst snd lr_success failed_load negb] in Ht'.
    unfold bind at 1, logger at 1, ret in Ht'. cbn [fst snd tables with_log] in Ht'.
    rewrite Ht'. fold w1. rewrite Ht1. exact Ht0.
Qed.

End PipelineAudit.

(** X11.  The audit trail of a run, when the engine takes every statement.
    A run for which the provider holds no valid record returns 0, writes one
    FAILED row named after the symbol as the caller spelled it, with the
    failed step as message, and touches neither stocks nor prices.  A run
    with valid records for a stock the store holds returns their number and
    writes one SUCCESS row, named after the upper-cased symbol, with that
    number as records attempted and processed.  A run with valid records for
    a stock the store does not hold returns 0 and leaves every table as it
    was: the load fails on the stock and no audit row records the run.  The
    rows are compared by [audit_entry], their timestamps apart. *)
Theorem pipeline_run_audit_trail `{PyRuntime}
    (sym itv : string) (w : World) :
  (forall k q, engine_refuses w k q = false) ->
  let w' := fst (process_stock_intraday sym itv w) in
  let recs := expected_records w sym itv in
  (recs = [] ->
   snd (process_stock_intraday sym itv w) = Ok 0
   /\ audit_entry <$> etl_job_logs (tables w')
      = (audit_entry <$> etl_job_logs (tables w))
        ++ [("intraday_etl_" +:+ sym, FAILED, 0, 0,
             Some (failure_message w sym itv))]
   /\ stocks (tables w') = stocks (tables w)
   /\ stock_prices_intraday (tables w') = stock_prices_intraday (tables w))
  /\ (recs <> [] -> stock_known w (upper sym) = true ->
      snd (process_stock_intraday sym itv w) = Ok (Z.of_nat (length recs))
      /\ audit_entry <$> etl_job_logs (tables w')
         = (audit_entry <$> etl_job_logs (tables w))
           ++ [("intraday_etl_" +:+ upper sym, SUCCESS, Z.of_nat (length recs),
                Z.of_nat (length recs), None)]
      /\ stocks (tables w') = stocks (tables w))
  /\ (recs <> [] -> stock_known w (upper sym) = false ->
      snd (process_stock_intraday sym itv w) = Ok 0
      /\ tables w' = tables w).
Proof.
  intros Hall. cbn zeta.
  destruct (process_stock_intraday_tables sym itv w Hall) as (Hfailed & Hsucc & Hnone).
  destruct (process_stock_intraday_count sym itv w) as (n & Hn & Hbound & Hfull & Hzero).
  rewrite Hn.
  split; [|split].
  - intros Hrecs. split.
    { rewrite Hrecs in Hbound. cbn in Hbound. f_equal. lia. }
    rewrite (Hfailed Hrecs). cbn [etl_job_logs stocks stock_prices_intraday].
    rewrite fmap_app. repeat split.
  - intros Hrecs Hk. split; [rewrite (Hfull Hall Hk); reflexivity|].
    split; [rewrite (Hsucc Hrecs Hk), fmap_app; reflexivity|].
    apply (process_stock_intraday_stocks sym itv w).
  - intros Hrecs Hk. split; [rewrite (Hzero Hk); reflexivity|].
    exact (Hnone Hrecs Hk).
Qed.

(** Witness of X11: the symbol [a], spelled in lower case, for which the
    provider of the example holds two bars, run on a store that holds the
    stock A. *)
Lemma pipeline_run_audit_trail_witness :
  (forall k q, engine_refuses abc_listed_world k q = false)
  /\ stock_known abc_listed_world "A" = true
  /\ snd (process_stock_intraday "a" "5min" abc_listed_world) = Ok 2
  /\ audit_entry
     <$> etl_job_logs (tables (fst (process_stock_intraday "a" "5min"
                                      abc_listed_world)))
     = [("intraday_etl_A", SUCCESS, 2, 2, None)].
Proof.
  assert (Hall : forall k q, engine_refuses abc_listed_world k q = false)
    by reflexivity.
  split; [exact Hall|]. split; [reflexivity|].
  assert (Hrecs : length (expected_records abc_listed_world "a" "5min") = 2%nat)
    by (vm_compute; reflexivity).
  destruct (proj1 (proj2 (pipeline_run_audit_trail "a" "5min" abc_listed_world Hall)))
    as (Hn & Hrow & _).
  { intros Hnil. rewrite Hnil in Hrecs. discriminate. }
  { reflexivity. }
  rewrite Hrecs in Hn, Hrow. split; [exact Hn|exact Hrow].
Defined.

(** ** The streaming worker: the wait between two cycles and the stop flag *)

(** The wait makes a check per second until the flag is seen set or the
    seconds are used up. *)
Lemma wait_for_next_cycle_run (stop_is_set : nat -> bool) (wait_seconds : nat) :
  forall checks : nat,
    let checks' := wait_for_next_cycle wait_seconds stop_is_set checks in
    (checks <= checks' <= checks + wait_seconds)%nat
    /\ (forall k, (checks <= k)%nat -> (S k < checks')%nat -> stop_is_set k = false)
    /\ ((checks' < checks + wait_seconds)%nat ->
        (checks < checks')%nat /\ stop_is_set (pred checks') = true)
    /\ ((forall k, (checks <= k < checks + wait_seconds)%nat -> stop_is_set k = false) ->
        checks' = (checks + wait_seconds)%nat).
Proof.
  induction wait_seconds as [|n IH]; intros checks; cbn zeta.
  - cbn. repeat split; try lia.
  - cbn [wait_for_next_cycle].
    destruct (stop_is_set checks) eqn:Hstop.
    + split; [lia|]. split; [intros k Hk Hlt; lia|].
      split; [intros _; split; [lia|exact Hstop]|].
      intros Hnever. rewrite Hnever in Hstop by lia. discriminate.
    + destruct (IH (S checks)) as (Hb & Hfalse & Hearly & Hfull).
      split; [lia|].
      split.
      { intros k Hk Hlt. destruct (decide (k = checks)) as [->|Hne]; [exact Hstop|].
        apply Hfalse; lia. }
      split.
      { intros Hlt. destruct Hearly as (Hlt' & Hset); [lia|].
        split; [lia|exact Hset]. }
      intros Hnever. rewrite Hfull; [lia|].
      intros k Hk. apply Hnever. lia.
Qed.

Section StopFacts.
Context `{PyRuntime}.

(** Once the flag stays set from some check on, the worker leaves its loop:
    a round of the loop makes at least one check, so the rounds before the
    flag is seen are at most the checks left until then. *)
Lemma worker_exits_once_stopped (args : WorkerArgs) (stop_is_set : nat -> bool)
    (set_at : nat) :
  (forall k, (set_at <= k)%nat -> stop_is_set k = true) ->
  forall (fuel : nat) (iteration : Z) (checks : nat) (w : World),
    (set_at - checks < fuel)%nat ->
    exists iteration' w',
      _streaming_worker fuel stop_is_set args iteration checks w
      = WorkerExited iteration' w'
      /\ iteration <= iteration' <= iteration + Z.of_nat (set_at - checks).
Proof.
  intros Hset.
  induction fuel as [|fuel IH]; intros iteration checks w Hfuel; [lia|].
  cbn [_streaming_worker].
  destruct (stop_is_set checks) eqn:Hstop.
  { eexists _, _. split; [reflexivity|lia]. }
  assert (Hlt : (checks < set_at)%nat).
  { destruct (le_lt_dec set_at checks) as [Hle|Hlt]; [|exact Hlt].
    rewrite (Hset checks Hle) in Hstop. discriminate. }
  destruct (cap_reached (wa_max_iterations args) iteration).
  { eexists _, _. split; [reflexivity|lia]. }
  pose proof (streaming_cycle_ok args (iteration + 1) w) as Hok.
  destruct (streaming_cycle args (iteration + 1) w) as [w' r]. cbn [snd] in Hok.
  subst r.
  pose proof (wait_for_next_cycle_run stop_is_set
                (Z.to_nat (wa_interval_minutes args * 60)) (S checks)) as (Hb & _).
  cbn zeta in Hb.
  destruct (IH (iteration + 1)
              (wait_for_next_cycle (Z.to_nat (wa_interval_minutes args * 60))
                 stop_is_set (S checks)) w')
    as (it' & w'' & Hrun & Hit); [lia|].
  exists it', w''. split; [exact Hrun|]. lia.
Qed.

End StopFacts.

(** X12.  The wait between two cycles is interruptible.  It makes one
    check of the stop flag per second: it ends right after the first check
    that sees the flag set, and after as many checks as there are seconds
    when none does; a wait of no seconds makes no check. *)
Theorem wait_ends_at_first_stop_signal
    (stop_is_set : nat -> bool) (wait_seconds checks : nat) :
  let checks' := wait_for_next_cycle wait_seconds stop_is_set checks in
  (checks <= checks' <= checks + wait_seconds)%nat
  /\ (forall k, (checks <= k)%nat -> (S k < checks')%nat -> stop_is_set k = false)
  /\ ((checks' < checks + wait_seconds)%nat ->
      (checks < checks')%nat /\ stop_is_set (pred checks') = true)
  /\ ((forall k, (checks <= k < checks + wait_seconds)%nat -> stop_is_set k = false) ->
      checks' = (checks + wait_seconds)%nat)
  /\ (forall k, (checks <= k < checks + wait_seconds)%nat ->
        stop_is_set k = true ->
        (forall j, (checks <= j < k)%nat -> stop_is_set j = false) ->
        checks' = S k).
Proof.
  cbn zeta.
  destruct (wait_for_next_cycle_run stop_is_set wait_seconds checks)
    as (Hb & Hfalse & Hearly & Hfull).
  cbn zeta in *.
  do 4 (split; [assumption|]).
  intros k Hk Hset Hbefore.
  set (c := wait_for_next_cycle wait_seconds stop_is_set checks) in *.
  destruct (lt_eq_lt_dec c (S k)) as [[Hlt|Heq]|Hgt]; [|exact Heq|].
  - destruct Hearly as (Hpos & Hseen); [lia|].
    rewrite Hbefore in Hseen by lia. discriminate.
  - rewrite (Hfalse k) in Hset by lia. discriminate.
Qed.

(** X13.  A stop request ends the worker.  When the stop flag stays set
    from some check on, the worker leaves its loop, whatever its cap, its
    interval and the outcome of its cycles; it runs at most one cycle per
    check made before the flag was set, and none when the flag is set at the
    first check. *)
Theorem stop_request_ends_the_worker `{PyRuntime}
    (args : WorkerArgs) (stop_is_set : nat -> bool) (set_at : nat)
    (iteration : Z) (w : World) :
  (forall k, (set_at <= k)%nat -> stop_is_set k = true) ->
  forall fuel : nat,
    (set_at < fuel)%nat ->
    exists iteration' w',
      _streaming_worker fuel stop_is_set args iteration 0 w
      = WorkerExited iteration' w'
      /\ iteration <= iteration' <= iteration + Z.of_nat set_at.
Proof.
  intros Hset fuel Hfuel.
  destruct (worker_exits_once_stopped args stop_is_set set_at Hset fuel iteration
              0%nat w) as (it' & w' & Hrun & Hit); [lia|].
  exists it', w'. split; [exact Hrun|].
  rewrite Nat.sub_0_r in Hit. exact Hit.
Qed.

(** Witness of X13: the flag is set from the fourth check on; with a
    one-minute interval the first wait sees it, and the worker leaves after
    one cycle. *)
Lemma stop_request_ends_the_worker_witness :
  exists cycles w',
    _streaming_worker 4 (fun k => (3 <=? k)%nat)
      {| wa_symbols := ["B"]; wa_interval_minutes := 1;
         wa_max_iterations := None; wa_callback := None |}
      0 0 blank_world
    = WorkerExited cycles w'
    /\ 0 <= cycles <= 3.
Proof.
  apply (stop_request_ends_the_worker
           {| wa_symbols := ["B"]; wa_interval_minutes := 1;
              wa_max_iterations := None; wa_callback := None |}
           (fun k => (3 <=? k)%nat) 3%nat 0 blank_world).
  - intros k Hk. apply Nat.leb_le. exact Hk.
  - lia.
Defined.

(** ** The batch pipeline *)

(** A new key goes last. *)
Lemma dict_set_fresh {V : Type} (key : string) (v : V) (d : PyDict V) :
  key ∉ d.*1 -> dict_set key v d = d ++ [(key, v)].
Proof.
  induction d as [|[k x] d IH]; intros Hnot; [reflexivity|].
  rewrite fmap_cons in Hnot. apply not_elem_of_cons in Hnot as [Hne Hnot].
  cbn [dict_set fst] in *.
  destruct (String.eqb_spec k key) as [->|_]; [contradiction|].
  rewrite (IH Hnot). reflexivity.
Qed.

(** A transformation depends on the world through the clock only. *)
Lemma transformed_env `{PyRuntime} (raw_data : RawData) (w1 w2 : World) :
  utcnow w1 = utcnow w2 -> transformed w1 raw_data = transformed w2 raw_data.
Proof.
  intros Hu. unfold transformed.
  destruct (transform_intraday_data_value raw_data w1) as (o1 & Ho1 & Hc1).
  destruct (transform_intraday_data_value raw_data w2) as (o2 & Ho2 & Hc2).
  pose proof (transform_intraday_data_result raw_data w1) as Hr1.
  pose proof (transform_intraday_data_result raw_data w2) as Hr2.
  rewrite Ho1 in *. rewrite Ho2 in *.
  destruct o1 as [td1|], o2 as [td2|].
  - destruct (Hr1 td1 eq_refl) as (s1 & i1 & it1 & Hs1 & Hi1 & Ht1 & -> & _).
    destruct (Hr2 td2 eq_refl) as (s2 & i2 & it2 & Hs2 & Hi2 & Ht2 & -> & _).
    rewrite Hu. congruence.
  - exfalso.
    destruct (rd_symbol raw_data), (rd_interval raw_data),
      (rd_time_series raw_data) as [[| | | | | |items]|]; try discriminate.
    destruct (accepted_records _ _ items); [discriminate|].
    destruct Hc2 as (? & ? & _). discriminate.
  - exfalso.
    destruct (rd_symbol raw_data), (rd_interval raw_data),
      (rd_time_series raw_data) as [[| | | | | |items]|]; try discriminate.
    destruct (accepted_records _ _ items); [discriminate|].
    destruct Hc1 as (? & ? & _). discriminate.
  - reflexivity.
Qed.

Lemma extracted_env (sym itv : string) (w1 w2 : World) :
  provider w1 = provider w2 -> utcnow w1 = utcnow w2 ->
  extracted w1 sym itv = extracted w2 sym itv.
Proof.
  intros Hp Hu. unfold extracted.
  rewrite (extract_intraday_data_value_env sym itv w1 w2 Hp Hu). reflexivity.
Qed.

(** What the transformation makes of an extracted payload: a result
    exactly when the provider holds valid records, which it carries. *)
Lemma transformed_extracted `{PyRuntime} (w : World) (sym itv : string)
    (raw_data : RawData) :
  extracted w sym itv = Some raw_data ->
  match expected_records w sym itv with
  | [] => transformed w raw_data = None
  | recs =>
      exists td md stock,
        transformed w raw_data = Some td
        /\ td_metadata td = Some md /\ tm_symbol md = Some (upper sym)
        /\ td_stock td = Some stock /\ td_price_records td = Some recs
        /\ symbol stock = upper sym
  end.
Proof.
  unfold extracted, expected_records, transformed. intros Hex.
  destruct (extract_intraday_data_run sym itv w) as (_ & Hraw & _).
  cbn zeta in Hraw.
  destruct (snd (extract_intraday_data sym itv w)) as [o|e]; [|discriminate].
  subst o. destruct (Hraw raw_data eq_refl) as (ts & Hts & _ & Hsym & Hitv).
  destruct (transform_intraday_data_value raw_data w) as (o & Ho & Hcase).
  rewrite Ho, Hsym, Hitv, Hts in *.
  destruct ts as [| | | | | |items]; try (subst o; reflexivity).
  destruct (accepted_records (upper sym) itv items) as [|r recs] eqn:Hacc;
    [subst o; reflexivity|].
  destruct Hcase as (td & -> & Hrecs & (stock & Hstock & Hss) & (md & Hmd & Hs)).
  exists td, md, stock. repeat split; assumption.
Qed.

(** A failed extraction leaves no valid record to expect. *)
Lemma expected_records_not_extracted `{PyRuntime} (w : World) (sym itv : string) :
  extracted w sym itv = None -> expected_records w sym itv = [].
Proof.
  unfold extracted, expected_records.
  destruct (snd (extract_intraday_data sym itv w)) as [[raw|]|e];
    [discriminate|reflexivity|reflexivity].
Qed.

(** An extracted series has a length. *)
Lemma extracted_has_length (w : World) (sym itv : string) (raw_data : RawData) :
  extracted w sym itv = Some raw_data ->
  exists ts n, rd_time_series raw_data = Some ts /\ py_len ts = Ok n /\ 0 <= n.
Proof.
  unfold extracted.
  pose proof (extract_intraday_data_run sym itv w) as (_ & _ & Hcase).
  cbn zeta in Hcase.
  destruct (snd (extract_intraday_data sym itv w)) as [o|e]; [|discriminate].
  intros ->.
  destruct (provider w (upper sym) itv) as [e|data];
    [destruct Hcase; discriminate|].
  destruct (dict_get "Error Message" data); [destruct Hcase; discriminate|].
  destruct (dict_get "Note" data); [destruct Hcase; discriminate|].
  destruct (dict_get _ data) as [ts|]; [|destruct Hcase; discriminate].
  destruct (truthy ts); [|destruct Hcase; discriminate].
  destruct (py_len ts) as [n|] eqn:Hlen; [|destruct Hcase; discriminate].
  destruct (meta_data_get data "3. Last Refreshed");
    [|destruct Hcase; discriminate].
  destruct (meta_data_get data "6. Time Zone"); [|destruct Hcase; discriminate].
  destruct Hcase as [[= ->] _]. exists ts, n. cbn. repeat split; auto.
  destruct ts; cbn in Hlen; try discriminate; injection Hlen as <-; lia.
Qed.

Lemma bind_run {A B : Type} (m : M A) (k : A -> M B) (w w' : World) (a : A) :
  m w = (w', Ok a) -> bind m k w = k a w'.
Proof. intros Hm. unfold bind. rewrite Hm. reflexivity. Qed.

Lemma bind_raises {A B : Type} (m : M A) (k : A -> M B) (w w' : World) (e : Exn) :
  m w = (w', Err e) -> bind m k w = (w', Err e).
Proof. intros Hm. unfold bind. rewrite Hm. reflexivity. Qed.

Lemma note_run {Msg : Type} (note : Level -> Msg -> M unit) (lvl : Level)
    (msg : Msg) (w : World) :
  only_logs note ->
  exists w', note lvl msg w = (w', Ok tt) /\ but_log w' = but_log w.
Proof.
  intros Hnote. destruct (Hnote lvl msg w) as (Hv & Hb).
  destruct (note lvl msg w) as [w' r]; cbn [fst snd] in *. subst r. eauto.
Qed.

(** One step through a line of the batch logger. *)
Ltac note_step Hnote :=
  match goal with
  | |- context [bind (?note ?lvl ?msg) ?k ?w] =>
      let w' := fresh "wn" in
      let Hr := fresh "Hr" in
      let Hb := fresh "Hb" in
      is_var note;
      destruct (note_run note lvl msg w Hnote) as (w' & Hr & Hb);
      rewrite (bind_run (note lvl msg) k w w' tt Hr); cbv beta
  end.

Section BatchRuns.
Context `{PyRuntime} `{PyArith}.
Variable note : Level -> BatchMsg -> M unit.
Hypothesis Hnote : only_logs note.

(** The extraction loop asks the provider for each symbol in turn and
    changes nothing but the log. *)
Lemma extract_symbols_run (itv : string) (symbols : list string) :
  forall (results : PyDict (option RawData)) (w : World),
    NoDup symbols ->
    (forall s, s ∈ symbols -> s ∉ results.*1) ->
    exists w',
      extract_symbols note symbols itv results w
      = (w', Ok (results ++ ((fun s => (s, extracted w s itv)) <$> symbols)))
      /\ but_log w' = but_log w.
Proof.
  induction symbols as [|sym symbols IH]; intros results w Hnd Hfresh.
  - exists w. cbn. rewrite app_nil_r. auto.
  - apply NoDup_cons in Hnd as [Hnot Hnd].
    cbn [extract_symbols]. note_step Hnote.
    pose proof (extract_intraday_data_run sym itv wn) as ([o Ho] & _).
    pose proof (extract_intraday_data_but_log sym itv wn) as Hbl.
    destruct (extract_intraday_data sym itv wn) as [w1 r1] eqn:Erun;
      cbn [fst snd] in *. subst r1.
    rewrite (bind_run _ _ _ _ _ Erun).
    assert (Hb1 : but_log w1 = but_log w) by congruence.
    pose proof (but_log_fields _ _ Hb) as (_ & _ & _ & Hu & Hp).
    pose proof (but_log_fields _ _ Hb1) as (_ & _ & _ & Hu1 & Hp1).
    assert (Hval : o = extracted w sym itv).
    { rewrite <- (extracted_env sym itv wn w Hp Hu). unfold extracted.
      rewrite Erun. reflexivity. }
    rewrite dict_set_fresh by (apply Hfresh, list_elem_of_here).
    destruct (IH (results ++ [(sym, o)]) w1 Hnd) as (w' & Hrun & Hb').
    { intros s Hs. rewrite fmap_app. cbn [fmap list_fmap fst].
      rewrite elem_of_app, list_elem_of_singleton.
      intros [Hin| ->]; [|contradiction].
      exact (Hfresh s (list_elem_of_further _ _ _ Hs) Hin). }
    exists w'. split; [|congruence].
    rewrite Hrun, fmap_cons, <- app_assoc. cbn [app]. rewrite Hval.
    do 3 f_equal. f_equal.
    apply list_fmap_ext. intros i s _. f_equal.
    apply extracted_env; assumption.
Qed.

Lemma extract_multiple_stocks_run (symbols : list string) (itv : string) (w : World) :
  NoDup symbols ->
  exists w',
    extract_multiple_stocks note symbols itv w
    = (w', Ok ((fun s => (s, extracted w s itv)) <$> symbols))
    /\ but_log w' = but_log w.
Proof.
  intros Hnd. unfold extract_multiple_stocks. note_step Hnote.
  destruct (extract_symbols_run itv symbols [] wn Hnd) as (w1 & Hrun & Hb1).
  { intros s _. apply not_elem_of_nil. }
  rewrite (bind_run _ _ _ _ _ Hrun). note_step Hnote.
  exists wn0. split; [|congruence].
  unfold ret. cbn [app]. do 2 f_equal.
  apply list_fmap_ext. intros i s _. f_equal.
  apply but_log_fields in Hb. destruct Hb as (_ & _ & _ & Hu & Hp).
  apply extracted_env; assumption.
Qed.

(** The transformation loop transforms each payload in turn and changes
    nothing but the log. *)
Lemma transform_items_run (items : list (string * option RawData)) :
  forall (acc : PyDict (option TransformedData)) (w : World),
    NoDup items.*1 ->
    (forall s, s ∈ items.*1 -> s ∉ acc.*1) ->
    exists w',
      transform_items note items acc w
      = (w', Ok (acc ++ ((fun p => (p.1, p.2 ≫= transformed w)) <$> items)))
      /\ but_log w' = but_log w.
Proof.
  induction items as [|[sym o] items IH]; intros acc w Hnd Hfresh.
  - exists w. cbn. rewrite app_nil_r. auto.
  - rewrite fmap_cons in Hnd, Hfresh. cbn [fst] in Hnd, Hfresh.
    apply NoDup_cons in Hnd as [Hnot Hnd].
    assert (Hnext : forall (v : option TransformedData) (s : string),
               s ∈ items.*1 -> s ∉ (acc ++ [(sym, v)]).*1).
    { intros v s Hs. rewrite fmap_app. cbn [fmap list_fmap fst].
      rewrite elem_of_app, list_elem_of_singleton.
      intros [Hin| ->]; [|contradiction].
      exact (Hfresh s (list_elem_of_further _ _ _ Hs) Hin). }
    destruct o as [raw|]; cbn [transform_items]; note_step Hnote.
    + pose proof (transform_intraday_data_value raw wn) as (o2 & Ho2 & _).
      pose proof (transform_intraday_data_but_log raw wn) as Hbl.
      destruct (transform_intraday_data raw wn) as [w1 r1] eqn:Erun;
        cbn [fst snd] in *. subst r1.
      rewrite (bind_run _ _ _ _ _ Erun).
      assert (Hb1 : but_log w1 = but_log w) by congruence.
      pose proof (but_log_fields _ _ Hb) as (_ & _ & _ & Hu & _).
      pose proof (but_log_fields _ _ Hb1) as (_ & _ & _ & Hu1 & _).
      assert (Hval : o2 = transformed w raw).
      { rewrite <- (transformed_env raw wn w Hu). unfold transformed.
        rewrite Erun. reflexivity. }
      rewrite dict_set_fresh by (apply Hfresh, list_elem_of_here).
      destruct (IH (acc ++ [(sym, o2)]) w1 Hnd (Hnext o2)) as (w' & Hrun & Hb').
      exists w'. split; [|congruence].
      rewrite Hrun, fmap_cons, <- app_assoc. cbn [app fst snd mbind option_bind].
      rewrite Hval. do 4 f_equal.
      apply list_fmap_ext. intros i [s [r|]] _; cbn; [|reflexivity].
      f_equal. apply transformed_env. exact Hu1.
    + rewrite dict_set_fresh by (apply Hfresh, list_elem_of_here).
      destruct (IH (acc ++ [(sym, None)]) wn Hnd (Hnext None)) as (w' & Hrun & Hb').
      exists w'. split; [|congruence].
      rewrite Hrun, fmap_cons, <- app_assoc. cbn [app fst snd mbind option_bind].
      do 4 f_equal.
      pose proof (but_log_fields _ _ Hb) as (_ & _ & _ & Hu & _).
      apply list_fmap_ext. intros i [s [r|]] _; cbn; [|reflexivity].
      f_equal. apply transformed_env. exact Hu.
Qed.

Lemma transform_multiple_stocks_run (raw_data_dict : PyDict (option RawData))
    (w : World) :
  NoDup raw_data_dict.*1 ->
  exists w',
    transform_multiple_stocks note raw_data_dict w
    = (w', Ok ((fun p => (p.1, p.2 ≫= transformed w)) <$> raw_data_dict))
    /\ but_log w' = but_log w.
Proof.
  intros Hnd. unfold transform_multiple_stocks. note_step Hnote.
  destruct (transform_items_run raw_data_dict [] wn Hnd) as (w1 & Hrun & Hb1).
  { intros s _. apply not_elem_of_nil. }
  rewrite (bind_run _ _ _ _ _ Hrun). note_step Hnote.
  exists wn0. split; [|congruence].
  unfold ret. cbn [app]. do 2 f_equal.
  pose proof (but_log_fields _ _ Hb) as (_ & _ & _ & Hu & _).
  apply list_fmap_ext. intros i [s [r|]] _; cbn; [|reflexivity].
  f_equal. apply transformed_env. exact Hu.
Qed.

End BatchRuns.

(** A result with all its keys for a stock the store holds, loaded through
    a pool whose engine takes every statement: every record counts and a
    SUCCESS row is written. *)
Lemma load_transformed_data_accepted (td : TransformedData) (w : World)
    (md : TransformMetadata) (sym : string) (stock : Stock)
    (records : list StockPriceIntraday) :
  td_metadata td = Some md -> tm_symbol md = Some sym ->
  td_stock td = Some stock -> td_price_records td = Some records ->
  connection_pool w = true ->
  (forall k q, engine_refuses w k q = false) ->
  stock_known w (symbol stock) = true ->
  exists w',
    load_transformed_data td w
    = (w', Ok {| lr_success := true; lr_symbol := Some sym; lr_error := None;
                 lr_stock_loaded := Some true;
                 lr_prices_loaded := Some (Z.of_nat (length records));
                 lr_total_price_records := Some (Z.of_nat (length records));
                 lr_loading_timestamp := Some (utcnow w) |})
    /\ steady w w'
    /\ stocks_view w' = stocks_view w
    /\ etl_job_logs (tables w')
       = etl_job_logs (tables w)
         ++ [job_log_row sym (Z.of_nat (length records)) (Z.of_nat (length records))
               SUCCESS None (utcnow w)].
Proof.
  intros Hmd Hsym Hstock Hrecs Hpool Hall Hk.
  rewrite (load_transformed_data_present td w md sym stock records
             Hmd Hsym Hstock Hrecs).
  set (w0 := with_log w ((INFO, LoadingTransformedData sym) :: log w)).
  assert (Hpool0 : connection_pool w0 = true) by exact Hpool.
  assert (Hall0 : forall k q, engine_refuses w0 k q = false) by exact Hall.
  assert (Hu0 : utcnow w0 = utcnow w) by reflexivity.
  assert (Hj0 : etl_job_logs (tables w0) = etl_job_logs (tables w)) by reflexivity.
  assert (Hs0 : steady w w0) by (repeat split).
  assert (Hk0 : stock_known w0 (symbol stock) = true) by exact Hk.
  assert (Hsv0 : stocks_view w0 = stocks_view w) by reflexivity.
  clearbody w0.
  destruct (load_stock_run stock w0)
    as ((Hp1 & He1 & Hpr1 & Hu1) & Ht1 & _ & Hknown & _).
  assert (Hj1 : etl_job_logs (tables (fst (load_stock stock w0)))
                = etl_job_logs (tables w0)) by (rewrite Ht1; reflexivity).
  rewrite Hknown, Hk0; [|exact Hpool0|apply Hall0].
  set (w1 := fst (load_stock stock w0)) in *.
  destruct (load_intraday_prices_count sym records w1) as (n & Hn & _ & Hfull).
  destruct (load_intraday_prices_run sym records w1)
    as ((Hp2 & He2 & Hpr2 & Hu2) & _ & Hj2 & _).
  rewrite Hn.
  set (w2 := fst (load_intraday_prices sym records w1)) in *.
  rewrite (Hfull ltac:(congruence) ltac:(intros k q; rewrite He1; apply Hall0)).
  destruct (_log_etl_job_run sym (Z.of_nat (length records))
              (Z.of_nat (length records)) SUCCESS None w2)
    as ((Hp3 & He3 & Hpr3 & Hu3) & _).
  destruct Hs0 as (Hp0 & He0 & Hpr0 & _).
  eexists. split; [rewrite <- Hu0; reflexivity|].
  split; [unfold steady; repeat split; congruence|].
  split.
  { transitivity (stocks_view w2); [apply _log_etl_job_stocks|].
    transitivity (stocks_view w1); [apply load_intraday_prices_stocks|].
    transitivity (stocks_view w0); [apply load_stock_stocks|exact Hsv0]. }
  rewrite _log_etl_job_tables.
  - cbn [etl_job_logs]. rewrite Hj2, Hj1, Hj0, Hu2, Hu1, Hu0. reflexivity.
  - congruence.
  - rewrite He2, He1. apply Hall0.
Qed.

(** [load_transformed_data] never raises and leaves pool, engine, provider
    and clock alone. *)
Lemma load_transformed_data_returns (td : TransformedData) (w : World) :
  exists w' res, load_transformed_data td w = (w', Ok res) /\ steady w w'.
Proof.
  destruct (transformed_data_empty td) eqn:Hempty.
  { unfold load_transformed_data. rewrite Hempty. cbn.
    eexists _, _. split; [reflexivity|]. repeat split. }
  destruct (missing_key td) as [key|] eqn:Hkey.
  { rewrite (load_transformed_data_missing td w key Hempty Hkey).
    destruct (_log_etl_job_run (logged_symbol td) 0 0 FAILED
                (Some (str (KeyError key)))
                (with_log w ((ERROR, FailedToLoadTransformedData (KeyError key))
                             :: log w))) as (Hst & _).
    eexists _, _. split; [reflexivity|]. exact Hst. }
  destruct (missing_key_None td Hkey)
    as (md & sym & stock & records & Hmd & Hsym & Hst & Hrecs).
  rewrite (load_transformed_data_present td w md sym stock records Hmd Hsym Hst Hrecs).
  set (w0 := with_log w ((INFO, LoadingTransformedData sym) :: log w)).
  assert (H0 : steady w w0) by (repeat split).
  destruct (load_stock_run stock w0) as (Hs1 & _ & [b Hb] & _).
  rewrite Hb. destruct b.
  2:{ eexists _, _. split; [reflexivity|]. exact (steady_trans _ _ _ H0 Hs1). }
  destruct (load_intraday_prices_run sym records (fst (load_stock stock w0)))
    as (Hs2 & _ & _ & [n Hn]).
  rewrite Hn.
  destruct (_log_etl_job_run sym (Z.of_nat (length records)) n SUCCESS None
              (fst (load_intraday_prices sym records (fst (load_stock stock w0)))))
    as (Hs3 & _).
  eexists _, _. split; [reflexivity|].
  exact (steady_trans _ _ _ H0 (steady_trans _ _ _ Hs1 (steady_trans _ _ _ Hs2 Hs3))).
Qed.

Lemma steady_but_log (w w' : World) : but_log w' = but_log w -> steady w w'.
Proof. intros Hb. apply but_log_fields in Hb. unfold steady. tauto. Qed.

Section BatchLoads.
Context `{PyRuntime} `{PyArith}.
Variable note : Level -> BatchMsg -> M unit.
Hypothesis Hnote : only_logs note.

(** The outcome of extraction and transformation for a symbol. *)
Let outcome (w0 : World) (itv sym : string) : option TransformedData :=
  extracted w0 sym itv ≫= transformed w0.

Lemma outcome_none (w0 : World) (itv sym : string) :
  outcome w0 itv sym = None -> expected_records w0 sym itv = [].
Proof.
  unfold outcome. destruct (extracted w0 sym itv) as [raw|] eqn:Hex; cbn.
  - intros Hnone. pose proof (transformed_extracted w0 sym itv raw Hex) as Hcase.
    destruct (expected_records w0 sym itv); [reflexivity|].
    destruct Hcase as (td & _ & _ & Htd & _). congruence.
  - intros _. apply expected_records_not_extracted. exact Hex.
Qed.

Lemma outcome_some (w0 : World) (itv sym : string) (td : TransformedData) :
  outcome w0 itv sym = Some td ->
  expected_records w0 sym itv <> []
  /\ exists md stock,
      td_metadata td = Some md /\ tm_symbol md = Some (upper sym)
      /\ td_stock td = Some stock
      /\ td_price_records td = Some (expected_records w0 sym itv)
      /\ symbol stock = upper sym.
Proof.
  unfold outcome. destruct (extracted w0 sym itv) as [raw|] eqn:Hex; cbn;
    [|discriminate].
  intros Htd. pose proof (transformed_extracted w0 sym itv raw Hex) as Hcase.
  destruct (expected_records w0 sym itv) as [|r recs]; [congruence|].
  destruct Hcase as (td' & md & stock & Htd' & Hrest).
  assert (td' = td) by congruence. subst td'.
  split; [discriminate|]. exists md, stock. exact Hrest.
Qed.

(** The loading loop, through a pool whose engine takes every statement
    and on a store that holds the stock of every symbol with valid records:
    each such symbol is loaded in full and gets its SUCCESS row; the others
    get a failure entry and no row. *)
Lemma load_items_run (w0 : World) (itv : string) (symbols : list string) :
  forall (acc : PyDict LoadResult) (w : World),
    NoDup symbols ->
    (forall s, s ∈ symbols -> s ∉ acc.*1) ->
    connection_pool w = true ->
    (forall k q, engine_refuses w k q = false) ->
    utcnow w = utcnow w0 ->
    (forall s, s ∈ symbols -> expected_records w0 s itv <> [] ->
               stock_known w (upper s) = true) ->
    exists w',
      load_items note ((fun s => (s, outcome w0 itv s)) <$> symbols) acc w
      = (w', Ok (acc ++ ((fun s => (s, load_outcome w0 itv s)) <$> symbols)))
      /\ steady w w'
      /\ stocks_view w' = stocks_view w
      /\ etl_job_logs (tables w')
         = etl_job_logs (tables w) ++ omap (success_row w0 itv) symbols.
Proof.
  induction symbols as [|sym symbols IH]; intros acc w Hnd Hfresh Hpool Hall Hu Hheld.
  - exists w. cbn. rewrite !app_nil_r. repeat split.
  - apply NoDup_cons in Hnd as [Hnot Hnd].
    assert (Hnext : forall (v : LoadResult) (s : string),
               s ∈ symbols -> s ∉ (acc ++ [(sym, v)]).*1).
    { intros v s Hs. rewrite fmap_app. cbn [fmap list_fmap fst].
      rewrite elem_of_app, list_elem_of_singleton.
      intros [Hin| ->]; [|contradiction].
      exact (Hfresh s (list_elem_of_further _ _ _ Hs) Hin). }
    rewrite fmap_cons.
    destruct (outcome w0 itv sym) as [td|] eqn:Hout; cbn [load_items];
      note_step Hnote.
    + destruct (outcome_some w0 itv sym td Hout)
        as (Hne & md & stock & Hmd & Hsym & Hstock & Hrecs & Hss).
      pose proof (but_log_fields _ _ Hb) as (Hpn & Hen & Htn & Hun & _).
      assert (Hsvn : stocks_view wn = stocks_view w)
        by (unfold stocks_view; rewrite Htn; reflexivity).
      destruct (load_transformed_data_accepted td wn md (upper sym) stock
                  (expected_records w0 sym itv) Hmd Hsym Hstock Hrecs)
        as (w1 & Hrun & Hst & Hsv1 & Hlog).
      { congruence. }
      { intros k q. rewrite Hen. apply Hall. }
      { rewrite Hss, (stocks_view_known w wn (upper sym) Hsvn).
        apply Hheld; [apply list_elem_of_here|exact Hne]. }
      rewrite (bind_run _ _ _ _ _ Hrun).
      rewrite dict_set_fresh by (apply Hfresh, list_elem_of_here).
      destruct Hst as (Hp1 & He1 & Hpr1 & Hu1).
      destruct (IH (acc ++ [(sym, {| lr_success := true;
                                     lr_symbol := Some (upper sym);
                                     lr_error := None;
                                     lr_stock_loaded := Some true;
                                     lr_prices_loaded :=
                                       Some (Z.of_nat (length (expected_records w0 sym itv)));
                                     lr_total_price_records :=
                                       Some (Z.of_nat (length (expected_records w0 sym itv)));
                                     lr_loading_timestamp := Some (utcnow wn) |})])
                  w1 Hnd (Hnext _))
        as (w' & Hrun' & Hst' & Hsv' & Hlog'); [congruence| |congruence| |].
      { intros k q. rewrite He1, Hen. apply Hall. }
      { intros s Hs Hrs.
        rewrite (stocks_view_known w w1 (upper s)) by congruence.
        apply Hheld; [apply list_elem_of_further, Hs|exact Hrs]. }
      exists w'. split.
      { rewrite Hrun', fmap_cons, <- app_assoc. cbn [app].
        do 4 f_equal. unfold load_outcome.
        destruct (expected_records w0 sym itv); [congruence|].
        rewrite Hun, Hu. reflexivity. }
      split.
      { apply (steady_trans _ wn); [apply steady_but_log; exact Hb|].
        apply (steady_trans _ w1); [repeat split; assumption|exact Hst']. }
      split; [congruence|].
      rewrite Hlog', Hlog, Htn, Hun, Hu. cbn [omap list_omap].
      unfold success_row at 2.
      destruct (expected_records w0 sym itv) as [|r recs] eqn:Hexp; [congruence|].
      rewrite <- app_assoc. reflexivity.
    + pose proof (outcome_none w0 itv sym Hout) as Hexp.
      pose proof (but_log_fields _ _ Hb) as (Hpn & Hen & Htn & Hun & _).
      assert (Hsvn : stocks_view wn = stocks_view w)
        by (unfold stocks_view; rewrite Htn; reflexivity).
      rewrite dict_set_fresh by (apply Hfresh, list_elem_of_here).
      destruct (IH (acc ++ [(sym, failed_load None "No transformed data available")])
                  wn Hnd (Hnext _))
        as (w' & Hrun' & Hst' & Hsv' & Hlog'); [congruence| |congruence| |].
      { intros k q. rewrite Hen. apply Hall. }
      { intros s Hs Hrs. rewrite (stocks_view_known w wn (upper s) Hsvn).
        apply Hheld; [apply list_elem_of_further, Hs|exact Hrs]. }
      exists w'. split.
      { rewrite Hrun', fmap_cons, <- app_assoc. cbn [app].
        do 4 f_equal. unfold load_outcome. rewrite Hexp. reflexivity. }
      split.
      { apply (steady_trans _ wn); [apply steady_but_log; exact Hb|exact Hst']. }
      split; [congruence|].
      rewrite Hlog', Htn. cbn [omap list_omap].
      unfold success_row at 2. rewrite Hexp. reflexivity.
Qed.

(** The loading loop never raises. *)
Lemma load_items_returns (items : list (string * option TransformedData)) :
  forall (acc : PyDict LoadResult) (w : World),
    exists w' results, load_items note items acc w = (w', Ok results)
      /\ steady w w'.
Proof.
  induction items as [|[sym [td|]] items IH]; intros acc w.
  - exists w, acc. split; [reflexivity|apply steady_refl].
  - cbn [load_items]. note_step Hnote.
    destruct (load_transformed_data_returns td wn) as (w1 & res & Hrun & Hst).
    rewrite (bind_run _ _ _ _ _ Hrun).
    destruct (IH (dict_set sym res acc) w1) as (w' & results & Hrun' & Hst').
    exists w', results. split; [exact Hrun'|].
    apply (steady_trans _ wn); [apply steady_but_log; exact Hb|].
    exact (steady_trans _ _ _ Hst Hst').
  - cbn [load_items]. note_step Hnote.
    destruct (IH (dict_set sym (failed_load None "No transformed data available") acc)
                wn) as (w' & results & Hrun' & Hst').
    exists w', results. split; [exact Hrun'|].
    apply (steady_trans _ wn); [apply steady_but_log; exact Hb|exact Hst'].
Qed.

End BatchLoads.

(** *** The statistics of a batch *)

Lemma count_if_cons {V : Type} (test : V -> bool) (x : V) (xs : list V) :
  count_if test (x :: xs) = (if test x then 1 else 0) + count_if test xs.
Proof.
  unfold count_if. cbn [List.filter]. destruct (test x); cbn [length]; lia.
Qed.

Lemma count_if_bounds {V : Type} (test : V -> bool) (xs : list V) :
  0 <= count_if test xs <= Z.of_nat (length xs).
Proof.
  induction xs as [|x xs IH]; [unfold count_if; cbn; lia|].
  rewrite count_if_cons, length_cons. destruct (test x); lia.
Qed.

Section BatchStats.
Context `{PyRuntime} `{PyArith}.
Variables (w0 : World) (itv : string).

Lemma loading_totals_outcomes (symbols : list string) :
  forall a b : Z,
    loading_totals (load_outcome w0 itv <$> symbols) (a, b)
    = (a + sum_list (valid_counts w0 itv symbols),
       b + sum_list (valid_counts w0 itv symbols)).
Proof.
  induction symbols as [|sym symbols IH]; intros a b.
  - cbn. f_equal; lia.
  - rewrite fmap_cons. cbn [loading_totals].
    remember (load_outcome w0 itv sym) as o eqn:Ho. unfold load_outcome in Ho.
    unfold valid_counts. rewrite fmap_cons. fold (valid_counts w0 itv symbols).
    cbn [sum_list foldr]. fold (sum_list (valid_counts w0 itv symbols)).
    destruct (expected_records w0 sym itv) as [|r recs]; subst o;
      cbn [lr_success failed_load lr_total_price_records lr_prices_loaded
           get_or_zero fst snd]; rewrite IH; f_equal; cbn [length]; lia.
Qed.

Lemma count_loaded_outcomes (symbols : list string) :
  count_if lr_success (load_outcome w0 itv <$> symbols)
  = count_if (fun n => 0 <? n) (valid_counts w0 itv symbols).
Proof.
  induction symbols as [|sym symbols IH]; [reflexivity|].
  unfold valid_counts. rewrite !fmap_cons, !count_if_cons.
  fold (valid_counts w0 itv symbols). rewrite IH. f_equal.
  remember (load_outcome w0 itv sym) as o eqn:Ho. unfold load_outcome in Ho.
  destruct (expected_records w0 sym itv); subst o; reflexivity.
Qed.

Lemma count_transformed_outcomes (symbols : list string) :
  count_if (fun data : option TransformedData => bool_decide (is_Some data))
    ((fun s => extracted w0 s itv ≫= transformed w0) <$> symbols)
  = count_if (fun n => 0 <? n) (valid_counts w0 itv symbols).
Proof.
  induction symbols as [|sym symbols IH]; [reflexivity|].
  unfold valid_counts. rewrite !fmap_cons, !count_if_cons.
  fold (valid_counts w0 itv symbols). rewrite IH. f_equal.
  destruct (extracted w0 sym itv ≫= transformed w0) as [td|] eqn:Hout.
  - destruct (outcome_some w0 itv sym td Hout) as (Hne & _).
    rewrite bool_decide_eq_true_2 by eauto.
    destruct (expected_records w0 sym itv); [congruence|reflexivity].
  - rewrite (outcome_none w0 itv sym Hout).
    rewrite bool_decide_eq_false_2 by (intros [? ?]; discriminate). reflexivity.
Qed.

Lemma total_records_outcomes (symbols : list string) :
  forall a : Z,
    total_records ((fun s => extracted w0 s itv ≫= transformed w0) <$> symbols) a
    = a + sum_list (valid_counts w0 itv symbols).
Proof.
  induction symbols as [|sym symbols IH]; intros a.
  - cbn. lia.
  - unfold valid_counts. rewrite !fmap_cons. fold (valid_counts w0 itv symbols).
    cbn [total_records sum_list foldr]. fold (sum_list (valid_counts w0 itv symbols)).
    destruct (extracted w0 sym itv ≫= transformed w0) as [td|] eqn:Hout.
    + destruct (outcome_some w0 itv sym td Hout)
        as (_ & md & stock & Hmd & _ & _ & Hrecs & _).
      replace (transformed_data_empty td) with false
        by (unfold transformed_data_empty; rewrite Hmd;
            destruct (td_stock td), (td_price_records td); reflexivity).
      rewrite Hrecs, IH. lia.
    + rewrite (outcome_none w0 itv sym Hout), IH. cbn [length]. lia.
Qed.

(** Adding up the data points of extracted payloads never raises. *)
Lemma total_data_points_extracted (values : list (option RawData)) :
  Forall (fun data => data = None \/ exists s, data = extracted w0 s itv) values ->
  forall a : Z, exists p, total_data_points values a = Ok p /\ a <= p.
Proof.
  induction values as [|data values IH]; intros Hall a.
  - exists a. split; [reflexivity|lia].
  - apply Forall_cons in Hall as [Hdata Hall].
    cbn [total_data_points].
    destruct data as [raw|]; [|apply (IH Hall)].
    destruct Hdata as [Hd|[s Hs]]; [discriminate|].
    destruct (extracted_has_length w0 s itv raw (eq_sym Hs))
      as (ts & n & Hts & Hlen & Hn).
    destruct (raw_data_empty raw); [apply (IH Hall)|].
    rewrite Hts, Hlen.
    destruct (IH Hall (a + n)) as (p & Hp & Hle). exists p. split; [exact Hp|lia].
Qed.

End BatchStats.

Lemma _ensure_db_connection_accepted `{PyRuntime} (w : World) :
  (forall k q, engine_refuses w k q = false) ->
  exists w',
    _ensure_db_connection w = (w', Ok tt)
    /\ connection_pool w' = true /\ tables w' = tables w
    /\ engine_refuses w' = engine_refuses w /\ provider w' = provider w
    /\ utcnow w' = utcnow w.
Proof.
  intros Hall.
  unfold _ensure_db_connection, init_connection_pool.
  destruct (connection_pool w) eqn:Hpool; cbn.
  - exists w. repeat split; auto.
  - rewrite Hall. eexists. split; [reflexivity|]. repeat split.
Qed.

Section BatchPipeline.
Context `{PyRuntime} `{PyArith}.
Variable note : Level -> BatchMsg -> M unit.
Hypothesis Hnote : only_logs note.

Lemma load_multiple_stocks_run (w0 : World) (itv : string) (symbols : list string)
    (w : World) :
  NoDup symbols ->
  connection_pool w = true ->
  (forall k q, engine_refuses w k q = false) ->
  utcnow w = utcnow w0 ->
  (forall s, s ∈ symbols -> expected_records w0 s itv <> [] ->
             stock_known w (upper s) = true) ->
  exists w',
    load_multiple_stocks note
      ((fun s => (s, extracted w0 s itv ≫= transformed w0)) <$> symbols) w
    = (w', Ok ((fun s => (s, load_outcome w0 itv s)) <$> symbols))
    /\ steady w w'
    /\ etl_job_logs (tables w')
       = etl_job_logs (tables w) ++ omap (success_row w0 itv) symbols.
Proof.
  intros Hnd Hpool Hall Hu Hheld. unfold load_multiple_stocks. note_step Hnote.
  pose proof (but_log_fields _ _ Hb) as (Hpn & Hen & Htn & Hun & _).
  destruct (load_items_run note Hnote w0 itv symbols [] wn Hnd)
    as (w1 & Hrun & Hst & _ & Hlog).
  { intros s _. apply not_elem_of_nil. }
  { congruence. }
  { intros k q. rewrite Hen. apply Hall. }
  { congruence. }
  { intros s Hs Hrs. unfold stock_known. rewrite Htn. apply (Hheld s Hs Hrs). }
  rewrite (bind_run _ _ _ _ _ Hrun). note_step Hnote.
  exists wn0. split; [reflexivity|].
  split.
  - apply (steady_trans _ wn); [apply steady_but_log; exact Hb|].
    apply (steady_trans _ w1); [exact Hst|apply steady_but_log; exact Hb0].
  - pose proof (but_log_fields _ _ Hb0) as (_ & _ & Ht0 & _).
    rewrite Ht0, Hlog, Htn. reflexivity.
Qed.

(** The run of [run_etl_pipeline] when the engine takes every statement and
    the store holds the stock of every symbol with valid records. *)
Lemma run_etl_pipeline_accepted (symbols : list string) (itv : string) (w : World) :
  NoDup symbols ->
  (forall k q, engine_refuses w k q = false) ->
  (forall s, s ∈ symbols -> expected_records w s itv <> [] ->
             stock_known w (upper s) = true) ->
  exists w' extraction_stats,
    _get_extraction_stats ((fun s => (s, extracted w s itv)) <$> symbols)
    = Ok extraction_stats
    /\ run_etl_pipeline note symbols itv w
       = (w',
          Ok (let loading_stats :=
                get_loading_stats ((fun s => (s, load_outcome w itv s)) <$> symbols) in
              {| pipeline_metadata :=
                   {| pm_start_time := utcnow w; pm_end_time := utcnow w;
                      pm_duration_seconds := total_seconds (utcnow w) (utcnow w);
                      pm_symbols_processed := Z.of_nat (length symbols);
                      pm_interval := itv |};
                 extraction := extraction_stats;
                 transformation :=
                   get_transformation_stats
                     ((fun s => (s, extracted w s itv ≫= transformed w)) <$> symbols);
                 loading := loading_stats;
                 overall_success_rate := ls_success_rate loading_stats;
                 total_records_processed := ls_total_loaded_records loading_stats |}))
    /\ etl_job_logs (tables w')
       = etl_job_logs (tables w) ++ omap (success_row w itv) symbols.
Proof.
  intros Hnd Hall Hheld.
  assert (Hstats : exists st, _get_extraction_stats
                                ((fun s => (s, extracted w s itv)) <$> symbols) = Ok st).
  { unfold _get_extraction_stats.
    destruct (total_data_points_extracted w itv
                (dict_values ((fun s => (s, extracted w s itv)) <$> symbols))) with (a := 0)
      as (p & Hp & _).
    - unfold dict_values. rewrite <- list_fmap_compose.
      apply Forall_fmap, Forall_forall. intros s _. right. exists s. reflexivity.
    - rewrite Hp. eauto. }
  destruct Hstats as (st & Hst).
  unfold run_etl_pipeline.
  rewrite (bind_run get_utcnow _ w w (utcnow w) eq_refl).
  note_step Hnote.
  pose proof (but_log_fields _ _ Hb) as (_ & He0 & Ht0 & Hu0 & Hp0).
  destruct (_ensure_db_connection_accepted wn)
    as (wb & Hrunb & Hpoolb & Htb & Heb & Hpb & Hub).
  { intros k q. rewrite He0. apply Hall. }
  rewrite (bind_run _ _ _ _ _ Hrunb).
  note_step Hnote.
  pose proof (but_log_fields _ _ Hb0) as (Hp1 & He1 & Ht1 & Hu1 & Hpr1).
  destruct (extract_multiple_stocks_run note Hnote symbols itv wn0 Hnd)
    as (w2 & Hrun2 & Hb2).
  rewrite (bind_run _ _ _ _ _ Hrun2).
  pose proof (but_log_fields _ _ Hb2) as (Hp2 & He2 & Ht2 & Hu2 & Hpr2).
  note_step Hnote.
  pose proof (but_log_fields _ _ Hb1) as (Hp3 & He3 & Ht3 & Hu3 & Hpr3).
  destruct (transform_multiple_stocks_run note Hnote
              ((fun s => (s, extracted wn0 s itv)) <$> symbols) wn1)
    as (w4 & Hrun4 & Hb4).
  { rewrite <- list_fmap_compose. cbn. rewrite list_fmap_id. exact Hnd. }
  rewrite (bind_run _ _ _ _ _ Hrun4).
  pose proof (but_log_fields _ _ Hb4) as (Hp4 & He4 & Ht4 & Hu4 & Hpr4).
  note_step Hnote.
  pose proof (but_log_fields _ _ Hb3) as (Hp5 & He5 & Ht5 & Hu5 & Hpr5).
  assert (Hraw : (fun s => (s, extracted wn0 s itv)) <$> symbols
                 = (fun s => (s, extracted w s itv)) <$> symbols).
  { apply list_fmap_ext. intros i s _. f_equal. apply extracted_env; congruence. }
  assert (Htr : (fun p : string * option RawData => (p.1, p.2 ≫= transformed wn1))
                  <$> ((fun s => (s, extracted wn0 s itv)) <$> symbols)
                = (fun s => (s, extracted w s itv ≫= transformed w)) <$> symbols).
  { rewrite <- list_fmap_compose. apply list_fmap_ext. intros i s _. cbn.
    f_equal. rewrite (extracted_env s itv wn0 w) by congruence.
    destruct (extracted w s itv) as [raw|]; [|reflexivity]. cbn.
    apply transformed_env. congruence. }
  rewrite Hraw, Htr in *.
  destruct (load_multiple_stocks_run w itv symbols wn2 Hnd)
    as (w6 & Hrun6 & (Hp6 & He6 & Hpr6 & Hu6) & Hlog6).
  { congruence. }
  { intros k q. rewrite He5, He4, He3, He2, He1, Heb, He0. apply Hall. }
  { congruence. }
  { intros s Hs Hrs. unfold stock_known.
    replace (tables wn2) with (tables w) by congruence. apply (Hheld s Hs Hrs). }
  rewrite (bind_run _ _ _ _ _ Hrun6).
  rewrite (bind_run get_utcnow _ w6 w6 (utcnow w6) eq_refl).
  rewrite (bind_run (lift (_get_extraction_stats _)) _ w6 w6 st)
    by (unfold lift; rewrite Hst; reflexivity).
  do 3 note_step Hnote.
  pose proof (but_log_fields _ _ Hb5) as (_ & _ & Ht7 & _).
  pose proof (but_log_fields _ _ Hb6) as (_ & _ & Ht8 & _).
  pose proof (but_log_fields _ _ Hb7) as (_ & _ & Ht9 & _).
  exists wn5, st. split; [exact Hst|].
  split.
  { unfold ret. cbn zeta. rewrite Hu6, Hu5, Hu4, Hu3, Hu2, Hu1, Hub, Hu0.
    reflexivity. }
  assert (Htabs : tables wn2 = tables w) by congruence.
  rewrite Ht9, Ht8, Ht7, Hlog6, Htabs. reflexivity.
Qed.

End BatchPipeline.

Lemma silent_only_logs {Msg : Type} : only_logs (@silent Msg).
Proof. intros lvl msg w. split; reflexivity. Qed.

Lemma success_rows_entries `{PyRuntime} (w : World) (itv : string)
    (symbols : list string) :
  audit_entry <$> omap (success_row w itv) symbols
  = omap (success_entry w itv) symbols.
Proof.
  induction symbols as [|sym symbols IH]; [reflexivity|].
  cbn [omap list_omap]. unfold success_row at 1, success_entry at 1.
  destruct (expected_records w sym itv); [exact IH|].
  rewrite fmap_cons, IH. reflexivity.
Qed.

(** X14.  The batch pipeline loads every valid record of the stocks the
    store holds.  When the engine takes every statement, the symbols are
    distinct and the store holds the stock of every symbol that has a valid
    record, [run_etl_pipeline] returns its statistics: the records processed, attempted and transformed
    all come to the number of valid records the provider holds for the
    symbols, the successful symbols of the last two phases are those with at
    least one valid record, and the extraction phase counts every symbol.  The
    audit log gets one SUCCESS row per symbol with valid records, in the order
    of the symbols, and no row for any other symbol (the rows are compared by
    [audit_entry], their timestamps apart). *)
Theorem batch_pipeline_loads_every_valid_record `{PyRuntime} `{PyArith}
    (note : Level -> BatchMsg -> M unit) (symbols : list string) (itv : string)
    (w : World) :
  only_logs note ->
  NoDup symbols ->
  (forall k q, engine_refuses w k q = false) ->
  (forall s, s ∈ symbols -> expected_records w s itv <> [] ->
             stock_known w (upper s) = true) ->
  let w' := fst (run_etl_pipeline note symbols itv w) in
  let counts := valid_counts w itv symbols in
  exists res,
    snd (run_etl_pipeline note symbols itv w) = Ok res
    /\ total_records_processed res = sum_list counts
    /\ ls_total_loaded_records (loading res) = sum_list counts
    /\ ls_total_price_records (loading res) = sum_list counts
    /\ ts_total_price_records (transformation res) = sum_list counts
    /\ ls_successful_symbols (loading res) = count_if (fun n => 0 <? n) counts
    /\ ts_successful_symbols (transformation res) = count_if (fun n => 0 <? n) counts
    /\ es_total_symbols (extraction res) = Z.of_nat (length symbols)
    /\ es_successful_extractions (extraction res)
       = count_if (fun s => bool_decide (is_Some (extracted w s itv))) symbols
    /\ pm_symbols_processed (pipeline_metadata res) = Z.of_nat (length symbols)
    /\ audit_entry <$> etl_job_logs (tables w')
       = (audit_entry <$> etl_job_logs (tables w))
         ++ omap (success_entry w itv) symbols.
Proof.
  intros Hnote Hnd Hall Hheld. cbn zeta.
  destruct (run_etl_pipeline_accepted note Hnote symbols itv w Hnd Hall Hheld)
    as (w' & st & Hst & Hrun & Hlog).
  rewrite Hrun. cbn [fst snd]. eexists. split; [reflexivity|].
  cbn zeta.
  cbn [total_records_processed loading transformation extraction pipeline_metadata
       pm_symbols_processed].
  assert (Hvals : forall (V : Type) (f : string -> V),
             dict_values ((fun s => (s, f s)) <$> symbols) = f <$> symbols).
  { intros V f. unfold dict_values. rewrite <- list_fmap_compose. reflexivity. }
  unfold get_loading_stats, get_transformation_stats.
  cbn [ls_total_loaded_records ls_total_price_records ls_successful_symbols
       ts_total_price_records ts_successful_symbols].
  rewrite !Hvals, loading_totals_outcomes, count_loaded_outcomes,
    count_transformed_outcomes, total_records_outcomes.
  cbn [fst snd].
  do 6 (split; [first [reflexivity | lia]|]).
  unfold _get_extraction_stats in Hst. rewrite Hvals in Hst.
  destruct (total_data_points _ 0); [|discriminate]. injection Hst as <-.
  cbn [es_total_symbols es_successful_extractions].
  rewrite length_fmap.
  split; [reflexivity|].
  split; [|split; [reflexivity
                  |rewrite Hlog, fmap_app, success_rows_entries; reflexivity]].
  clear. induction symbols as [|s symbols IH]; [reflexivity|].
  rewrite fmap_cons, !count_if_cons, IH. reflexivity.
Qed.

(** Witness of X14: the symbols A, B and C of the example on a store that
    holds the stocks A and C, with a logger that records nothing; eleven
    records are loaded and two rows written. *)
Lemma batch_pipeline_loads_every_valid_record_witness :
  only_logs (@silent BatchMsg)
  /\ NoDup ["A"; "B"; "C"]
  /\ stock_known abc_listed_world "A" = true
  /\ expected_records abc_listed_world "B" "5min" = []
  /\ stock_known abc_listed_world "C" = true
  /\ exists res,
      snd (run_etl_pipeline silent ["A"; "B"; "C"] "5min" abc_listed_world) = Ok res
      /\ total_records_processed res = 11
      /\ audit_entry
         <$> etl_job_logs (tables (fst (run_etl_pipeline silent ["A"; "B"; "C"]
                                          "5min" abc_listed_world)))
         = [("intraday_etl_A", SUCCESS, 2, 2, None);
            ("intraday_etl_C", SUCCESS, 9, 9, None)].
Proof.
  assert (Hnd : NoDup ["A"; "B"; "C"])     by (repeat (apply NoDup_cons_2;
                  [intros Hin;
                   repeat (apply elem_of_cons in Hin as [Hin|Hin]; [discriminate|]);
                   apply elem_of_nil in Hin; exact Hin|]);
        apply NoDup_nil_2).
  assert (HB : expected_records abc_listed_world "B" "5min" = [])
    by (vm_compute; reflexivity).
  assert (Hheld : forall s, s ∈ ["A"; "B"; "C"] ->
             expected_records abc_listed_world s "5min" <> [] ->
             stock_known abc_listed_world (upper s) = true).
  { intros s Hs Hrs.
    repeat (apply elem_of_cons in Hs as [->|Hs];
            [first [reflexivity | contradiction]|]).
    apply elem_of_nil in Hs. contradiction. }
  split; [exact silent_only_logs|]. split; [exact Hnd|].
  split; [reflexivity|]. split; [exact HB|]. split; [reflexivity|].
  destruct (batch_pipeline_loads_every_valid_record silent ["A"; "B"; "C"] "5min"
              abc_listed_world silent_only_logs Hnd (fun _ _ => eq_refl) Hheld)
    as (res & Hres & Htotal & _ & _ & _ & _ & _ & _ & _ & _ & Hlog).
  exists res. split; [exact Hres|].
  split; [rewrite Htotal; vm_compute; reflexivity|].
  rewrite Hlog. vm_compute. reflexivity.
Defined.

Lemma dict_set_values {V : Type} (P : V -> Prop) (key : string) (v : V) (d : PyDict V) :
  P v -> Forall P (dict_values d) -> Forall P (dict_values (dict_set key v d)).
Proof.
  unfold dict_values. intros Hv.
  induction d as [|[k x] d IH]; intros Hall; cbn [dict_set].
  - repeat constructor. exact Hv.
  - rewrite fmap_cons in Hall. apply Forall_cons in Hall as [Hx Hall].
    destruct (String.eqb k key); rewrite fmap_cons; constructor; auto.
Qed.

Section BatchReturns.
Context `{PyRuntime} `{PyArith}.
Variable note : Level -> BatchMsg -> M unit.
Hypothesis Hnote : only_logs note.

(** Whatever the symbols, the extraction loop returns a dictionary of
    extracted payloads and changes nothing but the log. *)
Lemma extract_symbols_returns (w0 : World) (itv : string) (symbols : list string) :
  forall (results : PyDict (option RawData)) (w : World),
    provider w = provider w0 -> utcnow w = utcnow w0 ->
    Forall (fun data => data = None \/ exists s, data = extracted w0 s itv)
      (dict_values results) ->
    exists w' results',
      extract_symbols note symbols itv results w = (w', Ok results')
      /\ but_log w' = but_log w
      /\ Forall (fun data => data = None \/ exists s, data = extracted w0 s itv)
           (dict_values results').
Proof.
  induction symbols as [|sym symbols IH]; intros results w Hp Hu Hall.
  - exists w, results. auto.
  - cbn [extract_symbols]. note_step Hnote.
    pose proof (but_log_fields _ _ Hb) as (_ & _ & _ & Hun & Hpn).
    pose proof (extract_intraday_data_run sym itv wn) as ([o Ho] & _).
    pose proof (extract_intraday_data_but_log sym itv wn) as Hbl.
    destruct (extract_intraday_data sym itv wn) as [w1 r1] eqn:Erun;
      cbn [fst snd] in *. subst r1.
    rewrite (bind_run _ _ _ _ _ Erun).
    pose proof (but_log_fields _ _ Hbl) as (_ & _ & _ & Hu1 & Hp1).
    assert (Hval : o = extracted w0 sym itv).
    { rewrite <- (extracted_env sym itv wn w0) by congruence.
      unfold extracted. rewrite Erun. reflexivity. }
    destruct (IH (dict_set sym o results) w1) as (w' & results' & Hrun & Hb' & Hall');
      [congruence|congruence| |].
    { apply dict_set_values; [right; eauto|exact Hall]. }
    exists w', results'. split; [exact Hrun|]. split; [congruence|exact Hall'].
Qed.

Lemma transform_items_returns (items : list (string * option RawData)) :
  forall (acc : PyDict (option TransformedData)) (w : World),
    exists w' results,
      transform_items note items acc w = (w', Ok results) /\ but_log w' = but_log w.
Proof.
  induction items as [|[sym [raw|]] items IH]; intros acc w.
  - exists w, acc. auto.
  - cbn [transform_items]. note_step Hnote.
    pose proof (transform_intraday_data_value raw wn) as (o2 & Ho2 & _).
    pose proof (transform_intraday_data_but_log raw wn) as Hbl.
    destruct (transform_intraday_data raw wn) as [w1 r1] eqn:Erun;
      cbn [fst snd] in *. subst r1.
    rewrite (bind_run _ _ _ _ _ Erun).
    destruct (IH (dict_set sym o2 acc) w1) as (w' & results & Hrun & Hb').
    exists w', results. split; [exact Hrun|congruence].
  - cbn [transform_items]. note_step Hnote.
    destruct (IH (dict_set sym None acc) wn) as (w' & results & Hrun & Hb').
    exists w', results. split; [exact Hrun|congruence].
Qed.

Lemma extract_multiple_stocks_returns (w0 : World) (symbols : list string)
    (itv : string) (w : World) :
  provider w = provider w0 -> utcnow w = utcnow w0 ->
  exists w' results,
    extract_multiple_stocks note symbols itv w = (w', Ok results)
    /\ but_log w' = but_log w
    /\ Forall (fun data => data = None \/ exists s, data = extracted w0 s itv)
         (dict_values results).
Proof.
  intros Hp Hu. unfold extract_multiple_stocks. note_step Hnote.
  pose proof (but_log_fields _ _ Hb) as (_ & _ & _ & Hu1 & Hp1).
  destruct (extract_symbols_returns w0 itv symbols [] wn)
    as (w3 & raw & Hrun3 & Hb3 & Hraw); [congruence|congruence|constructor|].
  rewrite (bind_run _ _ _ _ _ Hrun3). note_step Hnote.
  exists wn0, raw. split; [reflexivity|]. split; [congruence|exact Hraw].
Qed.

Lemma transform_multiple_stocks_returns (raw_data_dict : PyDict (option RawData))
    (w : World) :
  exists w' results,
    transform_multiple_stocks note raw_data_dict w = (w', Ok results)
    /\ but_log w' = but_log w.
Proof.
  unfold transform_multiple_stocks. note_step Hnote.
  destruct (transform_items_returns raw_data_dict [] wn) as (w5 & tr & Hrun5 & Hb5).
  rewrite (bind_run _ _ _ _ _ Hrun5). note_step Hnote.
  exists wn0, tr. split; [reflexivity|congruence].
Qed.

Lemma load_multiple_stocks_returns
    (transformed_data_dict : PyDict (option TransformedData)) (w : World) :
  exists w' results,
    load_multiple_stocks note transformed_data_dict w = (w', Ok results).
Proof.
  unfold load_multiple_stocks. note_step Hnote.
  destruct (load_items_returns note Hnote transformed_data_dict [] wn)
    as (w8 & ld & Hrun8 & _).
  rewrite (bind_run _ _ _ _ _ Hrun8). note_step Hnote.
  exists wn0, ld. reflexivity.
Qed.

(** After the pool is ensured, the rest of [run_etl_pipeline] returns. *)
Lemma run_etl_pipeline_returns (symbols : list string) (itv : string) (w : World) :
  connection_pool w = true \/ engine_refuses w (requests w) Connect = false ->
  exists w' res,
    run_etl_pipeline note symbols itv w = (w', Ok res)
    /\ pm_symbols_processed (pipeline_metadata res) = Z.of_nat (length symbols)
    /\ pm_interval (pipeline_metadata res) = itv
    /\ total_records_processed res = ls_total_loaded_records (loading res)
    /\ overall_success_rate res = ls_success_rate (loading res).
Proof.
  intros Hpool.
  unfold run_etl_pipeline.
  rewrite (bind_run get_utcnow _ w w (utcnow w) eq_refl).
  note_step Hnote.
  pose proof (but_log_fields _ _ Hb) as (Hp0 & He0 & Ht0 & Hu0 & Hpr0).
  assert (Hr0 : requests wn = requests w)
    by (unfold but_log in Hb; congruence).
  assert (Hens : exists wb, _ensure_db_connection wn = (wb, Ok tt)
                            /\ provider wb = provider w /\ utcnow wb = utcnow w).
  { unfold _ensure_db_connection, init_connection_pool.
    rewrite Hp0, He0, Hr0.
    destruct (connection_pool w) eqn:Hcp; cbn; [eauto|].
    destruct Hpool as [?|Hacc]; [discriminate|]. rewrite Hacc.
    eexists. split; [reflexivity|]. cbn. auto. }
  destruct Hens as (wb & Hrunb & Hpb & Hub).
  rewrite (bind_run _ _ _ _ _ Hrunb).
  note_step Hnote.
  pose proof (but_log_fields _ _ Hb0) as (_ & _ & _ & Hu1 & Hp1).
  destruct (extract_multiple_stocks_returns w symbols itv wn0)
    as (w3 & raw & Hrun3 & _ & Hraw); [congruence|congruence|].
  rewrite (bind_run _ _ _ _ _ Hrun3). note_step Hnote.
  destruct (transform_multiple_stocks_returns raw wn1) as (w5 & tr & Hrun5 & _).
  rewrite (bind_run _ _ _ _ _ Hrun5). note_step Hnote.
  destruct (load_multiple_stocks_returns tr wn2) as (w8 & ld & Hrun8).
  rewrite (bind_run _ _ _ _ _ Hrun8).
  rewrite (bind_run get_utcnow _ w8 w8 (utcnow w8) eq_refl).
  assert (Hstats : exists st, _get_extraction_stats raw = Ok st).
  { unfold _get_extraction_stats.
    destruct (total_data_points_extracted w itv (dict_values raw) Hraw 0)
      as (p & Hp & _).
    rewrite Hp. eauto. }
  destruct Hstats as (st & Hst).
  rewrite (bind_run (lift (_get_extraction_stats raw)) _ w8 w8 st)
    by (unfold lift; rewrite Hst; reflexivity).
  do 3 note_step Hnote.
  eexists _, _. split; [reflexivity|]. cbn. auto.
Qed.

End BatchReturns.

(** X15.  [run_etl_pipeline] needs the pool.  It ensures the pool outside
    any [try]: when there is no pool and the engine refuses the connection,
    it raises the error of the engine and touches no table, where
    [process_multiple_stocks_intraday] returns a count for every symbol; in
    every other case it returns its statistics, for the given number of
    symbols and the given interval, whatever the provider answers and
    whatever the engine does with the statements. *)
Theorem batch_pipeline_needs_the_pool `{PyRuntime} `{PyArith}
    (note : Level -> BatchMsg -> M unit) (symbols : list string) (itv : string)
    (w : World) :
  only_logs note ->
  (connection_pool w = false ->
   engine_refuses w (requests w) Connect = true ->
   snd (run_etl_pipeline note symbols itv w)
   = Err (DatabaseError "could not connect to server")
   /\ tables (fst (run_etl_pipeline note symbols itv w)) = tables w
   /\ exists results,
       snd (process_multiple_stocks_intraday symbols itv w) = Ok results
       /\ forall s, s ∈ symbols -> is_Some (results !! s))
  /\ (connection_pool w = true \/ engine_refuses w (requests w) Connect = false ->
      exists res,
        snd (run_etl_pipeline note symbols itv w) = Ok res
        /\ pm_symbols_processed (pipeline_metadata res) = Z.of_nat (length symbols)
        /\ pm_interval (pipeline_metadata res) = itv
        /\ total_records_processed res = ls_total_loaded_records (loading res)
        /\ overall_success_rate res = ls_success_rate (loading res)).
Proof.
  intros Hnote. split.
  - intros Hpool Hrefuse.
    split; [|split].
    + unfold run_etl_pipeline.
      rewrite (bind_run get_utcnow _ w w (utcnow w) eq_refl).
      note_step Hnote.
      pose proof (but_log_fields _ _ Hb) as (Hp0 & He0 & _).
      assert (Hr0 : requests wn = requests w) by (unfold but_log in Hb; congruence).
      erewrite bind_raises; [reflexivity|].
      unfold _ensure_db_connection, init_connection_pool.
      rewrite Hp0, He0, Hr0, Hpool, Hrefuse. reflexivity.
    + unfold run_etl_pipeline.
      rewrite (bind_run get_utcnow _ w w (utcnow w) eq_refl).
      note_step Hnote.
      pose proof (but_log_fields _ _ Hb) as (Hp0 & He0 & Ht0 & _).
      assert (Hr0 : requests wn = requests w) by (unfold but_log in Hb; congruence).
      erewrite bind_raises.
      2:{ unfold _ensure_db_connection, init_connection_pool.
          rewrite Hp0, He0, Hr0, Hpool, Hrefuse. reflexivity. }
      cbn. exact Ht0.
    + unfold process_multiple_stocks_intraday, bind, logger, ret. cbn [fst snd].
      set (w0 := with_log w _).
      destruct (process_symbols_run itv symbols ∅ w0)
        as (results & Hres & _ & _ & Hin & _).
      destruct (process_symbols symbols itv ∅ w0) as [w1 r1]; cbn [fst snd] in *.
      subst r1. exists results. split; [reflexivity|].
      intros s Hs. destruct (Hin s Hs) as (n & Hn & _). eauto.
  - intros Hpool.
    destruct (run_etl_pipeline_returns note Hnote symbols itv w Hpool)
      as (w' & res & Hrun & Hrest).
    exists res. rewrite Hrun. split; [reflexivity|exact Hrest].
Qed.

(** Witness of X15: an engine that refuses the connection. *)
Lemma batch_pipeline_needs_the_pool_witness :
  only_logs (@silent BatchMsg)
  /\ connection_pool (fresh_world (fun _ _ => true) abc_provider) = false
  /\ snd (run_etl_pipeline silent ["A"; "B"] "5min"
            (fresh_world (fun _ _ => true) abc_provider))
     = Err (DatabaseError "could not connect to server")
  /\ exists results,
      snd (process_multiple_stocks_intraday ["A"; "B"] "5min"
             (fresh_world (fun _ _ => true) abc_provider)) = Ok results.
Proof.
  split; [exact silent_only_logs|]. split; [reflexivity|].
  destruct (proj1 (batch_pipeline_needs_the_pool silent ["A"; "B"] "5min"
                     (fresh_world (fun _ _ => true) abc_provider) silent_only_logs)
              eq_refl eq_refl) as (Hraise & _ & results & Hres & _).
  split; [exact Hraise|]. exists results. exact Hres.
Defined.

(** ** The polling manager: batches *)

Section BatchRun.
Context `{PyRuntime}.

Lemma process_symbols_env (itv : string) (symbols : list string) :
  forall (results : gmap string Z) (w : World),
    let w' := fst (process_symbols symbols itv results w) in
    engine_refuses w' = engine_refuses w /\ provider w' = provider w
    /\ utcnow w' = utcnow w.
Proof.
  induction symbols as [|sym symbols IH]; intros results w; cbn zeta.
  - cbn. auto.
  - destruct (process_stock_intraday_count sym itv w) as (n & Hn & _).
    destruct (process_stock_intraday_starts sym itv w) as (_ & He & Hp & Hu).
    destruct (process_stock_intraday sym itv w) as [w1 r1] eqn:Erun;
      cbn [fst snd] in *. subst r1.
    assert (Hstep : process_symbols (sym :: symbols) itv results w
                    = process_symbols symbols itv (<[sym := n]> results) w1).
    { cbn [process_symbols]. unfold bind, try_except, ret. rewrite Erun.
      reflexivity. }
    rewrite Hstep.
    destruct (IH (<[sym := n]> results) w1) as (He' & Hp' & Hu').
    repeat split; congruence.
Qed.

(** A batch run, as a run: an entry for each of its symbols and for no
    other, each within the number of valid records of its symbol; the
    stocks table is left alone. *)
Lemma process_multiple_stocks_intraday_run (symbols : list string) (itv : string)
    (w : World) :
  exists w' results,
    process_multiple_stocks_intraday symbols itv w = (w', Ok results)
    /\ engine_refuses w' = engine_refuses w /\ provider w' = provider w
    /\ utcnow w' = utcnow w
    /\ stocks_view w' = stocks_view w
    /\ (forall s, is_Some (results !! s) <-> s ∈ symbols)
    /\ (forall s, s ∈ symbols ->
          exists n, results !! s = Some n
            /\ 0 <= n <= Z.of_nat (length (expected_records w s itv))
            /\ ((forall k q, engine_refuses w k q = false) ->
                stock_known w (upper s) = true ->
                n = Z.of_nat (length (expected_records w s itv)))
            /\ (stock_known w (upper s) = false -> n = 0)).
Proof.
  set (w0 := with_log w ((INFO, StartingBatch (Z.of_nat (length symbols))) :: log w)).
  destruct (process_symbols_run itv symbols ∅ w0)
    as (results & Hres & _ & Hkeep & Hin & Hsv).
  destruct (process_symbols_env itv symbols ∅ w0) as (He & Hp & Hu).
  assert (Hexp : forall s, expected_records w0 s itv = expected_records w s itv)
    by (intros s; apply expected_records_env; reflexivity).
  destruct (process_symbols symbols itv ∅ w0) as [w1 r1] eqn:Eloop;
    cbn [fst snd] in *.
  subst r1.
  assert (Hrun : process_multiple_stocks_intraday symbols itv w
                 = (with_log w1 ((INFO, BatchCompleted (sum_values results)) :: log w1),
                    Ok results)).
  { unfold process_multiple_stocks_intraday, bind, logger, ret. fold w0.
    rewrite Eloop. reflexivity. }
  rewrite Hrun. eexists _, results. split; [reflexivity|].
  cbn [engine_refuses provider utcnow with_log].
  do 3 (split; [assumption|]).
  split; [exact Hsv|].
  split.
  - intros s. split.
    + intros Hsome. destruct (decide (s ∈ symbols)) as [Hs|Hs]; [exact Hs|].
      rewrite (Hkeep s Hs), lookup_empty in Hsome. destruct Hsome; discriminate.
    + intros Hs. destruct (Hin s Hs) as (n & Hn & _). eauto.
  - intros s Hs. destruct (Hin s Hs) as (n & Hn & Hb & Hf & Hz).
    rewrite Hexp in Hb, Hf. exists n. auto.
Qed.

End BatchRun.

(** *** Slices *)

Lemma slice_subseteq {A : Type} (l : list A) (i j : Z) (x : A) :
  x ∈ slice l i j -> x ∈ l.
Proof.
  unfold slice. intros Hin.
  apply (subseteq_drop (Z.to_nat i) l), (subseteq_take (Z.to_nat (j - i))), Hin.
Qed.

(** Every position of a list falls into the slice of one start index. *)
Lemma slices_cover {A : Type} (l : list A) (step : Z) (x : A) :
  0 < step ->
  x ∈ l ->
  exists i starts,
    py_range (Z.of_nat (length l)) step = Ok starts
    /\ i ∈ starts /\ x ∈ slice l i (i + step).
Proof.
  intros Hstep Hin.
  apply list_elem_of_lookup in Hin as [p Hp].
  pose proof (lookup_lt_Some _ _ _ Hp) as Hlt.
  unfold py_range.
  replace (step =? 0) with false by (symmetry; apply Z.eqb_neq; lia).
  replace (step <? 0) with false by (symmetry; apply Z.ltb_ge; lia).
  set (k := Z.to_nat (Z.of_nat p / step)).
  assert (Hk : Z.of_nat k = Z.of_nat p / step).
  { unfold k. rewrite Z2Nat.id; [reflexivity|]. apply Z.div_pos; lia. }
  pose proof (Z.mul_div_le (Z.of_nat p) step Hstep) as Hle.
  pose proof (Z.mul_succ_div_gt (Z.of_nat p) step Hstep) as Hgt.
  exists (Z.of_nat k * step). eexists. split; [reflexivity|].
  split.
  - apply list_elem_of_fmap. exists k. split; [reflexivity|].
    apply elem_of_seq. split; [lia|]. cbn.
    apply Nat2Z.inj_lt. rewrite Hk, Z2Nat.id.
    + apply Z.div_lt_upper_bound; [lia|].
      assert (Hc : Z.of_nat (length l) <= step * ((Z.of_nat (length l) + step - 1) / step)).
      { pose proof (Z.mul_succ_div_gt (Z.of_nat (length l) + step - 1) step Hstep).
        lia. }
      lia.
    + apply Z.div_pos; lia.
  - unfold slice. apply list_elem_of_lookup.
    exists (p - Z.to_nat (Z.of_nat k * step))%nat.
    replace (Z.of_nat k * step + step - Z.of_nat k * step) with step by lia.
    rewrite lookup_take_lt by lia.
    rewrite lookup_drop. rewrite <- Hp. f_equal. lia.
Qed.

Section PollingFacts.
Context `{PyRuntime}.
Variable note : Level -> PollingMsg -> M unit.
Hypothesis Hnote : only_logs note.

(** A count that is within the valid records of its symbol: equal to
    their number when the engine takes every statement and the store holds
    the stock, and 0 when the store does not hold the stock. *)
Let good (w0 : World) (itv s : string) (n : Z) : Prop :=
  0 <= n <= Z.of_nat (length (expected_records w0 s itv))
  /\ ((forall k q, engine_refuses w0 k q = false) ->
      stock_known w0 (upper s) = true ->
      n = Z.of_nat (length (expected_records w0 s itv)))
  /\ (stock_known w0 (upper s) = false -> n = 0).

Lemma process_batches_run (w0 : World) (symbols : list string) (itv : string)
    (batch_size : Z) (starts : list Z) :
  forall (all_results : gmap string Z) (w : World),
    engine_refuses w = engine_refuses w0 -> provider w = provider w0 ->
    utcnow w = utcnow w0 -> stocks_view w = stocks_view w0 ->
    exists w' results,
      process_batches note symbols itv batch_size starts all_results w
      = (w', Ok results)
      /\ (forall s, is_Some (results !! s)
                    <-> is_Some (all_results !! s)
                        \/ exists i, i ∈ starts
                                     /\ s ∈ slice symbols i (i + batch_size))
      /\ ((forall s n, all_results !! s = Some n -> good w0 itv s n) ->
          forall s n, results !! s = Some n -> good w0 itv s n).
Proof.
  induction starts as [|i starts IH]; intros all_results w He Hp Hu Hsv.
  - exists w, all_results. split; [reflexivity|].
    split; [|auto].
    intros s. split; [auto|]. intros [Hs|(i & Hi & _)]; [exact Hs|].
    apply elem_of_nil in Hi. contradiction.
  - cbn [process_batches]. cbv zeta. note_step Hnote.
    pose proof (but_log_fields _ _ Hb) as (_ & Hen & Htn & Hun & Hpn).
    assert (Hsvn : stocks_view wn = stocks_view w0)
      by (unfold stocks_view in *; rewrite Htn; exact Hsv).
    set (batch := slice symbols i (i + batch_size)) in *.
    destruct (process_multiple_stocks_intraday_run batch itv wn)
      as (w1 & batch_results & Hrun & He1 & Hp1 & Hu1 & Hsv1 & Hkeys & Hvals).
    assert (Hstep : try_except
                      (let* batch_results := process_multiple_stocks_intraday batch itv in
                       ret (batch_results ∪ all_results))
                      (fun e =>
                         note ERROR (ErrorProcessingBatch batch e) >>
                         ret (foldl (fun results sym => <[sym := 0]> results)
                                all_results batch)) wn
                    = (w1, Ok (batch_results ∪ all_results))).
    { unfold try_except. rewrite (bind_run _ _ _ _ _ Hrun). reflexivity. }
    rewrite (bind_run _ _ _ _ _ Hstep).
    destruct (IH (batch_results ∪ all_results) w1) as (w' & results & Hrun' & Hdom & Hgood);
      [congruence|congruence|congruence|congruence|].
    exists w', results. split; [exact Hrun'|].
    split.
    + intros s. rewrite Hdom, lookup_union, union_is_Some, Hkeys. split.
      * intros [[Hs|Hs]|(j & Hj & Hs)].
        -- right. exists i. split; [apply list_elem_of_here|exact Hs].
        -- left. exact Hs.
        -- right. exists j. split; [apply list_elem_of_further, Hj|exact Hs].
      * intros [Hs|(j & Hj & Hs)]; [left; right; exact Hs|].
        apply elem_of_cons in Hj as [->|Hj]; [left; left; exact Hs|].
        right. exists j. auto.
    + intros Hall. apply Hgood. intros s n Hsn.
      rewrite lookup_union in Hsn.
      destruct (batch_results !! s) as [m|] eqn:Hm.
      * rewrite union_Some_l in Hsn. injection Hsn as <-.
        assert (Hs : s ∈ batch) by (apply Hkeys; rewrite Hm; eauto).
        destruct (Hvals s Hs) as (n' & Hn' & Hbound & Hfull & Hzero).
        assert (n' = m) by congruence. subst n'.
        rewrite (expected_records_env s itv wn w0) in Hbound, Hfull by congruence.
        rewrite (stocks_view_known w0 wn (upper s) Hsvn) in Hfull, Hzero.
        split; [exact Hbound|]. split; [|exact Hzero].
        intros Hacc. apply Hfull. intros k q. rewrite Hen, He. apply Hacc.
      * destruct (all_results !! s) as [m|] eqn:Ha; cbn in Hsn; [|discriminate].
        injection Hsn as <-. apply Hall. exact Ha.
Qed.

End PollingFacts.

(** X17.  Batching is transparent, for a batch size that is positive.
    With a positive batch size [_process_symbols_in_batches] returns an entry
    for each symbol and for no other, each entry a count within the valid
    records the provider holds for the symbol: equal to their number when
    the engine takes every statement and the store holds the stock of the
    symbol, and 0 when the store does not hold it, which is what one run over
    all the symbols gives.  A batch size of zero raises [ValueError] before any symbol is
    processed; a negative batch size returns an empty result and processes no
    symbol. *)
Theorem batching_is_transparent `{PyRuntime}
    (note : Level -> PollingMsg -> M unit) (symbols : list string) (itv : string)
    (batch_size : Z) (w : World) :
  only_logs note ->
  (batch_size = 0 ->
   _process_symbols_in_batches note symbols itv batch_size w
   = (w, Err (ValueError "range() arg 3 must not be zero")))
  /\ (batch_size < 0 ->
      _process_symbols_in_batches note symbols itv batch_size w = (w, Ok ∅))
  /\ (0 < batch_size ->
      exists results,
        snd (_process_symbols_in_batches note symbols itv batch_size w) = Ok results
        /\ (forall s, is_Some (results !! s) <-> s ∈ symbols)
        /\ (forall s, s ∈ symbols ->
              exists n, results !! s = Some n
                /\ 0 <= n <= Z.of_nat (length (expected_records w s itv)))
        /\ ((forall k q, engine_refuses w k q = false) ->
            forall s, s ∈ symbols -> stock_known w (upper s) = true ->
              results !! s = Some (Z.of_nat (length (expected_records w s itv))))
        /\ (forall s, s ∈ symbols -> stock_known w (upper s) = false ->
              results !! s = Some 0)).
Proof.
  intros Hnote. unfold _process_symbols_in_batches, py_range, lift, bind.
  split; [|split].
  - intros ->. reflexivity.
  - intros Hneg.
    replace (batch_size =? 0) with false by (symmetry; apply Z.eqb_neq; lia).
    replace (batch_size <? 0) with true by (symmetry; apply Z.ltb_lt; lia).
    reflexivity.
  - intros Hpos.
    replace (batch_size =? 0) with false by (symmetry; apply Z.eqb_neq; lia).
    replace (batch_size <? 0) with false by (symmetry; apply Z.ltb_ge; lia).
    set (starts := (fun k => Z.of_nat k * batch_size)
                     <$> seq 0 (Z.to_nat ((Z.of_nat (length symbols) + batch_size - 1)
                                          / batch_size))).
    destruct (process_batches_run note Hnote w symbols itv batch_size starts ∅ w
                eq_refl eq_refl eq_refl eq_refl)
      as (w' & results & Hrun & Hdom & Hgood).
    rewrite Hrun. cbn [snd]. exists results. split; [reflexivity|].
    assert (Hkeys : forall s, is_Some (results !! s) <-> s ∈ symbols).
    { intros s. rewrite Hdom, lookup_empty. split.
      - intros [[? ?]|(i & _ & Hs)]; [discriminate|].
        exact (slice_subseteq _ _ _ _ Hs).
      - intros Hs. right.
        destruct (slices_cover symbols batch_size s Hpos Hs) as (i & st & Hst & Hi & Hin).
        unfold py_range in Hst.
        replace (batch_size =? 0) with false in Hst
          by (symmetry; apply Z.eqb_neq; lia).
        replace (batch_size <? 0) with false in Hst
          by (symmetry; apply Z.ltb_ge; lia).
        injection Hst as <-. exists i. auto. }
    assert (Hall : forall s n, results !! s = Some n ->
               0 <= n <= Z.of_nat (length (expected_records w s itv))
               /\ ((forall k q, engine_refuses w k q = false) ->
                   stock_known w (upper s) = true ->
                   n = Z.of_nat (length (expected_records w s itv)))
               /\ (stock_known w (upper s) = false -> n = 0)).
    { apply Hgood. intros s n Hs. rewrite lookup_empty in Hs. discriminate. }
    split; [exact Hkeys|]. split; [|split].
    + intros s Hs. apply Hkeys in Hs as [n Hn]. exists n. split; [exact Hn|].
      apply (Hall s n Hn).
    + intros Hacc s Hs Hk. apply Hkeys in Hs as [n Hn]. rewrite Hn. f_equal.
      apply (Hall s n Hn); assumption.
    + intros s Hs Hk. apply Hkeys in Hs as [n Hn]. rewrite Hn. f_equal.
      apply (Hall s n Hn). exact Hk.
Qed.

(** Witness of X17: the symbols A, B and C of the example in batches of
    two, on a store that holds the stocks A and C. *)
Lemma batching_is_transparent_witness :
  only_logs (@silent PollingMsg)
  /\ exists results,
      snd (_process_symbols_in_batches silent ["A"; "B"; "C"] "5min" 2
             abc_listed_world)
      = Ok results
      /\ results !! "A" = Some 2 /\ results !! "B" = Some 0
      /\ results !! "C" = Some 9.
Proof.
  split; [exact silent_only_logs|].
  destruct (proj2 (proj2 (batching_is_transparent silent ["A"; "B"; "C"] "5min" 2
                            abc_listed_world silent_only_logs)) eq_refl)
    as (results & Hres & _ & _ & Hfull & Hzero).
  assert (HA : "A" ∈ ["A"; "B"; "C"]) by apply list_elem_of_here.
  assert (HB : "B" ∈ ["A"; "B"; "C"])
    by apply list_elem_of_further, list_elem_of_here.
  assert (HC : "C" ∈ ["A"; "B"; "C"])
    by apply list_elem_of_further, list_elem_of_further, list_elem_of_here.
  exists results. split; [exact Hres|].
  split; [rewrite (Hfull (fun _ _ => eq_refl) "A" HA eq_refl); vm_compute;
          reflexivity|].
  split; [exact (Hzero "B" HB eq_refl)|].
  rewrite (Hfull (fun _ _ => eq_refl) "C" HC eq_refl); vm_compute; reflexivity.
Defined.

(** ** The streaming service: a single cycle, and stopping *)

(** X18.  A single cycle returns what the batch run returns.  Whatever the
    callback does, and also when it raises, [run_single_cycle] raises nothing
    and returns an entry for each symbol (the five default symbols when none
    are given) and for no other, each a count within the valid records of the
    symbol: equal to their number when the engine takes every statement and
    the store holds the stock of the symbol, and 0 when the store does not
    hold it; the returned value is the one of a cycle without a callback. *)
Theorem single_cycle_returns_the_batch `{PyRuntime}
    (note : Level -> StreamMsg -> M unit) (symbols : option (list string))
    (callback : option (Z -> gmap string Z -> M unit)) (w : World) :
  only_logs note ->
  let given := match symbols with None => default_symbols | Some l => l end in
  exists results,
    snd (run_single_cycle note symbols callback w) = Ok results
    /\ snd (run_single_cycle note symbols None w) = Ok results
    /\ (forall s, is_Some (results !! s) <-> s ∈ given)
    /\ (forall s, s ∈ given ->
          exists n, results !! s = Some n
            /\ 0 <= n <= Z.of_nat (length (expected_records w s "5min")))
    /\ ((forall k q, engine_refuses w k q = false) ->
        forall s, s ∈ given -> stock_known w (upper s) = true ->
          results !! s = Some (Z.of_nat (length (expected_records w s "5min"))))
    /\ (forall s, s ∈ given -> stock_known w (upper s) = false ->
          results !! s = Some 0).
Proof.
  intros Hnote. cbn zeta.
  set (given := match symbols with None => default_symbols | Some l => l end).
  destruct (note_run note INFO (RunningSingleCycle (Z.of_nat (length given))) w Hnote)
    as (wn & Hr & Hb).
  pose proof (but_log_fields _ _ Hb) as (_ & He & Ht & Hu & Hp).
  assert (Hsv : stocks_view wn = stocks_view w)
    by (unfold stocks_view; rewrite Ht; reflexivity).
  destruct (process_multiple_stocks_intraday_run given "5min" wn)
    as (w1 & results & Hrun & _ & _ & _ & _ & Hkeys & Hvals).
  destruct (note_run note INFO (SingleCycleCompleted (sum_values results)) w1 Hnote)
    as (wn0 & Hr0 & _).
  assert (Hcycle : forall cb,
             snd (run_single_cycle note symbols cb w) = Ok results).
  { intros cb. unfold run_single_cycle. fold given.
    rewrite (bind_run _ _ _ _ _ Hr), (bind_run _ _ _ _ _ Hrun),
      (bind_run _ _ _ _ _ Hr0).
    destruct cb as [cb|]; [|reflexivity].
    unfold bind, try_except, logger, ret.
    destruct (cb 1 results wn0) as [w3 [[]|e]]; reflexivity. }
  exists results.
  split; [apply Hcycle|]. split; [apply Hcycle|]. split; [exact Hkeys|].
  split; [|split].
  - intros s Hs. destruct (Hvals s Hs) as (n & Hn & Hbound & _).
    rewrite (expected_records_env s "5min" wn w Hp Hu) in Hbound. eauto.
  - intros Hacc s Hs Hk. destruct (Hvals s Hs) as (n & Hn & _ & Hfull & _).
    rewrite (expected_records_env s "5min" wn w Hp Hu) in Hfull.
    rewrite (stocks_view_known w wn (upper s) Hsv) in Hfull.
    rewrite Hn. f_equal. apply Hfull; [|exact Hk].
    intros k q. rewrite He. apply Hacc.
  - intros s Hs Hk. destruct (Hvals s Hs) as (n & Hn & _ & _ & Hzero).
    rewrite (stocks_view_known w wn (upper s) Hsv) in Hzero.
    rewrite Hn, (Hzero Hk). reflexivity.
Qed.

(** Witness of X18: one cycle over A and B with a callback that raises, on
    a store that holds the stock A. *)
Lemma single_cycle_returns_the_batch_witness :
  only_logs (@silent StreamMsg)
  /\ exists results,
      snd (run_single_cycle silent (Some ["A"; "B"])
             (Some (fun _ _ => raise (Exception "callback failed")))
             abc_listed_world)
      = Ok results
      /\ results !! "A" = Some 2 /\ results !! "B" = Some 0.
Proof.
  split; [exact silent_only_logs|].
  destruct (single_cycle_returns_the_batch silent (Some ["A"; "B"])
              (Some (fun _ _ => raise (Exception "callback failed")))
              abc_listed_world silent_only_logs)
    as (results & Hres & _ & _ & _ & Hfull & Hzero).
  exists results. split; [exact Hres|].
  split.
  - rewrite (Hfull (fun _ _ => eq_refl) "A" (list_elem_of_here _ _) eq_refl).
    vm_compute; reflexivity.
  - exact (Hzero "B" (list_elem_of_further _ _ _ (list_elem_of_here _ _)) eq_refl).
Defined.

(** X19.  The life cycle of the service.  [stop_streaming] always returns
    [True] and leaves the service not running; it sets the stop event when
    the service was running and changes nothing otherwise, so that a second
    stop is without effect.  After a stop [start_streaming] succeeds again,
    clears the stop event and hands the new arguments to the worker, and a
    start on a running service is refused and changes nothing. *)
Theorem service_life_cycle `{PyRuntime}
    (note : Level -> StreamMsg -> M unit) (self : DataStreamingService) (w : World) :
  only_logs note ->
  exists stopped,
    snd (stop_streaming note self w) = Ok (stopped, true)
    /\ svc_is_running stopped = false
    /\ svc_streaming_thread stopped = svc_streaming_thread self
    /\ svc_stop_event stopped = (svc_is_running self || svc_stop_event self)
    /\ (forall w1, snd (stop_streaming note stopped w1) = Ok (stopped, true))
    /\ (forall symbols interval_minutes max_iterations callback w1,
          exists started,
            snd (start_streaming stopped symbols interval_minutes max_iterations
                   callback w1) = Ok (started, true)
            /\ svc_is_running started = true
            /\ svc_stop_event started = false
            /\ svc_streaming_thread started
               = Some {| wa_symbols := match symbols with
                                       | None => default_symbols
                                       | Some l => l
                                       end;
                         wa_interval_minutes := interval_minutes;
                         wa_max_iterations := max_iterations;
                         wa_callback := callback |}
            /\ (forall symbols2 interval2 max2 callback2 w2,
                  snd (start_streaming started symbols2 interval2 max2 callback2 w2)
                  = Ok (started, false))).
Proof.
  intros Hnote.
  assert (Hidle : forall svc w1, svc_is_running svc = false ->
             snd (stop_streaming note svc w1) = Ok (svc, true)).
  { intros svc w1 Hrun. unfold stop_streaming. rewrite Hrun. cbn [negb].
    note_step Hnote. reflexivity. }
  assert (Hstart : forall svc symbols interval_minutes max_iterations callback w1,
             svc_is_running svc = false ->
             exists started,
               snd (start_streaming svc symbols interval_minutes max_iterations
                      callback w1) = Ok (started, true)
               /\ svc_is_running started = true
               /\ svc_stop_event started = false
               /\ svc_streaming_thread started
                  = Some {| wa_symbols := match symbols with
                                          | None => default_symbols
                                          | Some l => l
                                          end;
                            wa_interval_minutes := interval_minutes;
                            wa_max_iterations := max_iterations;
                            wa_callback := callback |}
               /\ (forall symbols2 interval2 max2 callback2 w2,
                     snd (start_streaming started symbols2 interval2 max2
                            callback2 w2) = Ok (started, false))).
  { intros svc symbols interval_minutes max_iterations callback w1 Hrun.
    unfold start_streaming at 1. rewrite Hrun.
    unfold bind, logger, ret. cbn [fst snd].
    eexists. split; [reflexivity|]. cbn. repeat split. }
  destruct (svc_is_running self) eqn:Hrun.
  - assert (Hstop : snd (stop_streaming note self w)
                    = Ok ({| svc_is_running := false; svc_stop_event := true;
                             svc_streaming_thread := svc_streaming_thread self |},
                          true)).
    { unfold stop_streaming. rewrite Hrun. cbn [negb].
      do 2 note_step Hnote. reflexivity. }
    eexists. split; [exact Hstop|]. cbn [svc_is_running svc_stop_event
                                          svc_streaming_thread orb].
    do 3 (split; [reflexivity|]).
    split; [intros w1; apply Hidle; reflexivity|].
    intros symbols interval_minutes max_iterations callback w1.
    apply Hstart. reflexivity.
  - exists self. split; [apply Hidle; exact Hrun|].
    split; [exact Hrun|]. split; [reflexivity|]. split; [reflexivity|].
    split; [intros w1; apply Hidle; exact Hrun|].
    intros symbols interval_minutes max_iterations callback w1.
    apply Hstart. exact Hrun.
Qed.

(** Witness of X19: a running service is stopped and started again. *)
Lemma service_life_cycle_witness :
  only_logs (@silent StreamMsg)
  /\ exists stopped,
      snd (stop_streaming silent
             {| svc_is_running := true; svc_stop_event := false;
                svc_streaming_thread := None |} blank_world) = Ok (stopped, true)
      /\ svc_stop_event stopped = true
      /\ exists started,
          snd (start_streaming stopped None 5 None None blank_world)
          = Ok (started, true)
          /\ svc_stop_event started = false.
Proof.
  split; [exact silent_only_logs|].
  destruct (service_life_cycle silent
              {| svc_is_running := true; svc_stop_event := false;
                 svc_streaming_thread := None |} blank_world silent_only_logs)
    as (stopped & Hstop & _ & _ & Hevent & _ & Hstart).
  exists stopped. split; [exact Hstop|]. split; [exact Hevent|].
  destruct (Hstart None 5 None None blank_world) as (started & Hres & _ & Hclear & _).
  exists started. split; [exact Hres|exact Hclear].
Defined.

(** ** Continuous polling: the accounting of the cycles *)

Section PollingRounds.
Context `{PyRuntime} `{PyArith}.
Variable note : Level -> PollingMsg -> M unit.
Hypothesis Hnote : only_logs note.

Lemma process_symbols_in_batches_returns (symbols : list string) (itv : string)
    (size : Z) (w : World) :
  0 < size ->
  exists w' results,
    _process_symbols_in_batches note symbols itv size w = (w', Ok results).
Proof.
  intros Hpos. unfold _process_symbols_in_batches, py_range, lift, bind.
  replace (size =? 0) with false by (symmetry; apply Z.eqb_neq; lia).
  replace (size <? 0) with false by (symmetry; apply Z.ltb_ge; lia).
  match goal with
  | |- context [process_batches note symbols itv size ?starts ∅ w] =>
      destruct (process_batches_run note Hnote w symbols itv size starts ∅ w
                  eq_refl eq_refl eq_refl eq_refl) as (w' & results & Hrun & _)
  end.
  exists w', results. exact Hrun.
Qed.

Lemma note_symbol_records_run (items : list (string * Z)) :
  forall w, exists w', note_symbol_records note items w = (w', Ok tt).
Proof.
  induction items as [|[sym count] items IH]; intros w.
  - exists w. reflexivity.
  - cbn [note_symbol_records]. destruct (0 <? count).
    + note_step Hnote. apply IH.
    + unfold ret at 1. unfold bind at 1. apply IH.
Qed.

(** A round with a batch size of zero leaves the loop once the iteration is
    counted. *)
Lemma polling_round_zero_batch (config : PollingConfig) (symbols : list string)
    (c : PollingCounters) (w : World) :
  batch_size config = 0 ->
  exists w',
    polling_round note config symbols c w
    = (w', counted c, Some (ValueError "range() arg 3 must not be zero")).
Proof.
  intros Hzero. unfold polling_round. cbv zeta.
  unfold get_utcnow at 1. unfold bind at 1.
  note_step Hnote.
  unfold _process_symbols_in_batches, py_range, lift. rewrite Hzero.
  cbn [Z.eqb]. unfold bind. exists wn. reflexivity.
Qed.

(** The first part of a round with a positive batch size. *)
Lemma polling_round_batches (config : PollingConfig) (symbols : list string)
    (n : Z) (w : World) :
  0 < batch_size config ->
  exists w1 results,
    (let* cycle_start := get_utcnow in
     note INFO (PollingCycle n cycle_start) >>
     let* batch_results :=
       _process_symbols_in_batches note symbols (interval_of config)
         (batch_size config) in
     ret (cycle_start, batch_results)) w
    = (w1, Ok (utcnow w, results)).
Proof.
  intros Hpos. unfold get_utcnow at 1. unfold bind at 1.
  note_step Hnote.
  destruct (process_symbols_in_batches_returns symbols (interval_of config)
              (batch_size config) wn Hpos) as (w1 & results & Hrun).
  rewrite (bind_run _ _ _ _ _ Hrun). exists w1, results. reflexivity.
Qed.

(** The second part of a round, up to the sleep. *)
Lemma polling_round_sleep (config : PollingConfig) (n records : Z)
    (start : datetime) (results : gmap string Z) (w : World) :
  exists w2,
    ((if 0 <? records
      then note INFO (PollingCycleSuccessful n records)
      else note WARNING (PollingCycleFailed n)) >>
     note_symbol_records note (map_to_list results) >>
     note INFO (PollingNextCycle start (interval_minutes config)) >>
     lift (py_sleep (interval_minutes config * 60))) w
    = (w2, py_sleep (interval_minutes config * 60)).
Proof.
  assert (Hfirst : exists w1,
             (if 0 <? records
              then note INFO (PollingCycleSuccessful n records)
              else note WARNING (PollingCycleFailed n)) w = (w1, Ok tt)).
  { destruct (0 <? records);
      [destruct (note_run note INFO (PollingCycleSuccessful n records) w Hnote)
         as (w1 & Hr & _)
      |destruct (note_run note WARNING (PollingCycleFailed n) w Hnote)
         as (w1 & Hr & _)];
      exists w1; exact Hr. }
  destruct Hfirst as (w1 & Hfirst).
  rewrite (bind_run _ _ _ _ _ Hfirst).
  destruct (note_symbol_records_run (map_to_list results) w1) as (w2 & Hrec).
  rewrite (bind_run _ _ _ _ _ Hrec).
  note_step Hnote. exists wn. reflexivity.
Qed.

(** A round with a positive batch size: one cycle more is counted, as a
    success or as a failure, and the round leaves the loop exactly when the
    sleep raises. *)
Lemma polling_round_counts (config : PollingConfig) (symbols : list string)
    (c : PollingCounters) (w : World) :
  0 < batch_size config ->
  exists w' c',
    polling_round note config symbols c w
    = (w', c', match py_sleep (interval_minutes config * 60) with
               | Ok _ => None
               | Err e => Some e
               end)
    /\ pc_iteration c' = pc_iteration c + 1
    /\ pc_successful_cycles c' + pc_failed_cycles c'
       = pc_successful_cycles c + pc_failed_cycles c + 1
    /\ pc_successful_cycles c <= pc_successful_cycles c'
    /\ pc_failed_cycles c <= pc_failed_cycles c'.
Proof.
  intros Hpos. unfold polling_round. cbv zeta.
  destruct (polling_round_batches config symbols (pc_iteration c + 1) w Hpos)
    as (w1 & results & Hrun).
  cbn [pc_iteration pc_total_records pc_successful_cycles pc_failed_cycles].
  rewrite Hrun.
  destruct (polling_round_sleep config (pc_iteration c + 1) (sum_values results)
              (utcnow w) results w1) as (w2 & Hsleep).
  rewrite Hsleep.
  destruct (py_sleep (interval_minutes config * 60)) as [u|e];
    eexists _, _; (split; [reflexivity|]);
    cbn [pc_iteration pc_total_records pc_successful_cycles pc_failed_cycles];
    destruct (0 <? sum_values results); lia.
Qed.

(** With a cap, a positive batch size and an interval that is not negative
    the loop ends at the cap, every cycle counted once. *)
Lemma polling_loop_reaches_cap (config : PollingConfig) (symbols : list string)
    (cap : Z) :
  max_iterations config = Some cap -> 0 < cap ->
  0 < batch_size config -> 0 <= interval_minutes config ->
  forall (n : nat) (fuel : nat) (c : PollingCounters) (w : World),
    pc_iteration c = cap - Z.of_nat n -> (n < fuel)%nat ->
    exists w' c',
      polling_loop note fuel config symbols c w = Some (w', c', None)
      /\ pc_iteration c' = cap
      /\ pc_successful_cycles c' + pc_failed_cycles c'
         = pc_successful_cycles c + pc_failed_cycles c + Z.of_nat n.
Proof.
  intros Hcap Hcpos Hpos Hint.
  assert (Hsleep : py_sleep (interval_minutes config * 60) = Ok tt).
  { unfold py_sleep.
    replace (interval_minutes config * 60 <? 0) with false
      by (symmetry; apply Z.ltb_ge; lia).
    reflexivity. }
  induction n as [|n IH]; intros fuel c w Hit Hfuel;
    (destruct fuel as [|fuel]; [lia|]); cbn [polling_loop];
    unfold cap_reached; rewrite Hcap.
  - replace (cap =? 0) with false by (symmetry; apply Z.eqb_neq; lia).
    replace (cap <=? pc_iteration c) with true by (symmetry; apply Z.leb_le; lia).
    cbn [negb andb].
    destruct (note_run note INFO (PollingReachedMaximum cap) w Hnote)
      as (w' & Hr & _).
    rewrite Hr. exists w', c. split; [reflexivity|]. split; lia.
  - replace (cap =? 0) with false by (symmetry; apply Z.eqb_neq; lia).
    replace (cap <=? pc_iteration c) with false by (symmetry; apply Z.leb_gt; lia).
    cbn [negb andb].
    destruct (polling_round_counts config symbols c w Hpos)
      as (w1 & c1 & Hround & Hit1 & Hsum1 & _ & _).
    rewrite Hsleep in Hround. rewrite Hround.
    destruct (IH fuel c1 w1) as (w' & c' & Hloop & Hit' & Hsum'); [lia|lia|].
    exists w', c'. split; [exact Hloop|]. split; lia.
Qed.

(** Without a cap, with a positive batch size and an interval that is not
    negative, the loop is still running after any number of rounds. *)
Lemma polling_loop_runs_on (config : PollingConfig) (symbols : list string) :
  cap_reached (max_iterations config) 0 = false ->
  (forall cap, max_iterations config = Some cap -> cap <= 0) ->
  0 < batch_size config -> 0 <= interval_minutes config ->
  forall (fuel : nat) (c : PollingCounters) (w : World),
    0 <= pc_iteration c ->
    polling_loop note fuel config symbols c w = None.
Proof.
  intros Hcap0 Hcap Hpos Hint.
  assert (Hsleep : py_sleep (interval_minutes config * 60) = Ok tt).
  { unfold py_sleep.
    replace (interval_minutes config * 60 <? 0) with false
      by (symmetry; apply Z.ltb_ge; lia).
    reflexivity. }
  assert (Hnever : forall i, 0 <= i -> cap_reached (max_iterations config) i = false).
  { intros i Hi. unfold cap_reached in *.
    destruct (max_iterations config) as [cap|]; [|reflexivity].
    specialize (Hcap cap eq_refl).
    destruct (Z.eqb_spec cap 0) as [Heq|Hne]; [reflexivity|].
    cbn [negb andb] in *. apply Z.leb_gt in Hcap0. lia. }
  induction fuel as [|fuel IH]; intros c w Hit; [reflexivity|].
  cbn [polling_loop]. rewrite (Hnever _ Hit).
  destruct (polling_round_counts config symbols c w Hpos)
    as (w1 & c1 & Hround & Hit1 & _).
  rewrite Hsleep in Hround. rewrite Hround. apply IH. lia.
Qed.

End PollingRounds.

(** X20.  The accounting of [continuous_polling].  With a cap on the
    iterations, a positive batch size and an interval that is not negative
    the call returns after as many iterations as the cap, each counted once
    as a successful or as a failed cycle, and with the symbols of the
    configuration filled in.  A cap of zero or no cap, under the same
    conditions, is no cap: the loop does not end.  A batch size of zero ends
    the call in its first iteration, counted as one failed cycle with no
    record.  A negative interval ends it in its first iteration as well, at
    the sleep, and then one iteration is counted as two cycles. *)
Theorem polling_cycle_accounting `{PyRuntime} `{PyArith}
    (note : Level -> PollingMsg -> M unit) (config : PollingConfig) (w : World) :
  only_logs note ->
  let given := match symbols_of config with
               | None => default_symbols
               | Some l => l
               end in
  (forall cap fuel,
     max_iterations config = Some cap -> 0 < cap ->
     0 < batch_size config -> 0 <= interval_minutes config ->
     (Z.to_nat cap < fuel)%nat ->
     exists w' cfg r,
       continuous_polling note fuel config w = Some (w', Ok (cfg, r))
       /\ total_iterations r = cap
       /\ successful_cycles r + failed_cycles r = cap
       /\ 0 <= successful_cycles r /\ 0 <= failed_cycles r
       /\ symbols_of cfg = Some given)
  /\ (forall fuel,
        (forall cap, max_iterations config = Some cap -> cap = 0) ->
        0 < batch_size config -> 0 <= interval_minutes config ->
        continuous_polling note fuel config w = None)
  /\ (forall fuel,
        cap_reached (max_iterations config) 0 = false ->
        batch_size config = 0 ->
        exists w' cfg r,
          continuous_polling note (S fuel) config w = Some (w', Ok (cfg, r))
          /\ total_iterations r = 1
          /\ successful_cycles r = 0 /\ failed_cycles r = 1
          /\ polling_records_processed r = 0)
  /\ (forall fuel,
        cap_reached (max_iterations config) 0 = false ->
        0 < batch_size config -> interval_minutes config < 0 ->
        exists w' cfg r,
          continuous_polling note (S fuel) config w = Some (w', Ok (cfg, r))
          /\ total_iterations r = 1
          /\ successful_cycles r + failed_cycles r = 2).
Proof.
  intros Hnote given.
  destruct (note_run note INFO (StartingContinuousPolling (interval_minutes config))
              w Hnote) as (w0 & Hstart & _).
  set (cfg := {| interval_minutes := interval_minutes config;
                 max_iterations := max_iterations config;
                 symbols_of := Some given;
                 interval_of := interval_of config;
                 batch_size := batch_size config;
                 retry_on_failure := retry_on_failure config;
                 max_retries := max_retries config |}).
  set (c0 := {| pc_iteration := 0; pc_total_records := 0;
                pc_successful_cycles := 0; pc_failed_cycles := 0 |}).
  assert (Hunfold : forall fuel,
             continuous_polling note fuel config w
             = match polling_loop note fuel cfg given c0 w0 with
               | None => None
               | Some (w1, c, ended) =>
                   let finish (c : PollingCounters) : M (PollingConfig * PollingResult) :=
                     let* end_time := get_utcnow in
                     ret (cfg,
                          {| total_iterations := pc_iteration c;
                             successful_cycles := pc_successful_cycles c;
                             failed_cycles := pc_failed_cycles c;
                             polling_records_processed := pc_total_records c;
                             polling_start_time := utcnow w0;
                             polling_end_time := end_time;
                             total_duration := dt_micros end_time - dt_micros (utcnow w0);
                             polling_success_rate :=
                               percentage (pc_successful_cycles c) (pc_iteration c) |}) in
                   match ended with
                   | None => Some (finish c w1)
                   | Some e =>
                       Some ((note ERROR (ErrorInContinuousPolling e) >>
                              finish {| pc_iteration := pc_iteration c;
                                        pc_total_records := pc_total_records c;
                                        pc_successful_cycles := pc_successful_cycles c;
                                        pc_failed_cycles := pc_failed_cycles c + 1 |}) w1)
                   end
               end).
  { intros fuel. unfold continuous_polling. rewrite Hstart. reflexivity. }
  split; [|split; [|split]].
  - intros cap fuel Hcap Hcpos Hpos Hint Hfuel.
    destruct (polling_loop_reaches_cap note Hnote cfg given cap Hcap Hcpos Hpos Hint
                (Z.to_nat cap) fuel c0 w0) as (w1 & c & Hloop & Hit & Hsum);
      [cbn; lia|exact Hfuel|].
    assert (Hnonneg : forall (n : nat) (fuel : nat) (c1 : PollingCounters) (w1 w2 : World)
                        (c2 : PollingCounters) (ended : option Exn),
               polling_loop note fuel cfg given c1 w1 = Some (w2, c2, ended) ->
               0 <= pc_successful_cycles c1 -> 0 <= pc_failed_cycles c1 ->
               0 <= pc_successful_cycles c2 /\ 0 <= pc_failed_cycles c2).
    { intros _. clear Hloop Hfuel. induction fuel0 as [|fuel0 IH];
        intros c1 w1' w2 c2 ended Hl Hs Hf; [discriminate|].
      cbn [polling_loop] in Hl.
      destruct (cap_reached (max_iterations cfg) (pc_iteration c1)).
      - destruct (note INFO _ w1') as [w3 [u|e]]; injection Hl as <- <- <-; lia.
      - destruct (polling_round_counts note Hnote cfg given c1 w1' Hpos)
          as (w3 & c3 & Hround & _ & _ & Hs3 & Hf3).
        rewrite Hround in Hl.
        destruct (py_sleep (interval_minutes cfg * 60)) as [u|e].
        + apply (IH c3 w3 w2 c2 ended Hl); lia.
        + injection Hl as <- <- <-. lia. }
    destruct (Hnonneg O fuel c0 w0 w1 c None Hloop) as (Hs & Hf); [cbn; lia|cbn; lia|].
    rewrite Hunfold, Hloop. cbv zeta. unfold get_utcnow, bind, ret.
    eexists _, _, _. split; [reflexivity|]. cbn. repeat split; try lia.
    cbn in Hsum. lia.
  - intros fuel Hcap Hpos Hint. rewrite Hunfold.
    rewrite (polling_loop_runs_on note Hnote cfg given); try assumption.
    + reflexivity.
    + unfold cap_reached. cbn. destruct (max_iterations config) as [cap|] eqn:Hc;
        [|reflexivity].
      rewrite (Hcap cap eq_refl). reflexivity.
    + cbn. intros cap Hc. rewrite (Hcap cap Hc). lia.
    + cbn. lia.
  - intros fuel Hcap Hzero. rewrite Hunfold. cbn [polling_loop].
    change (max_iterations cfg) with (max_iterations config).
    change (pc_iteration c0) with 0. rewrite Hcap.
    destruct (polling_round_zero_batch note Hnote cfg given c0 w0 Hzero)
      as (w1 & Hround).
    rewrite Hround. cbv zeta.
    note_step Hnote. unfold get_utcnow, bind, ret.
    eexists _, _, _. split; [reflexivity|]. cbn. repeat split.
  - intros fuel Hcap Hpos Hneg. rewrite Hunfold. cbn [polling_loop].
    change (max_iterations cfg) with (max_iterations config).
    change (pc_iteration c0) with 0. rewrite Hcap.
    destruct (polling_round_counts note Hnote cfg given c0 w0 Hpos)
      as (w1 & c1 & Hround & Hit1 & Hsum1 & _).
    assert (Hsleep : py_sleep (interval_minutes cfg * 60)
                     = Err (ValueError "sleep length must be non-negative")).
    { unfold py_sleep.
      replace (interval_minutes cfg * 60 <? 0) with true
        by (symmetry; apply Z.ltb_lt; cbn; lia).
      reflexivity. }
    rewrite Hsleep in Hround. rewrite Hround. cbv zeta.
    note_step Hnote. unfold get_utcnow, bind, ret.
    eexists _, _, _. split; [reflexivity|]. cbn. cbn in Hit1, Hsum1. lia.
Qed.

(** Witness of X20: three symbols in batches of two; two capped cycles, a
    batch size of zero, and a negative interval. *)
Lemma polling_cycle_accounting_witness :
  only_logs (@silent PollingMsg)
  /\ (exists w' cfg r,
        continuous_polling silent 3 (abc_polling 5 (Some 2) 2) abc_world
        = Some (w', Ok (cfg, r))
        /\ total_iterations r = 2
        /\ successful_cycles r + failed_cycles r = 2)
  /\ (exists w' cfg r,
        continuous_polling silent 1 (abc_polling 5 None 0) abc_world
        = Some (w', Ok (cfg, r))
        /\ total_iterations r = 1 /\ failed_cycles r = 1)
  /\ (exists w' cfg r,
        continuous_polling silent 1 (abc_polling (-1) None 2) abc_world
        = Some (w', Ok (cfg, r))
        /\ total_iterations r = 1
        /\ successful_cycles r + failed_cycles r = 2).
Proof.
  split; [exact silent_only_logs|]. split; [|split].
  - destruct (proj1 (polling_cycle_accounting silent (abc_polling 5 (Some 2) 2)
                       abc_world silent_only_logs) 2 3%nat eq_refl)
      as (w' & cfg & r & Hrun & Hit & Hsum & _); [lia|cbn; lia|cbn; lia|cbn; lia|].
    exists w', cfg, r. auto.
  - destruct (proj1 (proj2 (proj2 (polling_cycle_accounting silent
                                     (abc_polling 5 None 0) abc_world
                                     silent_only_logs))) 0%nat eq_refl eq_refl)
      as (w' & cfg & r & Hrun & Hit & _ & Hf & _).
    exists w', cfg, r. auto.
  - destruct (proj2 (proj2 (proj2 (polling_cycle_accounting silent
                                     (abc_polling (-1) None 2) abc_world
                                     silent_only_logs))) 0%nat eq_refl)
      as (w' & cfg & r & Hrun & Hit & Hsum); [cbn; lia|cbn; lia|].
    exists w', cfg, r. auto.
Defined.
